(** * connbridge: a journaling TCP connection bridge

    Shallow embedding of [src/connbridge.c] and the properties of its
    address formatter, journal store, bridge engine, acceptor and start-up
    code.

    The program talks to the kernel and to the C library all the time.  The
    embedding makes that explicit: a [World] value holds the file system,
    the stdio streams, the sockets with the scripted answers of the kernel,
    and the standard error log; every C function becomes a function that
    takes a world and returns its result together with the new world. *)

From Stdlib Require Import ZArith Lia List Bool Ascii String.
From stdpp Require Import base strings gmap list.

Open Scope Z_scope.

(** ** Constants of the source and of the system headers *)

(** [#define BACKLOG 1000] *)
Definition BACKLOG : Z := 1000.
(** [#define FILE_BUFSIZE 8192] *)
Definition FILE_BUFSIZE : nat := Z.to_nat 8192.
Arguments FILE_BUFSIZE : simpl never.
(** [#define FILE_EOF ( -1 )] *)
Definition FILE_EOF : Z := -1.
(** [#define FILE_ERROR ( -2 )] *)
Definition FILE_ERROR : Z := -2.

(** Values of <sys/socket.h> and <netinet/in.h> on Linux. *)
Definition AF_INET : Z := 2.
Definition AF_INET6 : Z := 10.
Definition sizeof_sockaddr_in : Z := 16.
Definition sizeof_sockaddr_in6 : Z := 28.
Definition INET6_ADDRSTRLEN : nat := 46.

(** The values of [errno] the program tests for or that the examples use.
    [EAGAIN] and [EWOULDBLOCK] are kept apart, as in the source, which
    tests for both. *)
Inductive errno : Set :=
| EINTR | EAGAIN | EWOULDBLOCK | EINPROGRESS
| EINVAL | EAFNOSUPPORT | EILSEQ
| EBADF | EIO | ENOMEM | EMFILE | ENOSPC
| ECONNRESET | ECONNABORTED | ECONNREFUSED | EPIPE | ENOTCONN | EADDRINUSE.

Definition errno_eqb (a b : errno) : bool :=
  match a, b with
  | EINTR, EINTR | EAGAIN, EAGAIN | EWOULDBLOCK, EWOULDBLOCK
  | EINPROGRESS, EINPROGRESS | EINVAL, EINVAL | EAFNOSUPPORT, EAFNOSUPPORT
  | EILSEQ, EILSEQ | EBADF, EBADF | EIO, EIO | ENOMEM, ENOMEM
  | EMFILE, EMFILE | ENOSPC, ENOSPC | ECONNRESET, ECONNRESET
  | ECONNABORTED, ECONNABORTED | ECONNREFUSED, ECONNREFUSED
  | EPIPE, EPIPE | ENOTCONN, ENOTCONN | EADDRINUSE, EADDRINUSE => true
  | _, _ => false
  end.

(** ** Socket addresses *)

(** A socket address as it lies in memory: the family field, then the bytes
    that follow it.  [struct sockaddr_in] keeps the port in bytes 0-1 and
    the address in bytes 2-5 of that tail; [struct sockaddr_in6] keeps the
    port in bytes 0-1, the flow label in bytes 2-5, the address in bytes
    6-21 and the scope in bytes 22-25. *)
Record sockaddr : Type := Sockaddr {
  sa_family : Z;
  sa_data : list Byte.byte
}.

Definition byteZ (b : Byte.byte) : Z := Z.of_N (Byte.to_N b).

Definition data_at (addr : sockaddr) (i : nat) : Z :=
  byteZ (nth i (sa_data addr) Byte.x00).

(** [sin_port] and [sin6_port]: two bytes in network order. *)
Definition sin_port (addr : sockaddr) : Z * Z := (data_at addr 0, data_at addr 1).
(** [sin_addr]: four bytes. *)
Definition sin_addr (addr : sockaddr) : list Z :=
  map (data_at addr) (seq 2 4).
(** [sin6_addr]: sixteen bytes. *)
Definition sin6_addr (addr : sockaddr) : list Z :=
  map (data_at addr) (seq 6 16).

(** [ntohs]: the 16-bit value whose network-order bytes are [hi], [lo]. *)
Definition ntohs (p : Z * Z) : Z := 256 * fst p + snd p.

(** ** Number formatting of the C library *)

Definition digit_char (d : Z) : ascii :=
  ascii_of_nat (Z.to_nat (if d <? 10 then 48 + d else 87 + d)).

Fixpoint utoa_go (base : Z) (fuel : nat) (n : Z) (acc : string) : string :=
  match fuel with
  | O => acc
  | S fuel' =>
    let acc' := String (digit_char (n mod base)) acc in
    if n / base =? 0 then acc' else utoa_go base fuel' (n / base) acc'
  end.

(** ["%u"] for an [unsigned int]: ten digits at most. *)
Definition fmt_u (n : Z) : string := utoa_go 10 10 n "".
(** ["%x"] for an [unsigned int]: eight digits at most. *)
Definition fmt_x (n : Z) : string := utoa_go 16 8 n "".

(** [snprintf( dst, size, ... )]: what ends up in [dst] at the terminating
    zero, and the returned length of the whole rendering.  With ["%s"] and
    ["%u"] conversions there is no encoding error, so the return value is
    never negative. *)
Definition snprintf (size : nat) (s : string) : string * Z :=
  (substring 0 (size - 1) s, Z.of_nat (String.length s)).

(** ** [inet_ntop] of the C library *)

(** [inet_ntop( AF_INET, ... )]: dotted decimal. *)
Definition inet_ntop4 (a : list Z) : string :=
  fmt_u (nth 0 a 0) +:+ "." +:+ fmt_u (nth 1 a 0) +:+ "." +:+
  fmt_u (nth 2 a 0) +:+ "." +:+ fmt_u (nth 3 a 0).

(** The eight 16-bit words of an IPv6 address. *)
Fixpoint words_of (bs : list Z) : list Z :=
  match bs with
  | hi :: lo :: bs' => (256 * hi + lo) :: words_of bs'
  | _ => []
  end.

(** The longest run of zero words, the first one among equals:
    [cur] and [best] are [(base, len)] pairs, [None] for base [-1]. *)
Definition better (cur best : option (nat * nat)) : option (nat * nat) :=
  match cur, best with
  | Some (cb, cl), Some (bb, bl) => if (bl <? cl)%nat then cur else best
  | Some _, None => cur
  | None, _ => best
  end.

Fixpoint zero_runs (i : nat) (ws : list Z) (cur best : option (nat * nat))
  : option (nat * nat) :=
  match ws with
  | [] => better cur best
  | w :: ws' =>
    if w =? 0 then
      match cur with
      | None => zero_runs (S i) ws' (Some (i, 1%nat)) best
      | Some (cb, cl) => zero_runs (S i) ws' (Some (cb, S cl)) best
      end
    else zero_runs (S i) ws' None (better cur best)
  end.

Definition best_run (ws : list Z) : option (nat * nat) :=
  match zero_runs 0 ws None None with
  | Some (b, l) => if (l <? 2)%nat then None else Some (b, l)
  | None => None
  end.

Definition in_run (best : option (nat * nat)) (i : nat) : bool :=
  match best with
  | Some (b, l) => (b <=? i)%nat && (i <? b + l)%nat
  | None => false
  end.

Definition is_run_base (best : option (nat * nat)) (i : nat) : bool :=
  match best with Some (b, _) => (i =? b)%nat | None => false end.

(** An address whose first five or six words are the compressed run and
    that carries an IPv4 address in its last four bytes. *)
Definition encapsulated_v4 (best : option (nat * nat)) (ws : list Z) : bool :=
  match best with
  | Some (b, l) =>
    (b =? 0)%nat && ((l =? 6)%nat || ((l =? 5)%nat && (nth 5 ws 0 =? 65535)))
  | None => false
  end.

Fixpoint ntop6_words (idx : list nat) (best : option (nat * nat))
    (ws : list Z) (v4 : list Z) : string :=
  match idx with
  | [] => ""
  | i :: idx' =>
    if in_run best i then
      (if is_run_base best i then ":" else "") +:+ ntop6_words idx' best ws v4
    else
      (if (i =? 0)%nat then "" else ":") +:+
      (if (i =? 6)%nat && encapsulated_v4 best ws then inet_ntop4 v4
       else fmt_x (nth i ws 0) +:+ ntop6_words idx' best ws v4)
  end.

(** [inet_ntop( AF_INET6, ... )]: hexadecimal groups, the longest run of
    at least two zero groups written [::], an encapsulated IPv4 address in
    dotted decimal. *)
Definition inet_ntop6 (a : list Z) : string :=
  let ws := words_of a in
  let best := best_run ws in
  ntop6_words (seq 0 8) best ws (drop 12 a) +:+
  (match best with
   | Some (b, l) => if (b + l =? 8)%nat then ":" else ""
   | None => ""
   end).

(** ** Address formatter *)

(** [static char result[INET6_ADDRSTRLEN + 16]] *)
Definition RESULT_SIZE : nat := (INET6_ADDRSTRLEN + 16)%nat.

(** [satos]: [inl e] is the null pointer with [errno = e], [inr s] the
    string in the static buffer.  [buf] has [INET6_ADDRSTRLEN] bytes, which
    every rendering of [inet_ntop] fits, so [rcp] is never null. *)
Definition satos (addr : sockaddr) (socklen : Z) : errno + string :=
  let formatted : errno + (string * Z) :=
    if sa_family addr =? AF_INET then
      if socklen <? sizeof_sockaddr_in then inl EINVAL
      else
        let rcp := inet_ntop4 (sin_addr addr) in
        let port := ntohs (sin_port addr) in
        inr (snprintf RESULT_SIZE (rcp +:+ ":" +:+ fmt_u port))
    else if sa_family addr =? AF_INET6 then
      if socklen <? sizeof_sockaddr_in6 then inl EINVAL
      else
        let rcp := inet_ntop6 (sin6_addr addr) in
        let port := ntohs (sin_port addr) in
        inr (snprintf RESULT_SIZE ("[" +:+ rcp +:+ "]:" +:+ fmt_u port))
    else inl EAFNOSUPPORT in
  match formatted with
  | inl e => inl e
  | inr (result, rc) => if rc <? 0 then inl EILSEQ else inr result
  end.

(** Addresses for the examples. *)
Definition bytes_of (l : list Z) : list Byte.byte :=
  map (fun z => match Byte.of_N (Z.to_N z) with Some b => b | None => Byte.x00 end) l.

Definition mk_in (a b c d port : Z) : sockaddr :=
  Sockaddr AF_INET (bytes_of [port / 256; port mod 256; a; b; c; d; 0; 0; 0; 0; 0; 0; 0; 0]).

Definition mk_in6 (a : list Z) (port : Z) : sockaddr :=
  Sockaddr AF_INET6 (bytes_of ([port / 256; port mod 256; 0; 0; 0; 0] ++ a ++ [0; 0; 0; 0])).

(** ** libev watchers *)

(** Event bits of <ev.h> (libev 4). *)
Definition EV_READ : Z := 1.
Definition EV_WRITE : Z := 2.
Definition EV__IOFDSET : Z := 128.
Definition EV_ERROR : Z := 2147483648.

(** [ev_io]: the descriptor, the event mask and libev's [active] field.
    The [data] pointer always points back to the owning structure and is
    left out. *)
Record ev_io : Type := EvIo {
  fd : Z;
  events : Z;
  active : bool
}.

(** [ev_io_set( ev, fd, events )] stores the mask with [EV__IOFDSET]. *)
Definition ev_io_set (ev : ev_io) (fd_ events_ : Z) : ev_io :=
  {| fd := fd_; events := Z.lor events_ EV__IOFDSET; active := active ev |}.

(** [ev_io_init( ev, cb, fd, events )]: [ev_init] clears [active]. *)
Definition ev_io_init (fd_ events_ : Z) : ev_io :=
  ev_io_set {| fd := fd_; events := 0; active := false |} fd_ events_.

(** [ev_io_start]: nothing for an active watcher; else the watcher joins
    the loop and libev clears [EV__IOFDSET] in its mask. *)
Definition ev_io_start (ev : ev_io) : ev_io :=
  if active ev then ev
  else {| fd := fd ev; events := Z.ldiff (events ev) EV__IOFDSET; active := true |}.

(** [ev_io_stop]: the watcher leaves the loop. *)
Definition ev_io_stop (ev : ev_io) : ev_io :=
  {| fd := fd ev; events := events ev; active := false |}.

(** ** The world: kernel, C library, file system *)

(** What the next [read] on a socket returns: some bytes (none is
    end-of-file) or an error.  With no entry left, [read] reports
    [EAGAIN]. *)
Inductive read_event : Type :=
| RData (bs : list Byte.byte)
| RErr (e : errno).

(** What the next [write] on a socket does: take up to [n] bytes, or fail.
    With no entry left, [write] reports [EAGAIN]. *)
Inductive write_event : Type :=
| WAccept (n : nat)
| WErr (e : errno).

Definition SHUT_RD : Z := 0.
Definition SHUT_WR : Z := 1.

Record Socket : Type := MkSocket {
  s_local : sockaddr * Z;          (* what getsockname reports *)
  s_peer : sockaddr * Z;           (* the remote endpoint *)
  s_rq : list read_event;
  s_wq : list write_event;
  s_cq : list (option errno);      (* what the next connect calls return *)
  s_soerr : Z;                     (* SO_ERROR *)
  s_sent : list Byte.byte;         (* bytes taken by write so far *)
  s_nonblock : bool;
  s_cloexec : bool;
  s_reuseaddr : bool;
  s_backlog : option Z             (* listening, with this backlog *)
}.

(** What the next [accept4] on a listening socket returns: a connection
    (the new socket, whose [s_peer] is the client) or an error.  With no
    entry left, [accept4] reports [EAGAIN]. *)
Inductive accept_event : Type :=
| AConn (s : Socket)
| AErr (e : errno).

(** A stdio stream opened with mode ["a+"]: the file it names and its
    position indicator. *)
Record Stream : Type := MkStream {
  st_name : string;
  st_pos : nat
}.

Record World : Type := MkWorld {
  w_fs : gmap string (list Byte.byte);     (* working directory *)
  w_streams : gmap nat Stream;             (* open FILE objects *)
  w_socks : gmap Z Socket;                 (* open descriptors *)
  w_pending : gmap Z (list accept_event);  (* accept queues *)
  w_dial : list Socket;                    (* sockets the next socket calls make *)
  w_nextfd : Z;
  w_nextfile : nat;
  w_faults : list (option errno);          (* outcome of the next fallible calls *)
  w_shut : list (Z * Z);                   (* shutdown calls so far, latest first *)
  w_stderr : list string;
  w_stdout : list string
}.

Definition set_fs (x : gmap string (list Byte.byte)) (w : World) : World :=
  MkWorld x (w_streams w) (w_socks w) (w_pending w) (w_dial w) (w_nextfd w)
          (w_nextfile w) (w_faults w) (w_shut w) (w_stderr w) (w_stdout w).
Definition set_streams (x : gmap nat Stream) (w : World) : World :=
  MkWorld (w_fs w) x (w_socks w) (w_pending w) (w_dial w) (w_nextfd w)
          (w_nextfile w) (w_faults w) (w_shut w) (w_stderr w) (w_stdout w).
Definition set_socks (x : gmap Z Socket) (w : World) : World :=
  MkWorld (w_fs w) (w_streams w) x (w_pending w) (w_dial w) (w_nextfd w)
          (w_nextfile w) (w_faults w) (w_shut w) (w_stderr w) (w_stdout w).
Definition set_pending (x : gmap Z (list accept_event)) (w : World) : World :=
  MkWorld (w_fs w) (w_streams w) (w_socks w) x (w_dial w) (w_nextfd w)
          (w_nextfile w) (w_faults w) (w_shut w) (w_stderr w) (w_stdout w).
Definition set_dial (x : list Socket) (w : World) : World :=
  MkWorld (w_fs w) (w_streams w) (w_socks w) (w_pending w) x (w_nextfd w)
          (w_nextfile w) (w_faults w) (w_shut w) (w_stderr w) (w_stdout w).
Definition set_nextfd (x : Z) (w : World) : World :=
  MkWorld (w_fs w) (w_streams w) (w_socks w) (w_pending w) (w_dial w) x
          (w_nextfile w) (w_faults w) (w_shut w) (w_stderr w) (w_stdout w).
Definition set_nextfile (x : nat) (w : World) : World :=
  MkWorld (w_fs w) (w_streams w) (w_socks w) (w_pending w) (w_dial w) (w_nextfd w)
          x (w_faults w) (w_shut w) (w_stderr w) (w_stdout w).
Definition set_faults (x : list (option errno)) (w : World) : World :=
  MkWorld (w_fs w) (w_streams w) (w_socks w) (w_pending w) (w_dial w) (w_nextfd w)
          (w_nextfile w) x (w_shut w) (w_stderr w) (w_stdout w).
Definition set_shut (x : list (Z * Z)) (w : World) : World :=
  MkWorld (w_fs w) (w_streams w) (w_socks w) (w_pending w) (w_dial w) (w_nextfd w)
          (w_nextfile w) (w_faults w) x (w_stderr w) (w_stdout w).
Definition set_stderr (x : list string) (w : World) : World :=
  MkWorld (w_fs w) (w_streams w) (w_socks w) (w_pending w) (w_dial w) (w_nextfd w)
          (w_nextfile w) (w_faults w) (w_shut w) x (w_stdout w).
Definition set_stdout (x : list string) (w : World) : World :=
  MkWorld (w_fs w) (w_streams w) (w_socks w) (w_pending w) (w_dial w) (w_nextfd w)
          (w_nextfile w) (w_faults w) (w_shut w) (w_stderr w) x.

(** A line on standard error.  Lines are kept as their format strings. *)
Definition elog (msg : string) (w : World) : World :=
  set_stderr (w_stderr w ++ [msg]) w.

(** The outcome of the next fallible call: [None] is success. *)
Definition next_fault (w : World) : option errno * World :=
  (match w_faults w with
   | [] => None
   | r :: _ => r
   end, set_faults (tail (w_faults w)) w).

(** The bytes of a file of the working directory. *)
Definition file_bytes (w : World) (name : string) : list Byte.byte :=
  default [] (w_fs w !! name).

(** ** stdio on a journal stream *)

(** Every call first takes the next scripted outcome; a call on a stream
    that is not open fails. *)

(** [fopen( name, "a+" )]: the file is created when absent.  A stream is
    a file name and a position; the descriptor under it is not modelled,
    and [w_socks] holds sockets only. *)
Definition fopen (w : World) (name : string) : option nat * World :=
  let '(r, w) := next_fault w in
  match r with
  | Some _ => (None, w)
  | None =>
    let f := w_nextfile w in
    let w := set_fs (<[name := file_bytes w name]> (w_fs w)) w in
    let w := set_streams (<[f := MkStream name 0]> (w_streams w)) w in
    (Some f, set_nextfile (S f) w)
  end.

(** [fseek( f, 0, SEEK_END )] *)
Definition fseek_end (w : World) (f : nat) : Z * World :=
  let '(r, w) := next_fault w in
  match r, w_streams w !! f with
  | None, Some st =>
    let st' := MkStream (st_name st) (length (file_bytes w (st_name st))) in
    (0, set_streams (<[f := st']> (w_streams w)) w)
  | _, _ => (-1, w)
  end.

(** [fseek( f, off, SEEK_CUR )] *)
Definition fseek_cur (w : World) (f : nat) (off : nat) : Z * World :=
  let '(r, w) := next_fault w in
  match r, w_streams w !! f with
  | None, Some st =>
    (0, set_streams (<[f := MkStream (st_name st) (st_pos st + off)]> (w_streams w)) w)
  | _, _ => (-1, w)
  end.

(** [fgetpos( f, &pos )]: [pos] keeps its value on failure. *)
Definition fgetpos (w : World) (f : nat) (pos : nat) : Z * nat * World :=
  let '(r, w) := next_fault w in
  match r, w_streams w !! f with
  | None, Some st => (0, st_pos st, w)
  | _, _ => (-1, pos, w)
  end.

(** [fsetpos( f, &pos )] *)
Definition fsetpos (w : World) (f : nat) (pos : nat) : Z * World :=
  let '(r, w) := next_fault w in
  match r, w_streams w !! f with
  | None, Some st =>
    (0, set_streams (<[f := MkStream (st_name st) pos]> (w_streams w)) w)
  | _, _ => (-1, w)
  end.

(** [fread( buf, 1, n, f )] followed by [feof( f )]: the bytes read and
    whether the end of the file was reached. *)
Definition fread (w : World) (f : nat) (n : nat) : list Byte.byte * bool * World :=
  let '(r, w) := next_fault w in
  match r, w_streams w !! f with
  | None, Some st =>
    let buf := take n (drop (st_pos st) (file_bytes w (st_name st))) in
    let st' := MkStream (st_name st) (st_pos st + length buf) in
    (buf, (length buf <? n)%nat, set_streams (<[f := st']> (w_streams w)) w)
  | _, _ => ([], false, w)
  end.

(** [fwrite( buf, len, 1, f )] on an append-mode stream: the bytes go to
    the end of the file, wherever the position indicator is.  The stream
    has no buffer of its own here: the bytes are in the file at once,
    where stdio may hold them back until the next [fsetpos], [fseek] or
    [fclose].  File contents therefore stand for the program's only
    where it has flushed, as at the end of a dispatch that has replayed
    what it wrote. *)
Definition fwrite (w : World) (f : nat) (buf : list Byte.byte) : bool * World :=
  let '(r, w) := next_fault w in
  match r, w_streams w !! f with
  | None, Some st =>
    let bytes := file_bytes w (st_name st) ++ buf in
    let w := set_fs (<[st_name st := bytes]> (w_fs w)) w in
    (true, set_streams (<[f := MkStream (st_name st) (length bytes)]> (w_streams w)) w)
  | _, _ => (false, w)
  end.

(** [close_fd]: [close] is repeated while it reports [EINTR]; any other
    outcome releases the descriptor. *)
Fixpoint close_fd_loop (faults : list (option errno)) (w : World) (fd_ : Z) : World :=
  match faults with
  | Some e :: rest =>
    if errno_eqb e EINTR then close_fd_loop rest w fd_
    else elog "Unable to properly close fd %d: %s"
           (set_faults rest (set_socks (delete fd_ (w_socks w)) w))
  | _ => set_faults (tail faults) (set_socks (delete fd_ (w_socks w)) w)
  end.

Definition close_fd (w : World) (fd_ : Z) : World :=
  close_fd_loop (w_faults w) w fd_.

(** [close_output_file]: [fclose] is repeated while it reports [EINTR];
    any other outcome releases the stream.  The loop is the source's; in
    the model an interrupted [fclose] leaves the stream open, where C
    leaves a second [fclose] of the same stream undefined. *)
Fixpoint close_output_file_loop (faults : list (option errno)) (w : World) (f : nat) : World :=
  match faults with
  | Some e :: rest =>
    if errno_eqb e EINTR then close_output_file_loop rest w f
    else elog "Unable to properly close file"
           (set_faults rest (set_streams (delete f (w_streams w)) w))
  | _ => set_faults (tail faults) (set_streams (delete f (w_streams w)) w)
  end.

Definition close_output_file (w : World) (f : nat) : World :=
  close_output_file_loop (w_faults w) w f.

(** ** Journal store *)

(** [open_output_file]: the stream and the initial cursor, or [None] for
    the null pointer. *)
Definition open_output_file (w : World) (addrlen : Z) (addr : sockaddr)
  : option (nat * nat) * World :=
  match satos addr addrlen with
  | inl _ => (None, elog "Unable to obtain output file name." w)
  | inr name =>
    let '(result, w) := fopen w name in
    match result with
    | None => (None, elog "Unable to open output file '%s': %s" w)
    | Some f =>
      let '(rc, w) := fseek_end w f in
      if negb (rc =? 0) then
        (None, close_output_file (elog "Unable to seek to end of file '%s': %s" w) f)
      else
        let '(rc, pos, w) := fgetpos w f 0%nat in
        if negb (rc =? 0) then
          (None, close_output_file
                   (elog "Unable to obtain file position of file '%s': %s" w) f)
        else (Some (f, pos), w)
    end
  end.

Definition would_block (e : errno) : bool :=
  errno_eqb e EAGAIN || errno_eqb e EWOULDBLOCK.

(** The loop of [read_into_file] over the answers [rq] of the coming
    [read] calls: the returned code, [*count], the answers left.  [read]
    is asked for [FILE_BUFSIZE] bytes and returns no more than that. *)
Fixpoint read_into_file_loop (rq : list read_event) (w : World) (f : nat) (count : nat)
  : Z * nat * list read_event * World :=
  match rq with
  | [] => (0, count, [], w)                                   (* EAGAIN *)
  | RErr e :: rq' =>
    if errno_eqb e EINTR then read_into_file_loop rq' w f count
    else if would_block e then (0, count, rq', w)
    else (FILE_EOF, count, rq', elog "Error reading from connection %d: %s" w)
  | RData bs :: rq' =>
    let buf := take FILE_BUFSIZE bs in
    if (length buf =? 0)%nat then (FILE_EOF, count, rq', w)
    else
      let '(isWritten, w) := fwrite w f buf in
      if negb isWritten then (FILE_ERROR, count, rq', elog "Unable to write to file" w)
      else read_into_file_loop rq' w f (count + length buf)
  end.

Definition set_rq (fd_ : Z) (rq : list read_event) (w : World) : World :=
  match w_socks w !! fd_ with
  | Some s =>
    set_socks (<[fd_ := MkSocket (s_local s) (s_peer s) rq (s_wq s) (s_cq s) (s_soerr s)
                          (s_sent s) (s_nonblock s) (s_cloexec s) (s_reuseaddr s)
                          (s_backlog s)]> (w_socks w)) w
  | None => w
  end.

Definition set_wq_sent (fd_ : Z) (wq : list write_event) (sent : list Byte.byte)
    (w : World) : World :=
  match w_socks w !! fd_ with
  | Some s =>
    set_socks (<[fd_ := MkSocket (s_local s) (s_peer s) (s_rq s) wq (s_cq s) (s_soerr s)
                          sent (s_nonblock s) (s_cloexec s) (s_reuseaddr s)
                          (s_backlog s)]> (w_socks w)) w
  | None => w
  end.

(** [read_into_file( fd, f, &count )].  A descriptor that is not open
    makes [read] fail with [EBADF]. *)
Definition read_into_file (w : World) (fd_ : Z) (f : nat) : Z * nat * World :=
  let rq := match w_socks w !! fd_ with
            | Some s => s_rq s
            | None => [RErr EBADF]
            end in
  let '(rc, count, rq', w) := read_into_file_loop rq w f 0 in
  (rc, count, set_rq fd_ rq' w).

(** The would-block exit of [write_from_file]: the stream goes back to
    the cursor, then [bufpos] bytes forward, and the cursor is read back.
    The returned code and the cursor. *)
Definition write_would_block (w : World) (f : nat) (pos bufpos : nat) : Z * nat * World :=
  (* Update file position *)
  let '(rc, w) := fsetpos w f pos in
  if negb (rc =? 0) then
    (FILE_ERROR, pos, elog "Unable to set correct file position" w)
  else if (0 <? bufpos)%nat then
    let '(rc, w) := fseek_cur w f bufpos in
    if negb (rc =? 0) then
      (FILE_ERROR, pos, elog "Unable to set correct file position" w)
    else
      let '(rc, pos, w) := fgetpos w f pos in
      if negb (rc =? 0) then
        (FILE_ERROR, pos, elog "Unable to obtain current file position" w)
      else (0, pos, w)
  else (0, pos, w).

(** The inner loop of [write_from_file] over the answers [wq] of the
    coming [write] calls, for the chunk [buf] read at cursor [pos]:
    [Some rc] when the function returns from inside the loop, [None] when
    the chunk went out whole; then the cursor, the answers left, the bytes
    the socket took so far. *)
Fixpoint write_chunk (wq : list write_event) (w : World) (f : nat) (pos : nat)
    (buf : list Byte.byte) (bufpos : nat) (sent : list Byte.byte)
  : option Z * nat * list write_event * list Byte.byte * World :=
  if (bufpos =? length buf)%nat then (None, pos, wq, sent, w)
  else
    match wq with
    | [] =>                                                    (* EAGAIN *)
      let '(rc, pos, w) := write_would_block w f pos bufpos in
      (Some rc, pos, [], sent, w)
    | WErr e :: wq' =>
      if errno_eqb e EINTR then write_chunk wq' w f pos buf bufpos sent
      else if would_block e then
        let '(rc, pos, w) := write_would_block w f pos bufpos in
        (Some rc, pos, wq', sent, w)
      else (Some FILE_ERROR, pos, wq', sent, elog "Error writing to socket %d: %s" w)
    | WAccept n :: wq' =>
      let bytesWritten := Nat.min n (length buf - bufpos) in
      write_chunk wq' w f pos buf (bufpos + bytesWritten)
                  (sent ++ take bytesWritten (drop bufpos buf))
    end.

(** The outer loop of [write_from_file]; [None] when [fuel] chunks were
    not enough. *)
Fixpoint write_from_file_loop (fuel : nat) (wq : list write_event) (w : World) (f : nat)
    (pos : nat) (sent : list Byte.byte)
  : option (Z * nat * list write_event * list Byte.byte * World) :=
  match fuel with
  | O => None
  | S fuel' =>
    (* Read from file *)
    let '(buf, at_eof, w) := fread w f FILE_BUFSIZE in
    if (length buf =? 0)%nat then
      if at_eof then Some (FILE_EOF, pos, wq, sent, w)
      else Some (FILE_ERROR, pos, wq, sent, elog "Error reading from file" w)
    else
      (* Write to socket *)
      match write_chunk wq w f pos buf 0 sent with
      | (Some rc, pos, wq, sent, w) => Some (rc, pos, wq, sent, w)
      | (None, pos, wq, sent, w) =>
        (* Update file position *)
        let '(rc, pos, w) := fgetpos w f pos in
        if negb (rc =? 0) then
          Some (FILE_ERROR, pos, wq, sent,
                elog "Unable to obtain current file position" w)
        else write_from_file_loop fuel' wq w f pos sent
      end
  end.

(** [write_from_file( fd, f, &pos )]: the returned code and the cursor.
    Every chunk that goes out whole uses up an answer of the socket, so
    one chunk more than there are answers is enough fuel.  A descriptor
    that is not open makes [write] fail with [EBADF]. *)
Definition write_from_file (w : World) (fd_ : Z) (f : nat) (pos : nat)
  : option (Z * nat * World) :=
  (* Set initial reading position *)
  let '(rc, w) := fsetpos w f pos in
  if negb (rc =? 0) then
    Some (FILE_ERROR, pos,
          elog "Unable to seek to correct file position for reading" w)
  else
    let '(wq, sent) := match w_socks w !! fd_ with
                       | Some s => (s_wq s, s_sent s)
                       | None => ([WErr EBADF], [])
                       end in
    match write_from_file_loop (S (length wq)) wq w f pos sent with
    | Some (rc, pos, wq, sent, w) => Some (rc, pos, set_wq_sent fd_ wq sent w)
    | None => None
    end.

Arguments read_into_file : simpl never.
Arguments write_from_file : simpl never.

(** ** Bridge *)

(** [struct Bridge].  The streams are [FILE *] handles into [w_streams],
    the cursors are byte offsets. *)
Record Bridge : Type := MkBridge {
  srcwatcher : ev_io;
  destwatcher : ev_io;
  srcFile : nat;
  destFile : nat;
  srcPos : nat;
  destPos : nat;
  eofFromSource : bool;
  sourceFlushed : bool;
  connectedToDestination : bool;
  eofFromDestination : bool;
  destinationFlushed : bool
}.

Definition set_srcwatcher (x : ev_io) (b : Bridge) : Bridge :=
  MkBridge x (destwatcher b) (srcFile b) (destFile b) (srcPos b) (destPos b)
           (eofFromSource b) (sourceFlushed b) (connectedToDestination b)
           (eofFromDestination b) (destinationFlushed b).
Definition set_destwatcher (x : ev_io) (b : Bridge) : Bridge :=
  MkBridge (srcwatcher b) x (srcFile b) (destFile b) (srcPos b) (destPos b)
           (eofFromSource b) (sourceFlushed b) (connectedToDestination b)
           (eofFromDestination b) (destinationFlushed b).
Definition set_srcPos (x : nat) (b : Bridge) : Bridge :=
  MkBridge (srcwatcher b) (destwatcher b) (srcFile b) (destFile b) x (destPos b)
           (eofFromSource b) (sourceFlushed b) (connectedToDestination b)
           (eofFromDestination b) (destinationFlushed b).
Definition set_destPos (x : nat) (b : Bridge) : Bridge :=
  MkBridge (srcwatcher b) (destwatcher b) (srcFile b) (destFile b) (srcPos b) x
           (eofFromSource b) (sourceFlushed b) (connectedToDestination b)
           (eofFromDestination b) (destinationFlushed b).
Definition set_eofFromSource (x : bool) (b : Bridge) : Bridge :=
  MkBridge (srcwatcher b) (destwatcher b) (srcFile b) (destFile b) (srcPos b) (destPos b)
           x (sourceFlushed b) (connectedToDestination b)
           (eofFromDestination b) (destinationFlushed b).
Definition set_sourceFlushed (x : bool) (b : Bridge) : Bridge :=
  MkBridge (srcwatcher b) (destwatcher b) (srcFile b) (destFile b) (srcPos b) (destPos b)
           (eofFromSource b) x (connectedToDestination b)
           (eofFromDestination b) (destinationFlushed b).
Definition set_connectedToDestination (x : bool) (b : Bridge) : Bridge :=
  MkBridge (srcwatcher b) (destwatcher b) (srcFile b) (destFile b) (srcPos b) (destPos b)
           (eofFromSource b) (sourceFlushed b) x
           (eofFromDestination b) (destinationFlushed b).
Definition set_eofFromDestination (x : bool) (b : Bridge) : Bridge :=
  MkBridge (srcwatcher b) (destwatcher b) (srcFile b) (destFile b) (srcPos b) (destPos b)
           (eofFromSource b) (sourceFlushed b) (connectedToDestination b)
           x (destinationFlushed b).
Definition set_destinationFlushed (x : bool) (b : Bridge) : Bridge :=
  MkBridge (srcwatcher b) (destwatcher b) (srcFile b) (destFile b) (srcPos b) (destPos b)
           (eofFromSource b) (sourceFlushed b) (connectedToDestination b)
           (eofFromDestination b) x.

(** What became of the bridge in a callback: still there, or freed by
    [bridge_del]. *)
Inductive fate : Set := Alive | Freed.

(** [bridge_fini]: the bridge is returned as it was left before [free]. *)
Definition bridge_fini (w : World) (bridge : Bridge) : World * Bridge :=
  let bridge := set_srcwatcher (ev_io_stop (srcwatcher bridge)) bridge in
  let bridge := set_destwatcher (ev_io_stop (destwatcher bridge)) bridge in
  let w := close_fd w (fd (srcwatcher bridge)) in
  let w := close_fd w (fd (destwatcher bridge)) in
  let w := close_output_file w (srcFile bridge) in
  let w := close_output_file w (destFile bridge) in
  (w, bridge).

(** [bridge_del] *)
Definition bridge_del (w : World) (bridge : Bridge) : World * Bridge * fate :=
  let '(w, bridge) := bridge_fini w bridge in
  (w, bridge, Freed).

(** [shutdown( fd, how )]: the call is recorded in [w_shut]. *)
Definition shutdown (w : World) (fd_ how : Z) : Z * World :=
  let '(r, w) := next_fault w in
  let w := set_shut ((fd_, how) :: w_shut w) w in
  (match r with None => 0 | Some _ => -1 end, w).

Arguments shutdown : simpl never.

(** [getsockopt( fd, SOL_SOCKET, SO_ERROR, &errcode, &errcodelen )] *)
Definition getsockopt_so_error (w : World) (fd_ : Z) : Z * Z * World :=
  let '(r, w) := next_fault w in
  match r, w_socks w !! fd_ with
  | None, Some s => (0, s_soerr s, w)
  | _, _ => (-1, 0, w)
  end.

(** *** [bridge_cb], block by block *)

(** Which watcher of the bridge the callback was entered for. *)
Inductive which : Set := SrcWatcher | DestWatcher.

Definition watcher_of (bridge : Bridge) (wh : which) : ev_io :=
  match wh with
  | SrcWatcher => srcwatcher bridge
  | DestWatcher => destwatcher bridge
  end.

(** "Check if we need to complete the connection", entered with
    [!bridge->connectedToDestination]. *)
Definition complete_connection (w : World) (bridge : Bridge) (watcher : ev_io)
  : World * Bridge * fate :=
  let '(rc, errcode, w) := getsockopt_so_error w (fd watcher) in
  if negb (rc =? 0) then
    bridge_del
      (elog "Unable to obtain connection completion information for socket %d: %s" w)
      bridge
  else if errcode =? 0 then
    (* Start normal operation *)
    let dw := ev_io_stop (destwatcher bridge) in
    let sw := ev_io_set (srcwatcher bridge) (fd (srcwatcher bridge)) EV_READ in
    let dw := ev_io_set dw (fd dw) EV_READ in
    let sw := ev_io_start sw in
    let dw := ev_io_start dw in
    (w, set_connectedToDestination true (set_destwatcher dw (set_srcwatcher sw bridge)),
     Alive)
  else
    bridge_del (elog "Unable to complete connection for socket %d: %s" w) bridge.

(** "Read source": [false] is [goto error]; then [count]. *)
Definition read_source (w : World) (bridge : Bridge) : bool * nat * World * Bridge :=
  let '(rc, count, w) :=
    if negb (eofFromSource bridge)
    then read_into_file w (fd (srcwatcher bridge)) (srcFile bridge)
    else (0, 0%nat, w) in
  if rc =? FILE_ERROR then
    (false, count, elog "Error reading from source into source output file" w, bridge)
  else if rc =? FILE_EOF then
    let bridge := set_eofFromSource true bridge in
    let '(rc, w) := shutdown w (fd (srcwatcher bridge)) SHUT_RD in
    let w := if negb (rc =? 0)
             then elog "Unable to shutdown source %d for reading: %s" w else w in
    (true, count, w, bridge)
  else (true, count, w, bridge).

(** "bridge source to destination": [false] is [goto error]. *)
Definition bridge_source (w : World) (bridge : Bridge) (count : nat)
  : option (bool * World * Bridge) :=
  '(rc, bridge, w) ←
    (if negb (sourceFlushed bridge) || (0 <? count)%nat then
       '(rc, pos, w) ← write_from_file w (fd (destwatcher bridge)) (srcFile bridge)
                                       (srcPos bridge);
       Some (rc, set_srcPos pos bridge, w)
     else Some (FILE_EOF, bridge, w));
  if rc =? FILE_ERROR then
    Some (false, elog "Error writing from source output file to destination" w, bridge)
  else if rc =? FILE_EOF then
    let bridge := set_sourceFlushed true bridge in
    if eofFromSource bridge then
      let '(rc, w) := shutdown w (fd (destwatcher bridge)) SHUT_WR in
      let w := if negb (rc =? 0)
               then elog "Unable to shutdown destination %d for writing: %s" w else w in
      Some (true, w, bridge)
    else Some (true, w, bridge)
  else Some (true, w, set_sourceFlushed false bridge).

(** "read destination" *)
Definition read_destination (w : World) (bridge : Bridge) : bool * nat * World * Bridge :=
  let '(rc, count, w) :=
    if negb (eofFromDestination bridge)
    then read_into_file w (fd (destwatcher bridge)) (destFile bridge)
    else (0, 0%nat, w) in
  if rc =? FILE_ERROR then
    (false, count,
     elog "Error reading from destination into destination output file" w, bridge)
  else if rc =? FILE_EOF then
    let bridge := set_eofFromDestination true bridge in
    let '(rc, w) := shutdown w (fd (destwatcher bridge)) SHUT_RD in
    let w := if negb (rc =? 0)
             then elog "Unable to shutdown destination %d for reading: %s" w else w in
    (true, count, w, bridge)
  else (true, count, w, bridge).

(** "bridge destination to source" *)
Definition bridge_destination (w : World) (bridge : Bridge) (count : nat)
  : option (bool * World * Bridge) :=
  '(rc, bridge, w) ←
    (if negb (destinationFlushed bridge) || (0 <? count)%nat then
       '(rc, pos, w) ← write_from_file w (fd (srcwatcher bridge)) (destFile bridge)
                                       (destPos bridge);
       Some (rc, set_destPos pos bridge, w)
     else Some (FILE_EOF, bridge, w));
  if rc =? FILE_ERROR then
    Some (false, elog "Error writing from destination output file to source" w, bridge)
  else if rc =? FILE_EOF then
    let bridge := set_destinationFlushed true bridge in
    if eofFromDestination bridge then
      let '(rc, w) := shutdown w (fd (srcwatcher bridge)) SHUT_WR in
      let w := if negb (rc =? 0)
               then elog "Unable to shutdown source %d for writing: %s" w else w in
      Some (true, w, bridge)
    else Some (true, w, bridge)
  else Some (true, w, set_destinationFlushed false bridge).

(** "Perform operation": the four transfer steps in their order; [false]
    when one of them took [goto error]. *)
Definition perform_operation (w : World) (bridge : Bridge)
  : option (bool * World * Bridge) :=
  let '(ok, count, w, bridge) := read_source w bridge in
  if negb ok then Some (false, w, bridge)
  else
    '(ok, w, bridge) ← bridge_source w bridge count;
    if negb ok then Some (false, w, bridge)
    else
      let '(ok, count, w, bridge) := read_destination w bridge in
      if negb ok then Some (false, w, bridge)
      else bridge_destination w bridge count.

(** The new mask of one watcher and its re-registration. *)
Definition recalibrate_watcher (watcher : ev_io) (read_open flushed : bool) : ev_io :=
  let newflags := if read_open then EV_READ else 0 in
  let newflags := if negb flushed then Z.lor newflags EV_WRITE else newflags in
  if negb (events watcher =? newflags) then
    let watcher := ev_io_stop watcher in
    let watcher := ev_io_set watcher (fd watcher) newflags in
    if negb (newflags =? 0) then ev_io_start watcher else watcher
  else watcher.

(** "Recalibrate watchers" and the "All done" test. *)
Definition recalibrate_watchers (w : World) (bridge : Bridge) : World * Bridge * fate :=
  let bridge :=
    set_srcwatcher (recalibrate_watcher (srcwatcher bridge)
                      (negb (eofFromSource bridge)) (destinationFlushed bridge)) bridge in
  let bridge :=
    set_destwatcher (recalibrate_watcher (destwatcher bridge)
                       (negb (eofFromDestination bridge)) (sourceFlushed bridge)) bridge in
  if (Z.land (events (srcwatcher bridge)) (Z.lor EV_READ EV_WRITE) =? 0)
     && (Z.land (events (destwatcher bridge)) (Z.lor EV_READ EV_WRITE) =? 0)
  then (* All done *) bridge_del w bridge
  else (w, bridge, Alive).

(** [bridge_cb( loop, watcher, flags )]; [None] only when
    [write_from_file] ran out of fuel. *)
Definition bridge_cb (w : World) (bridge : Bridge) (wh : which) (flags : Z)
  : option (World * Bridge * fate) :=
  if negb (Z.land flags EV_ERROR =? 0) then
    Some (bridge_del (elog "Error in bridge callback" w) bridge)
  else if negb (connectedToDestination bridge) then
    Some (complete_connection w bridge (watcher_of bridge wh))
  else
    '(ok, w, bridge) ← perform_operation w bridge;
    if negb ok then Some (bridge_del w bridge)
    else Some (recalibrate_watchers w bridge).

(** ** Bridge creation *)

(** [struct addrinfo], the list cell without its [ai_next]: a resolver
    result is the list of its cells. *)
Record addrinfo : Type := MkAddrinfo {
  ai_family : Z;
  ai_socktype : Z;
  ai_protocol : Z;
  ai_addrlen : Z;
  ai_addr : sockaddr
}.

Definition blank_socket : Socket :=
  MkSocket (Sockaddr 0 [], 0) (Sockaddr 0 [], 0) [] [] [] 0 [] false false false None.

(** [socket( family, type | SOCK_NONBLOCK | SOCK_CLOEXEC, protocol )]: the
    descriptor, negative on failure.  The new socket behaves as the next
    entry of [w_dial] says. *)
Definition socket (w : World) : Z * World :=
  let '(r, w) := next_fault w in
  match r with
  | Some _ => (-1, w)
  | None =>
    let s := match w_dial w with s :: _ => s | [] => blank_socket end in
    let s := MkSocket (s_local s) (s_peer s) (s_rq s) (s_wq s) (s_cq s) (s_soerr s)
                      (s_sent s) true true (s_reuseaddr s) (s_backlog s) in
    let fd_ := w_nextfd w in
    (fd_, set_nextfd (fd_ + 1) (set_dial (tail (w_dial w))
                                  (set_socks (<[fd_ := s]> (w_socks w)) w)))
  end.

(** The connect loop of [bridge_init] over the answers [cq] of the coming
    [connect] calls: [Some c] leaves the loop with
    [connectedToDestination = c], [None] is [goto noconnect]. *)
Fixpoint connect_loop (cq : list (option errno)) : option bool * list (option errno) :=
  match cq with
  | [] => (Some true, [])
  | None :: cq' => (Some true, cq')
  | Some e :: cq' =>
    if errno_eqb e EINTR then connect_loop cq'
    else if errno_eqb e EINPROGRESS then (Some false, cq')
    else (None, cq')
  end.

(** The effect of the [connect] calls on the socket: its peer is the
    address dialled, and the answers used are gone. *)
Definition set_connecting (fd_ : Z) (peer : sockaddr * Z) (cq : list (option errno))
    (w : World) : World :=
  match w_socks w !! fd_ with
  | Some s =>
    set_socks (<[fd_ := MkSocket (s_local s) peer (s_rq s) (s_wq s) cq (s_soerr s)
                          (s_sent s) (s_nonblock s) (s_cloexec s) (s_reuseaddr s)
                          (s_backlog s)]> (w_socks w)) w
  | None => w
  end.

(** [getsockname( fd, &addr, &addrlen )]: the local address of the socket. *)
Definition getsockname (w : World) (fd_ : Z) : Z * (sockaddr * Z) * World :=
  let '(r, w) := next_fault w in
  match r, w_socks w !! fd_ with
  | None, Some s => (0, s_local s, w)
  | _, _ => (-1, (Sockaddr 0 [], 0), w)
  end.

(** [bridge_init], with the global [destaddr] as a parameter: the
    initialised bridge, or [None] for the return value [-1]. *)
Definition bridge_init (w : World) (destaddr : addrinfo) (srcfd : Z) (srcaddrlen : Z)
    (srcaddr : sockaddr) : option Bridge * World :=
  (* Initiate connection to destination *)
  let '(destfd, w) := socket w in
  if destfd <? 0 then (None, elog "Unable to create destination socket" w)
  else
    let '(connected, cq) :=
      connect_loop (match w_socks w !! destfd with Some s => s_cq s | None => [] end) in
    let w := set_connecting destfd (ai_addr destaddr, ai_addrlen destaddr) cq w in
    match connected with
    | None =>
      (None, close_fd (elog "Unable to establish connection to destination" w) destfd)
    | Some connected =>
      (* Open output files *)
      let '(src, w) := open_output_file w srcaddrlen srcaddr in
      match src with
      | None => (None, close_fd (elog "Unable to open source output file" w) destfd)
      | Some (srcFile_, srcPos_) =>
        let '(rc, destaddr_, w) := getsockname w destfd in
        if negb (rc =? 0) then
          let w := elog "Unable to obtain destination socket name %d: %s" w in
          (None, close_fd (close_output_file w srcFile_) destfd)
        else
          let '(dest, w) := open_output_file w (snd destaddr_) (fst destaddr_) in
          match dest with
          | None =>
            let w := elog "unable to open destination output file" w in
            (None, close_fd (close_output_file w srcFile_) destfd)
          | Some (destFile_, destPos_) =>
            (* Init watchers *)
            let sw := ev_io_init srcfd EV_READ in
            let dw := ev_io_init destfd EV_READ in
            let '(sw, dw) :=
              if connected then
                (* Watch for incoming data right away *)
                (ev_io_start sw, ev_io_start dw)
              else
                (* Wait for destination connection to complete *)
                (sw, ev_io_start (ev_io_set dw destfd EV_WRITE)) in
            (* Init remaining flags *)
            (Some (MkBridge sw dw srcFile_ destFile_ srcPos_ destPos_
                            false true connected false true), w)
          end
      end
    end.

(** [malloc]: [false] for the null pointer. *)
Definition malloc (w : World) : bool * World :=
  let '(r, w) := next_fault w in
  (match r with None => true | Some _ => false end, w).

(** [bridge_new] *)
Definition bridge_new (w : World) (destaddr : addrinfo) (fd_ : Z) (srcaddrlen : Z)
    (srcaddr : sockaddr) : option Bridge * World :=
  let '(result, w) := malloc w in
  if negb result then
    (None, elog "Insufficient memory to allocate bridge memory for socket %d" w)
  else
    let '(bridge, w) := bridge_init w destaddr fd_ srcaddrlen srcaddr in
    match bridge with
    | None => (None, elog "Unable to initialise bridge for socket %d" w)
    | Some bridge => (Some bridge, w)
    end.

(** [start_bridge]: on error the connection socket is closed. *)
Definition start_bridge (w : World) (destaddr : addrinfo) (fd_ : Z) (srcaddrlen : Z)
    (srcaddr : sockaddr) : option Bridge * World :=
  (* Create new bridge *)
  let '(bridge, w) := bridge_new w destaddr fd_ srcaddrlen srcaddr in
  match bridge with
  | None => (None, close_fd (elog "Unable to create new bridge" w) fd_)
  | Some bridge => (Some bridge, w)
  end.

(** ** Acceptor *)

(** The loop of [accept_cb] over the answers [aq] of the coming [accept4]
    calls: the bridges started, the answers left. *)
Fixpoint accept_loop (aq : list accept_event) (w : World) (destaddr : addrinfo)
    (bridges : list Bridge) : World * list Bridge * list accept_event :=
  match aq with
  | [] => (w, bridges, [])                                    (* EAGAIN: fd < 0 *)
  | AErr _ :: aq' => (w, bridges, aq')                        (* fd < 0 *)
  | AConn s :: aq' =>
    (* Get next connection *)
    let s := MkSocket (s_local s) (s_peer s) (s_rq s) (s_wq s) (s_cq s) (s_soerr s)
                      (s_sent s) true true (s_reuseaddr s) (s_backlog s) in
    let fd_ := w_nextfd w in
    let w := set_nextfd (fd_ + 1) (set_socks (<[fd_ := s]> (w_socks w)) w) in
    (* Start bridge on connection *)
    let '(bridge, w) := start_bridge w destaddr fd_ (snd (s_peer s)) (fst (s_peer s)) in
    accept_loop aq' w destaddr
                (bridges ++ match bridge with Some b => [b] | None => [] end)
  end.

(** [accept_cb( loop, watcher, flags )]: the world, the listener's watcher
    as the callback leaves it, the bridges started. *)
Definition accept_cb (w : World) (destaddr : addrinfo) (watcher : ev_io) (flags : Z)
  : World * ev_io * list Bridge :=
  (* Sanity checks *)
  if negb (Z.land flags EV_ERROR =? 0) then
    (elog "Error in server watcher." w, watcher, [])
  else
    (* Accept as many connections as possible *)
    let '(w, bridges, aq) :=
      accept_loop (default [] (w_pending w !! fd watcher)) w destaddr [] in
    (set_pending (<[fd watcher := aq]> (w_pending w)) w, watcher, bridges).

(** ** Listeners and start-up *)

(** [struct Listener] *)
Record Listener : Type := MkListener {
  address : string;
  watcher : ev_io
}.

(** [strerror]: the texts belong to the C library and are not spelled out. *)
Definition strerror (e : errno) : string := "(strerror)".

Definition set_listening (fd_ : Z) (reuse : bool) (local_ : sockaddr * Z)
    (backlog : option Z) (w : World) : World :=
  match w_socks w !! fd_ with
  | Some s =>
    set_socks (<[fd_ := MkSocket local_ (s_peer s) (s_rq s) (s_wq s) (s_cq s) (s_soerr s)
                          (s_sent s) (s_nonblock s) (s_cloexec s) reuse backlog]>
                 (w_socks w)) w
  | None => w
  end.

(** [setsockopt( fd, SOL_SOCKET, SO_REUSEADDR, &optval, sizeof( optval ) )] *)
Definition setsockopt_reuseaddr (w : World) (fd_ : Z) : Z * World :=
  let '(r, w) := next_fault w in
  match r, w_socks w !! fd_ with
  | None, Some s => (0, set_listening fd_ true (s_local s) (s_backlog s) w)
  | _, _ => (-1, w)
  end.

(** [bind( fd, addr, len )] *)
Definition bind (w : World) (fd_ : Z) (addr : sockaddr) (len : Z) : Z * World :=
  let '(r, w) := next_fault w in
  match r, w_socks w !! fd_ with
  | None, Some s => (0, set_listening fd_ (s_reuseaddr s) (addr, len) (s_backlog s) w)
  | _, _ => (-1, w)
  end.

(** [listen( fd, backlog )] *)
Definition listen (w : World) (fd_ : Z) (backlog : Z) : Z * World :=
  let '(r, w) := next_fault w in
  match r, w_socks w !! fd_ with
  | None, Some s => (0, set_listening fd_ (s_reuseaddr s) (s_local s) (Some backlog) w)
  | _, _ => (-1, w)
  end.

(** [strdup]: [false] for the null pointer. *)
Definition strdup (w : World) : bool * World :=
  let '(r, w) := next_fault w in
  (match r with None => true | Some _ => false end, w).

(** [start_listener]: the listener on success, [None] for [-1]. *)
Definition start_listener (w : World) (addr : sockaddr) (len : Z)
  : option Listener * World :=
  let rcp := match satos addr len with
             | inr s => s
             | inl e => strerror e
             end in
  (* Listen *)
  let '(listener, w) := malloc w in
  if negb listener then
    (None, elog "Insufficient memory to create listener for address %s" w)
  else
    let '(address_, w) := strdup w in
    if negb address_ then
      (None, elog "Insufficient memory to create listener address %s" w)
    else
      let '(fd_, w) := socket w in
      if fd_ <? 0 then
        (None, elog "Unable to create server socket for address %s: %s" w)
      else
        let '(rc, w) := setsockopt_reuseaddr w fd_ in
        let w := if negb (rc =? 0)
                 then elog "Unable to make server socket %d for address %s reusable: %s" w
                 else w in
        let '(rc, w) := bind w fd_ addr len in
        if negb (rc =? 0) then
          (None, close_fd
                   (elog "Unable to bind server socket %d for address %s: %s" w) fd_)
        else
          let '(rc, w) := listen w fd_ BACKLOG in
          if negb (rc =? 0) then
            (None, close_fd
                     (elog "Unable to listen on server socket %d for address %s: %s" w)
                     fd_)
          else
            (* Watch *)
            let watcher_ := ev_io_start (ev_io_init fd_ EV_READ) in
            (Some (MkListener rcp watcher_),
             set_stdout (w_stdout w ++ ["Listener %d listening on %s"]) w).

Definition EXIT_SUCCESS : Z := 0.
Definition EXIT_FAILURE : Z := 1.

(** [signal( SIGPIPE, SIG_IGN )]: [false] for [SIG_ERR]. *)
Definition signal_ignore (w : World) : bool * World :=
  let '(r, w) := next_fault w in
  (match r with None => true | Some _ => false end, w).

(** [ev_default_loop( 0 )]: [false] for the null pointer. *)
Definition ev_default_loop (w : World) : bool * World :=
  let '(r, w) := next_fault w in
  (match r with None => true | Some _ => false end, w).

(** [print_usage] *)
Definition print_usage (w : World) (progname : string) : World :=
  elog "Usage: %s srcaddr srcport destaddr destport" w.

(** "Get args": [None] is the usage path, which exits with
    [EXIT_FAILURE]. *)
Definition get_args (argv : list string) : option (string * string * string * string) :=
  let argc := Z.of_nat (length argv) in
  if argc <=? 4 then None
  else Some (nth 1 argv "", nth 2 argv "", nth 3 argv "", nth 4 argv "").

(** "Start listeners on source addresses".  A pointer into the result
    list is the part of the list that starts there, [[]] for the null
    pointer, and [ai_next] is the tail.  The loop header reads
    [info = airesult->ai_next].  The calls made so far are kept in
    [visited], latest last; [None] when [fuel] rounds were not enough. *)
Fixpoint start_listeners (fuel : nat) (w : World) (airesult info : list addrinfo)
    (visited : list addrinfo) (listeners : list Listener)
  : option (World * list addrinfo * list Listener) :=
  match info with
  | [] => Some (w, visited, listeners)
  | cell :: _ =>
    match fuel with
    | O => None
    | S fuel' =>
      let '(l, w) := start_listener w (ai_addr cell) (ai_addrlen cell) in
      start_listeners fuel' w airesult (tail airesult) (visited ++ [cell])
                      (listeners ++ match l with Some l => [l] | None => [] end)
    end
  end.

(** How [main] goes on: it leaves with a status, or it enters [ev_run]
    with these listeners and this value of the global [destaddr]. *)
Inductive main_result : Type :=
| Exit (status : Z)
| EvRun (destaddr : list addrinfo) (listeners : list Listener).

(** [main] up to [ev_run]; [getaddrinfo] is the resolver, which returns
    its code and the result list.  [None] when the listener loop did not
    end within [fuel] rounds. *)
Definition main (fuel : nat) (w : World)
    (getaddrinfo : string -> string -> Z * list addrinfo) (argv : list string)
  : option (main_result * World) :=
  (* We handle broken pipes manually *)
  let '(oh, w) := signal_ignore w in
  if negb oh then Some (Exit EXIT_FAILURE, elog "Unable to ignore SIGPIPE" w)
  else
    (* Get args *)
    match get_args argv with
    | None => Some (Exit EXIT_FAILURE, print_usage w (nth 0 argv "(null)"))
    | Some (srcnode, srcservice, destnode, destservice) =>
      (* Get loop *)
      let '(loop, w) := ev_default_loop w in
      if negb loop then Some (Exit EXIT_FAILURE, elog "Unable to obtain event loop." w)
      else
        (* Get destination address *)
        let '(rc, airesult) := getaddrinfo destnode destservice in
        if negb (rc =? 0) then
          Some (Exit EXIT_FAILURE,
                elog "Unable to lookup destination node '%s' service '%s': %s" w)
        else if (length airesult =? 0)%nat then
          Some (Exit EXIT_FAILURE,
                elog "No valid addresses found for destination node '%s' service '%s'" w)
        else
          let destaddr := airesult in
          (* Get source addresses *)
          let '(rc, airesult) := getaddrinfo srcnode srcservice in
          if negb (rc =? 0) then
            Some (Exit EXIT_FAILURE,
                  elog "Unable to lookup source node '%s' service '%s': %s" w)
          else if (length airesult =? 0)%nat then
            Some (Exit EXIT_FAILURE,
                  elog "No valid addresses found for source node '%s' service '%s'" w)
          else
            (* Start listeners on source addresses *)
            '(w, _, listeners) ← start_listeners fuel w airesult airesult [] [];
            (* Enter main loop *)
            Some (EvRun destaddr listeners, w)
    end.

(** ** Observations on a world *)

(** The name and the position indicator of an open stream. *)
Definition stream_name (w : World) (f : nat) : option string :=
  st_name <$> w_streams w !! f.
Definition stream_pos (w : World) (f : nat) : option nat :=
  st_pos <$> w_streams w !! f.

(** The bytes a socket has taken so far. *)
Definition sent_on (w : World) (fd_ : Z) : option (list Byte.byte) :=
  s_sent <$> w_socks w !! fd_.

(** A call that leaves the files, the descriptors, the [shutdown] record
    and the accept queues alone and neither opens nor closes a stream. *)
Definition kept (w w' : World) : Prop :=
  w_fs w' = w_fs w /\ w_socks w' = w_socks w /\ w_shut w' = w_shut w /\
  w_pending w' = w_pending w /\ forall g, stream_name w' g = stream_name w g.

(** [EINTR] answers of [write]. *)
Definition is_eintr (ev : write_event) : bool :=
  match ev with
  | WErr e => errno_eqb e EINTR
  | WAccept _ => false
  end.

Definition strip_eintr (wq : list write_event) : list write_event :=
  List.filter (fun ev => negb (is_eintr ev)) wq.

(** The files of [w'] are those of [w] with [data] added at the end of the
    file [name]. *)
Definition appended (w w' : World) (name : string) (data : list Byte.byte) : Prop :=
  forall n, file_bytes w' n =
            if decide (n = name) then file_bytes w n ++ data else file_bytes w n.

(** The journals of a bridge are the files [ns] (bytes from the source)
    and [nd] (bytes from the destination). *)
Definition journals_at (ns nd : string) (w : World) (b : Bridge) : Prop :=
  stream_name w (srcFile b) = Some ns /\ stream_name w (destFile b) = Some nd.

(** Both journals are open and each replay cursor is at or before the end
    of its file. *)
Definition journal_inv (w : World) (b : Bridge) : Prop :=
  exists ns nd, journals_at ns nd w b /\
    (srcPos b <= length (file_bytes w ns))%nat /\
    (destPos b <= length (file_bytes w nd))%nat.

(** The state of a bridge between two dispatches: two journals in two
    files, two descriptors, the cursors within the journals, and a
    direction that is marked flushed has its cursor at the end of its
    journal. *)
Definition drained_inv (ns nd : string) (w : World) (b : Bridge) : Prop :=
  journals_at ns nd w b /\ ns <> nd /\ fd (srcwatcher b) <> fd (destwatcher b) /\
  (srcPos b <= length (file_bytes w ns))%nat /\
  (destPos b <= length (file_bytes w nd))%nat /\
  (sourceFlushed b = true -> srcPos b = length (file_bytes w ns)) /\
  (destinationFlushed b = true -> destPos b = length (file_bytes w nd)).

(** Two states of a bridge that differ in the watchers' masks and
    activity and in [connectedToDestination] at most. *)
Definition same_journals (b b' : Bridge) : Prop :=
  srcFile b' = srcFile b /\ destFile b' = destFile b /\
  srcPos b' = srcPos b /\ destPos b' = destPos b /\
  eofFromSource b' = eofFromSource b /\ sourceFlushed b' = sourceFlushed b /\
  eofFromDestination b' = eofFromDestination b /\
  destinationFlushed b' = destinationFlushed b /\
  fd (srcwatcher b') = fd (srcwatcher b) /\ fd (destwatcher b') = fd (destwatcher b).

(** The way out of [bridge_cb] from the state [(w1, b1)]: watchers are
    set and perhaps everything is closed, but no file is written, no
    [shutdown] is made and no cursor or flag moves. *)
Definition epilogue (w1 : World) (b1 : Bridge) (w' : World) (b' : Bridge)
    (fate_ : fate) : Prop :=
  same_journals b1 b' /\ w_shut w' = w_shut w1 /\ w_fs w' = w_fs w1 /\
  (fate_ = Alive -> w_streams w' = w_streams w1 /\ w_socks w' = w_socks w1).

(** ** Worlds and addresses of the examples *)

Definition empty_world : World := MkWorld ∅ ∅ ∅ ∅ [] 3 0 [] [] [] [].

Definition cell_of (addr : sockaddr) (len : Z) : addrinfo := MkAddrinfo (sa_family addr) 1 6 len addr.

Definition listener_at (fd_ : Z) : ev_io := ev_io_start (ev_io_init fd_ EV_READ).

Definition world_accept_fails : World :=
  set_pending {[ 3 := [AErr EMFILE; AConn blank_socket] ]} (set_nextfd 4 empty_world).

Definition upstream : addrinfo := cell_of (mk_in 10 0 0 7 80) 16.

Definition journal_bytes : list Byte.byte :=
  bytes_of [104; 101; 108; 108; 111; 32; 119; 111; 114; 108].

(** A world with one journal of ten bytes, open as stream 0, and a socket
    5 that answers [EINTR], then takes four bytes, then would block. *)
Definition world_replay : World :=
  set_fs {[ "127.0.0.1:54321" := journal_bytes ]}
    (set_streams {[ 0%nat := MkStream "127.0.0.1:54321" 10 ]}
       (set_socks {[ 5 := MkSocket (Sockaddr 0 [], 0) (Sockaddr 0 [], 0) []
                            [WErr EINTR; WAccept 4] [] 0 [] true true false None ]}
          (set_nextfd 6 (set_nextfile 1 empty_world)))).

(** The client [192.0.2.1:40000], and the address [10.0.0.1:50000] that
    the kernel gives to the socket dialled to [upstream]. *)
Definition client : sockaddr := mk_in 192 0 2 1 40000.
Definition local_end : sockaddr := mk_in 10 0 0 1 50000.

Definition socket_with (local_ peer : sockaddr) (rq : list read_event)
    (wq : list write_event) (cq : list (option errno)) : Socket :=
  MkSocket (local_, 16) (peer, 16) rq wq cq 0 [] true true false None.

(** The client is accepted as descriptor 4; the next socket will connect
    in the background. *)
Definition world_dial : World :=
  set_socks {[ 4 := socket_with (mk_in 192 0 2 9 8080) client [] [] [] ]}
    (set_dial [socket_with local_end (Sockaddr 0 []) [] [] [Some EINPROGRESS]]
       (set_nextfd 5 empty_world)).

(** A connected bridge between descriptors 4 and 5, journals open as
    streams 0 and 1, and what its two sockets will answer. *)
Definition bridge_conn : Bridge :=
  MkBridge (EvIo 4 EV_READ true) (EvIo 5 EV_READ true) 0 1 0 0
           false true true false true.

Definition world_bridged (rq_src rq_dest : list read_event)
    (wq_src wq_dest : list write_event) : World :=
  set_fs {[ "192.0.2.1:40000" := []; "10.0.0.1:50000" := [] ]}
    (set_streams {[ 0%nat := MkStream "192.0.2.1:40000" 0;
                    1%nat := MkStream "10.0.0.1:50000" 0 ]}
       (set_socks {[ 4 := socket_with (mk_in 192 0 2 9 8080) client rq_src wq_src [];
                     5 := socket_with local_end (mk_in 10 0 0 7 80) rq_dest wq_dest [] ]}
          (set_nextfd 6 (set_nextfile 2 empty_world)))).

(** The source connection is reset; the destination is silent. *)
Definition world_reset : World := world_bridged [RErr ECONNRESET] [] [] [].

(** Both peers close without a byte. *)
Definition world_closing : World := world_bridged [RData []] [RData []] [] [].

(** The source sends five bytes, of which the destination takes three. *)
Definition world_hello : World :=
  world_bridged [RData (bytes_of [104; 101; 108; 108; 111])] [] [] [WAccept 3].

(** The source sends five bytes; the destination has gone. *)
Definition world_broken_pipe : World :=
  world_bridged [RData (bytes_of [104; 101; 108; 108; 111])] [] [] [WErr EPIPE].

(** A resolver that knows one upstream and a source name with two
    addresses. *)
Definition resolve_localhost (node service : string) : Z * list addrinfo :=
  if String.eqb node "localhost"
  then (0, [cell_of (mk_in6 [0;0;0;0;0;0;0;0;0;0;0;0;0;0;0;1] 8080) 28;
            cell_of (mk_in 127 0 0 1 8080) 16])
  else (0, [upstream]).

(** ** Further observations *)

(** Descriptors and stream handles from the next free one on are not in
    use, as the kernel and the C library guarantee. *)
Definition fresh_world (w : World) : Prop :=
  0 <= w_nextfd w /\
  (forall g, w_nextfd w <= g -> w_socks w !! g = None) /\
  (forall f, (w_nextfile w <= f)%nat -> w_streams w !! f = None).

(** The bytes that [read_into_file] takes from a socket whose coming
    [read] calls answer [rq]: the chunks up to the first end-of-file,
    would-block or error, [EINTR] answers skipped. *)
Fixpoint incoming (rq : list read_event) : list Byte.byte :=
  match rq with
  | [] => []
  | RErr e :: rq' => if errno_eqb e EINTR then incoming rq' else []
  | RData bs :: rq' =>
    match take FILE_BUFSIZE bs with
    | [] => []
    | buf => buf ++ incoming rq'
    end
  end.

(** A world whose accept queue on descriptor 3 holds one client and then
    an error, and whose next socket connects at once. *)
Definition world_accepting : World :=
  set_pending {[ 3 := [AConn (socket_with (mk_in 192 0 2 9 8080) client [] [] []);
                       AErr ECONNABORTED] ]}
    (set_socks {[ 3 := blank_socket ]}
       (set_dial [socket_with local_end (Sockaddr 0 []) [] [] []]
          (set_nextfd 4 empty_world))).

(** A call of the C library's stdio that leaves the kernel's side of the
    world as it is. *)
Definition kernel_kept (w w' : World) : Prop :=
  w_socks w' = w_socks w /\ w_pending w' = w_pending w /\
  w_nextfd w' = w_nextfd w /\ w_dial w' = w_dial w /\ w_shut w' = w_shut w.

(** Standard error only grows; [said w w'] when it got longer. *)
Definition said (w w' : World) : Prop :=
  (length (w_stderr w) < length (w_stderr w'))%nat.

(** [fresh_world], as a check that can be run. *)
Definition fresh_worldb (w : World) : bool :=
  bool_decide (0 <= w_nextfd w) &&
  bool_decide (map_Forall (fun g _ => g < w_nextfd w) (w_socks w)) &&
  bool_decide (map_Forall (fun f _ => (f < w_nextfile w)%nat) (w_streams w)).

(** The descriptors and streams of [w'] against those of [w] and the
    bridges [new] started in between: what was open is as it was, whatever
    else is open belongs to one of the bridges, and everything the bridges
    hold is open and was opened in between. *)
Definition accounted (w w' : World) (new : list Bridge) : Prop :=
  (forall g, g < w_nextfd w -> w_socks w' !! g = w_socks w !! g) /\
  (forall f, (f < w_nextfile w)%nat -> w_streams w' !! f = w_streams w !! f) /\
  (forall g, w_nextfd w <= g -> is_Some (w_socks w' !! g) ->
     exists b, In b new /\ (g = fd (srcwatcher b) \/ g = fd (destwatcher b))) /\
  (forall f, (w_nextfile w <= f)%nat -> is_Some (w_streams w' !! f) ->
     exists b, In b new /\ (f = srcFile b \/ f = destFile b)) /\
  (forall b, In b new ->
     w_nextfd w <= fd (srcwatcher b) /\ w_nextfd w <= fd (destwatcher b) /\
     is_Some (w_socks w' !! fd (srcwatcher b)) /\
     is_Some (w_socks w' !! fd (destwatcher b)) /\
     (w_nextfile w <= srcFile b)%nat /\ (w_nextfile w <= destFile b)%nat /\
     is_Some (w_streams w' !! srcFile b) /\ is_Some (w_streams w' !! destFile b)).

(** A bridge between descriptors 4 and 5 whose connection to the
    destination is still in progress, as [bridge_init] leaves it. *)
Definition bridge_pending : Bridge :=
  MkBridge (EvIo 4 (Z.lor EV_READ EV__IOFDSET) false) (EvIo 5 EV_WRITE true)
           0 1 0 0 false true false false true.

(** A dispatch boundary state in which each socket has been given exactly
    the span of the other side's journal from the offset at which the
    bridge started ([base_s], [base_d]) up to the replay cursor. *)
Definition relayed_inv (ns nd : string) (base_s base_d : nat) (w : World) (b : Bridge)
  : Prop :=
  drained_inv ns nd w b /\
  (base_s <= srcPos b)%nat /\ (base_d <= destPos b)%nat /\
  sent_on w (fd (destwatcher b))
    = Some (take (srcPos b - base_s) (drop base_s (file_bytes w ns))) /\
  sent_on w (fd (srcwatcher b))
    = Some (take (destPos b - base_d) (drop base_d (file_bytes w nd))).

(** A resolver that knows the wildcard source address and one upstream. *)
Definition resolve_bridge (node service : string) : Z * list addrinfo :=
  if String.eqb node "0.0.0.0"
  then (0, [cell_of (mk_in 0 0 0 0 8080) 16])
  else (0, [upstream]).

(** An answer of [accept4] that is a connection. *)
Definition is_connection (ev : accept_event) : bool :=
  match ev with AConn _ => true | AErr _ => false end.

(** A listening socket 3 with a connection from the client pending, then
    a failure of [accept4], then another connection. *)
Definition world_accept_fails_later : World :=
  set_pending {[ 3 := [AConn (socket_with (mk_in 192 0 2 9 8080) client [] [] []);
                       AErr EMFILE; AConn blank_socket] ]}
    (set_socks {[ 3 := blank_socket ]}
       (set_dial [socket_with local_end (Sockaddr 0 []) [] [] []]
          (set_nextfd 4 empty_world))).





(** [getsockopt( fd, SOL_SOCKET, SO_ERROR, ... )] would succeed and report
    no error. *)
Definition so_error_clear (w : World) (fd_ : Z) : bool :=
  let '(rc, errcode, _) := getsockopt_so_error w fd_ in (rc =? 0) && (errcode =? 0).

(** The client of [world_dial] comes back: journals of an earlier
    connection under both names are on disk, ten bytes and two. *)
Definition world_redial : World :=
  set_fs {[ "192.0.2.1:40000" := journal_bytes; "10.0.0.1:50000" := bytes_of [111; 107] ]}
    world_dial.

(** The line of [print_usage], and two states between which standard
    error has only grown, by lines none of which is that line. *)
Definition usage_line : string := "Usage: %s srcaddr srcport destaddr destport".

Definition no_usage (w w' : World) : Prop :=
  exists lines, w_stderr w' = w_stderr w ++ lines /\ ~ In usage_line lines.

(** * Properties *)

(** ** Address formatter *)

Example satos_v4 : satos (mk_in 127 0 0 1 54321) 16 = inr "127.0.0.1:54321".
Proof. vm_compute. reflexivity. Qed.

Example satos_v6_loopback :
  satos (mk_in6 [0;0;0;0;0;0;0;0;0;0;0;0;0;0;0;1] 8080) 28 = inr "[::1]:8080".
Proof. vm_compute. reflexivity. Qed.

Example satos_v6_mapped :
  satos (mk_in6 [0;0;0;0;0;0;0;0;0;0;255;255;10;0;0;7] 80) 28 = inr "[::ffff:10.0.0.7]:80".
Proof. vm_compute. reflexivity. Qed.

Example satos_v6_plain :
  satos (mk_in6 [32;1;13;184;0;0;0;0;0;0;0;0;0;0;0;1] 443) 28 = inr "[2001:db8::1]:443".
Proof. vm_compute. reflexivity. Qed.

Example satos_v6_middle :
  satos (mk_in6 [254;128;0;0;0;0;0;0;0;1;0;0;0;0;171;205] 22) 28 = inr "[fe80::1:0:0:abcd]:22".
Proof. vm_compute. reflexivity. Qed.

Lemma strlen_append (s t : string) :
  String.length (s +:+ t) = (String.length s + String.length t)%nat.
Proof. induction s as [|c s IH]; simpl; [reflexivity | now rewrite IH]. Qed.

Lemma str_app_assoc (s t u : string) : (s +:+ t) +:+ u = s +:+ t +:+ u.
Proof.
  induction s as [|c s IH]; [reflexivity|].
  change (String c ((s +:+ t) +:+ u) = String c (s +:+ t +:+ u)). now rewrite IH.
Qed.

Lemma substring_whole (n : nat) (s : string) :
  (String.length s <= n)%nat -> substring 0 n s = s.
Proof.
  revert n. induction s as [|c s IH]; intros [|n] Hn; simpl in *; try reflexivity.
  - lia.
  - rewrite IH by lia. reflexivity.
Qed.

Lemma utoa_go_length (base : Z) (fuel : nat) :
  2 <= base ->
  forall (k : nat) (n : Z) (acc : string),
    (1 <= k <= fuel)%nat -> 0 <= n < base ^ Z.of_nat k ->
    (String.length (utoa_go base fuel n acc) <= k + String.length acc)%nat.
Proof.
  intros Hb. induction fuel as [|fuel IH]; intros k n acc Hk Hn; [lia|].
  simpl. destruct (n / base =? 0) eqn:Hq.
  - simpl. lia.
  - apply Z.eqb_neq in Hq.
    destruct k as [|[|k]]; [lia | |].
    + exfalso. apply Hq. apply Z.div_small. simpl in Hn. lia.
    + assert (Hpow : base ^ Z.of_nat (S (S k)) = base * base ^ Z.of_nat (S k)).
      { rewrite (Nat2Z.inj_succ (S k)), Z.pow_succ_r by lia. reflexivity. }
      specialize (IH (S k) (n / base) (String (digit_char (n mod base)) acc)).
      simpl String.length in IH.
      assert (0 <= n / base < base ^ Z.of_nat (S k)).
      { split; [apply Z.div_pos; lia|].
        apply Z.div_lt_upper_bound; lia. }
      specialize (IH ltac:(lia) ltac:(assumption)). lia.
Qed.

Lemma byteZ_range (b : Byte.byte) : 0 <= byteZ b < 256.
Proof.
  unfold byteZ. pose proof (Strings.Byte.to_N_bounded b). lia.
Qed.

Lemma data_at_range (addr : sockaddr) (i : nat) : 0 <= data_at addr i < 256.
Proof. apply byteZ_range. Qed.

Lemma fmt_u_byte_length (n : Z) :
  0 <= n < 256 -> (String.length (fmt_u n) <= 3)%nat.
Proof.
  intros Hn. unfold fmt_u.
  pose proof (utoa_go_length 10 10 ltac:(lia) 3 n "" ltac:(lia)) as H.
  simpl in H. apply H. lia.
Qed.

Lemma fmt_u_port_length (hi lo : Z) :
  0 <= hi < 256 -> 0 <= lo < 256 -> (String.length (fmt_u (ntohs (hi, lo))) <= 5)%nat.
Proof.
  intros Hh Hl. unfold fmt_u, ntohs. simpl fst. simpl snd.
  pose proof (utoa_go_length 10 10 ltac:(lia) 5 (256 * hi + lo) "" ltac:(lia)) as H.
  simpl in H. apply H. lia.
Qed.

Lemma fmt_x_word_length (n : Z) :
  0 <= n < 65536 -> (String.length (fmt_x n) <= 4)%nat.
Proof.
  intros Hn. unfold fmt_x.
  pose proof (utoa_go_length 16 8 ltac:(lia) 4 n "" ltac:(lia)) as H.
  simpl in H. apply H. lia.
Qed.

Definition all_bytes (l : list Z) : Prop := Forall (fun z => 0 <= z < 256) l.

Lemma nth_byte (l : list Z) (i : nat) : all_bytes l -> 0 <= nth i l 0 < 256.
Proof.
  intros H. revert i. induction H as [|z l Hz _ IH]; intros [|i]; simpl; try lia.
  apply IH.
Qed.

Lemma inet_ntop4_length (a : list Z) :
  all_bytes a -> (String.length (inet_ntop4 a) <= 15)%nat.
Proof.
  intros Ha. unfold inet_ntop4. rewrite !strlen_append. simpl String.length.
  pose proof (fmt_u_byte_length _ (nth_byte a 0 Ha)).
  pose proof (fmt_u_byte_length _ (nth_byte a 1 Ha)).
  pose proof (fmt_u_byte_length _ (nth_byte a 2 Ha)).
  pose proof (fmt_u_byte_length _ (nth_byte a 3 Ha)).
  lia.
Qed.

Lemma words_of_range (bs : list Z) :
  all_bytes bs -> Forall (fun z => 0 <= z < 65536) (words_of bs).
Proof.
  revert bs. fix IH 1. intros [|hi [|lo bs]] H; simpl; try constructor.
  - inversion H as [|? ? Hhi H']; subst. inversion H' as [|? ? Hlo H'']; subst. lia.
  - apply IH. inversion H as [|? ? _ H']; subst. now inversion H'.
Qed.

Lemma nth_word (l : list Z) (i : nat) :
  Forall (fun z => 0 <= z < 65536) l -> 0 <= nth i l 0 < 65536.
Proof.
  intros H. revert i. induction H as [|z l Hz _ IH]; intros [|i]; simpl; try lia.
  apply IH.
Qed.

Lemma ntop6_words_length (idx : list nat) best ws v4 :
  Forall (fun z => 0 <= z < 65536) ws -> all_bytes v4 ->
  (String.length (ntop6_words idx best ws v4) <= 5 * length idx + 11)%nat.
Proof.
  intros Hws Hv4. induction idx as [|i idx IH]; simpl; [lia|].
  destruct (in_run best i).
  - rewrite strlen_append. destruct (is_run_base best i); simpl String.length; lia.
  - rewrite strlen_append.
    assert ((String.length (if (i =? 0)%nat then "" else ":") <= 1)%nat)
      by (destruct (i =? 0)%nat; simpl; lia).
    destruct ((i =? 6)%nat && encapsulated_v4 best ws).
    + pose proof (inet_ntop4_length v4 Hv4). lia.
    + rewrite strlen_append.
      pose proof (fmt_x_word_length _ (nth_word ws i Hws)). lia.
Qed.

Lemma all_bytes_drop (n : nat) (l : list Z) : all_bytes l -> all_bytes (drop n l).
Proof. apply Forall_drop. Qed.

Lemma inet_ntop6_length (a : list Z) :
  all_bytes a -> (String.length (inet_ntop6 a) <= 52)%nat.
Proof.
  intros Ha. unfold inet_ntop6. rewrite strlen_append.
  pose proof (ntop6_words_length (seq 0 8) (best_run (words_of a)) (words_of a)
                (drop 12 a) (words_of_range a Ha) (all_bytes_drop 12 a Ha)) as H.
  simpl length in H.
  assert ((String.length
            match best_run (words_of a) with
            | Some (b, l) => if (b + l =? 8)%nat then ":" else ""
            | None => ""
            end <= 1)%nat).
  { destruct (best_run (words_of a)) as [[b l]|]; [destruct (b + l =? 8)%nat|];
      simpl; lia. }
  lia.
Qed.

Lemma sin_addr_bytes (addr : sockaddr) : all_bytes (sin_addr addr).
Proof.
  unfold all_bytes, sin_addr. apply List.Forall_forall. intros x Hx.
  apply in_map_iff in Hx as [i [<- _]]. apply data_at_range.
Qed.

Lemma sin6_addr_bytes (addr : sockaddr) : all_bytes (sin6_addr addr).
Proof.
  unfold all_bytes, sin6_addr. apply List.Forall_forall. intros x Hx.
  apply in_map_iff in Hx as [i [<- _]]. apply data_at_range.
Qed.

Lemma snprintf_fits (s : string) :
  (String.length s < RESULT_SIZE)%nat ->
  snprintf RESULT_SIZE s = (s, Z.of_nat (String.length s)).
Proof.
  intros H. unfold snprintf. rewrite substring_whole by lia. reflexivity.
Qed.

(** C9: [satos] renders an IPv4 address as [A.B.C.D:PORT] and an IPv6
    address as [[addr]:PORT], the port in host order; every other family
    fails with [EAFNOSUPPORT], and a length below the size of the
    family's structure fails with [EINVAL].  No rendering is cut by the
    result buffer and [EILSEQ] never comes up. *)
Theorem satos_renders (addr : sockaddr) (socklen : Z) :
  satos addr socklen =
    if sa_family addr =? AF_INET then
      if socklen <? sizeof_sockaddr_in then inl EINVAL
      else inr (fmt_u (data_at addr 2) +:+ "." +:+ fmt_u (data_at addr 3) +:+ "." +:+
                fmt_u (data_at addr 4) +:+ "." +:+ fmt_u (data_at addr 5) +:+
                ":" +:+ fmt_u (256 * data_at addr 0 + data_at addr 1))
    else if sa_family addr =? AF_INET6 then
      if socklen <? sizeof_sockaddr_in6 then inl EINVAL
      else inr ("[" +:+ inet_ntop6 (sin6_addr addr) +:+ "]:" +:+
                fmt_u (256 * data_at addr 0 + data_at addr 1))
    else inl EAFNOSUPPORT.
Proof.
  pose proof (fmt_u_port_length _ _ (data_at_range addr 0) (data_at_range addr 1)) as Hp.
  unfold satos.
  destruct (sa_family addr =? AF_INET).
  - destruct (socklen <? sizeof_sockaddr_in); [reflexivity|].
    pose proof (inet_ntop4_length _ (sin_addr_bytes addr)) as H4.
    rewrite snprintf_fits.
    + destruct (Z.ltb_spec (Z.of_nat (String.length
        (inet_ntop4 (sin_addr addr) +:+ ":" +:+ fmt_u (ntohs (sin_port addr))))) 0);
        [lia|].
      unfold inet_ntop4, sin_addr, ntohs, sin_port. cbn [seq map nth fst snd].
      rewrite !str_app_assoc. reflexivity.
    + rewrite !strlen_append. simpl String.length. unfold sin_port.
      unfold RESULT_SIZE, INET6_ADDRSTRLEN. lia.
  - destruct (sa_family addr =? AF_INET6); [|reflexivity].
    destruct (socklen <? sizeof_sockaddr_in6); [reflexivity|].
    pose proof (inet_ntop6_length _ (sin6_addr_bytes addr)) as H6.
    rewrite snprintf_fits.
    + destruct (Z.ltb_spec (Z.of_nat (String.length
        ("[" +:+ inet_ntop6 (sin6_addr addr) +:+ "]:" +:+ fmt_u (ntohs (sin_port addr)))))
        0); [lia|].
      reflexivity.
    + rewrite !strlen_append. simpl String.length. unfold sin_port.
      unfold RESULT_SIZE, INET6_ADDRSTRLEN. lia.
Qed.

(** ** Start-up *)



Example usage_with_three_arguments :
  main 0 empty_world (fun _ _ => (0, [])) ["connbridge"; "::"; "8080"; "10.0.0.7"] =
  Some (Exit EXIT_FAILURE,
        set_stderr ["Usage: %s srcaddr srcport destaddr destport"] empty_world).
Proof. reflexivity. Qed.

(** From the second round on the loop variable is the second cell, and
    stays there. *)
Lemma start_listeners_stuck (fuel : nat) :
  forall w (first second : addrinfo) (rest visited : list addrinfo) listeners,
    start_listeners fuel w (first :: second :: rest) (second :: rest) visited listeners
    = None.
Proof.
  induction fuel as [|fuel IH]; intros; simpl; [reflexivity|].
  destruct (start_listener w (ai_addr second) (ai_addrlen second)) as [l w'].
  apply IH.
Qed.

(** C3, evaluated on the code: with two or more resolved source addresses
    the listener loop never ends, whatever the number of rounds it is
    given; so [main] never reaches [ev_run] when the source name resolves
    to [::1] and [127.0.0.1]. *)
Theorem start_listeners_never_ends :
  (forall (fuel : nat) (w : World) (first second : addrinfo) (rest : list addrinfo),
     start_listeners fuel w (first :: second :: rest) (first :: second :: rest) [] []
     = None) /\
  (forall fuel : nat,
     main fuel empty_world resolve_localhost
          ["connbridge"; "localhost"; "8080"; "10.0.0.7"; "80"] = None).
Proof.
  assert (Hloop : forall fuel w (first second : addrinfo) rest,
            start_listeners fuel w (first :: second :: rest)
                            (first :: second :: rest) [] [] = None).
  { intros [|fuel] w first second rest; simpl; [reflexivity|].
    destruct (start_listener w (ai_addr first) (ai_addrlen first)) as [l w'].
    apply start_listeners_stuck. }
  split; [exact Hloop|].
  intros fuel. unfold main. cbn -[start_listeners get_args resolve_localhost].
  change (get_args ["connbridge"; "localhost"; "8080"; "10.0.0.7"; "80"])
    with (Some ("localhost", "8080", "10.0.0.7", "80")).
  cbv beta iota.
  change (resolve_localhost "10.0.0.7" "80") with (0, [upstream]).
  change (resolve_localhost "localhost" "8080")
    with (0, [cell_of (mk_in6 [0;0;0;0;0;0;0;0;0;0;0;0;0;0;0;1] 8080) 28;
              cell_of (mk_in 127 0 0 1 8080) 16]).
  cbn -[start_listeners]. now rewrite Hloop.
Qed.

(** With a single resolved address the loop makes one call and ends. *)
Lemma start_listeners_single (fuel : nat) (w : World) (cell : addrinfo) :
  start_listeners (S fuel) w [cell] [cell] [] [] =
    let '(l, w') := start_listener w (ai_addr cell) (ai_addrlen cell) in
    Some (w', [cell], match l with Some l => [l] | None => [] end).
Proof.
  simpl. destruct (start_listener w (ai_addr cell) (ai_addrlen cell)) as [l w'].
  destruct fuel; reflexivity.
Qed.

(** The listening socket of a call that meets no failure. *)
Example start_listener_socket :
  let '(l, w) := start_listener empty_world (mk_in 127 0 0 1 8080) 16 in
  l = Some (MkListener "127.0.0.1:8080" (EvIo 3 EV_READ true)) /\
  w_socks w !! 3 =
    Some (MkSocket (mk_in 127 0 0 1 8080, 16) (Sockaddr 0 [], 0) [] [] [] 0 []
                   true true true (Some 1000)) /\
  w_stdout w = ["Listener %d listening on %s"].
Proof. vm_compute. repeat split; reflexivity. Qed.

(** ** Acceptor *)




(** C4 as stated fails: [accept4] fails with [EMFILE], which is not the
    would-block answer, and standard error stays empty. *)
Lemma accept_error_not_logged :
  let '(w, watcher_, bridges) :=
    accept_cb world_accept_fails upstream (listener_at 3) EV_READ in
  w_pending world_accept_fails !! 3 = Some [AErr EMFILE; AConn blank_socket] /\
  w_stderr w = [].
Proof. vm_compute. split; reflexivity. Qed.


(** ** Journal store *)

Lemma kept_refl (w : World) : kept w w.
Proof. repeat split. Qed.

Lemma kept_trans (w1 w2 w3 : World) : kept w1 w2 -> kept w2 w3 -> kept w1 w3.
Proof.
  intros (?&?&?&?&H12) (?&?&?&?&H23). repeat split; try congruence.
Qed.

Lemma kept_elog (msg : string) (w w' : World) : kept w w' -> kept w (elog msg w').
Proof. intros H. exact H. Qed.

Lemma stream_name_insert (w : World) (f g : nat) (st : Stream) (p : nat) :
  w_streams w !! f = Some st ->
  st_name <$> (<[f := MkStream (st_name st) p]> (w_streams w)) !! g = stream_name w g.
Proof.
  intros Hst. unfold stream_name. destruct (decide (f = g)) as [->|Hne].
  - rewrite lookup_insert_eq, Hst. reflexivity.
  - rewrite lookup_insert_ne by assumption. reflexivity.
Qed.

Ltac kept_tac :=
  repeat split; simpl; try reflexivity;
  try (intros; unfold stream_name at 1; simpl; eapply stream_name_insert; eassumption).

Lemma fsetpos_spec (w : World) (f pos : nat) (rc : Z) (w' : World) :
  fsetpos w f pos = (rc, w') ->
  kept w w' /\ (rc = 0 \/ rc = -1) /\ (rc = 0 -> stream_pos w' f = Some pos).
Proof.
  unfold fsetpos, next_fault. intros H.
  repeat case_match; simplify_eq; (split; [kept_tac|]); split; auto; try discriminate.
  all: intros _; unfold stream_pos; simpl; rewrite lookup_insert_eq; reflexivity.
Qed.

Lemma fseek_cur_spec (w : World) (f off : nat) (rc : Z) (w' : World) :
  fseek_cur w f off = (rc, w') ->
  kept w w' /\ (rc = 0 \/ rc = -1) /\
  (rc = 0 -> forall p, stream_pos w f = Some p -> stream_pos w' f = Some (p + off)%nat).
Proof.
  unfold fseek_cur, next_fault. intros H.
  repeat case_match; simplify_eq; (split; [kept_tac|]); split; auto; try discriminate.
  all: intros _ p; unfold stream_pos; simpl in *; rewrite lookup_insert_eq;
    match goal with H : w_streams _ !! _ = Some _ |- _ => rewrite H end;
    simpl; congruence.
Qed.

Lemma fgetpos_spec (w : World) (f pos : nat) (rc : Z) (pos' : nat) (w' : World) :
  fgetpos w f pos = (rc, pos', w') ->
  kept w w' /\ (rc = 0 \/ rc = -1) /\ stream_pos w' f = stream_pos w f /\
  (rc = 0 -> stream_pos w f = Some pos') /\ (rc <> 0 -> pos' = pos).
Proof.
  unfold fgetpos, next_fault. intros H.
  repeat case_match; simplify_eq; (split; [kept_tac|]);
    (split; [auto|]); (split; [reflexivity|]); split; try congruence;
    try discriminate.
  all: intros _; unfold stream_pos; simpl in *;
    match goal with H : w_streams _ !! _ = Some _ |- _ => rewrite H end; reflexivity.
Qed.

Lemma fread_spec (w : World) (f n : nat) (buf : list Byte.byte) (at_eof : bool)
    (w' : World) :
  fread w f n = (buf, at_eof, w') ->
  kept w w' /\
  (buf = [] /\ at_eof = false /\ stream_pos w' f = stream_pos w f \/
   exists name p, stream_name w f = Some name /\ stream_pos w f = Some p /\
     buf = take n (drop p (file_bytes w name)) /\
     at_eof = (length buf <? n)%nat /\
     stream_pos w' f = Some (p + length buf)%nat).
Proof.
  unfold fread, next_fault. intros H.
  repeat case_match; simplify_eq; (split; [kept_tac|]); auto.
  all: right; unfold stream_name, stream_pos; simpl in *;
    match goal with H : w_streams _ !! _ = Some ?st |- _ =>
      rewrite H; exists (st_name st), (st_pos st) end;
    rewrite lookup_insert_eq; repeat split; reflexivity.
Qed.

Lemma write_would_block_spec (w : World) (f pos bufpos : nat) (rc : Z) (pos' : nat)
    (w' : World) :
  write_would_block w f pos bufpos = (rc, pos', w') ->
  kept w w' /\
  (rc = 0 /\ pos' = (pos + bufpos)%nat \/ rc = FILE_ERROR /\ pos' = pos).
Proof.
  unfold write_would_block. intros H.
  destruct (fsetpos w f pos) as [rc1 w1] eqn:E1.
  apply fsetpos_spec in E1 as (K1 & R1 & P1).
  destruct R1 as [-> | ->]; simpl in H; [|simplify_eq; split; [exact K1 | auto]].
  specialize (P1 eq_refl).
  destruct (0 <? bufpos)%nat eqn:Hb.
  - destruct (fseek_cur w1 f bufpos) as [rc2 w2] eqn:E2.
    apply fseek_cur_spec in E2 as (K2 & R2 & P2).
    destruct R2 as [-> | ->]; simpl in H;
      [|simplify_eq; split; [exact (kept_trans _ _ _ K1 K2) | auto]].
    specialize (P2 eq_refl _ P1).
    destruct (fgetpos w2 f pos) as [[rc3 pos3] w3] eqn:E3.
    apply fgetpos_spec in E3 as (K3 & R3 & _ & P3 & Q3).
    pose proof (kept_trans _ _ _ (kept_trans _ _ _ K1 K2) K3) as K.
    destruct R3 as [-> | ->]; simpl in H; simplify_eq; (split; [exact K|]).
    + left. split; [reflexivity|]. specialize (P3 eq_refl). congruence.
    + right. split; [reflexivity|]. apply Q3. discriminate.
  - apply Nat.ltb_ge in Hb. simplify_eq. split; [exact K1|].
    left. split; [reflexivity | lia].
Qed.

Lemma write_chunk_spec (w : World) (f pos : nat) (buf : list Byte.byte) :
  forall (wq : list write_event) (bufpos : nat) (sent : list Byte.byte)
         (r : option Z) (pos' : nat) (wq' : list write_event)
         (sent' : list Byte.byte) (w' : World),
    (bufpos <= length buf)%nat ->
    write_chunk wq w f pos buf bufpos sent = (r, pos', wq', sent', w') ->
    kept w w' /\ (length wq' <= length wq)%nat /\
    exists k : nat,
      (bufpos <= k <= length buf)%nat /\
      sent' = sent ++ take (k - bufpos) (drop bufpos buf) /\
      match r with
      | None => k = length buf /\ pos' = pos /\ w' = w /\
                ((bufpos < length buf)%nat -> (length wq' < length wq)%nat)
      | Some rc => rc = 0 /\ pos' = (pos + k)%nat \/ rc = FILE_ERROR /\ pos' = pos
      end.
Proof.
  assert (Hdone : forall (wq : list write_event) bufpos (sent : list Byte.byte),
            bufpos = length buf ->
            kept w w /\ (length wq <= length wq)%nat /\
            exists k : nat, (bufpos <= k <= length buf)%nat /\
              sent = sent ++ take (k - bufpos) (drop bufpos buf) /\
              (k = length buf /\ pos = pos /\ w = w /\
               ((bufpos < length buf)%nat -> (length wq < length wq)%nat))).
  { intros wq bufpos sent ->. split; [apply kept_refl|]. split; [lia|].
    exists (length buf). rewrite Nat.sub_diag, take_0, app_nil_r.
    repeat split; lia. }
  assert (Hblock : forall bufpos (sent : list Byte.byte) rc pos' w',
            (bufpos <= length buf)%nat ->
            write_would_block w f pos bufpos = (rc, pos', w') ->
            kept w w' /\
            exists k : nat, (bufpos <= k <= length buf)%nat /\
              sent = sent ++ take (k - bufpos) (drop bufpos buf) /\
              (rc = 0 /\ pos' = (pos + k)%nat \/ rc = FILE_ERROR /\ pos' = pos)).
  { intros bufpos sent rc pos' w' Hle E.
    apply write_would_block_spec in E as (K & E). split; [exact K|].
    exists bufpos. rewrite Nat.sub_diag, take_0, app_nil_r.
    repeat split; lia. }
  induction wq as [|ev wq IH]; intros bufpos sent r pos' wq' sent' w' Hle H; simpl in H.
  - destruct (bufpos =? length buf)%nat eqn:Hb.
    + apply Nat.eqb_eq in Hb. simplify_eq. now apply Hdone.
    + destruct (write_would_block w f pos bufpos) as [[rc p] w1] eqn:E.
      simplify_eq. destruct (Hblock _ sent' _ _ _ Hle E) as (K & k & ?).
      split; [exact K|]. split; [lia|]. exists k. assumption.
  - destruct (bufpos =? length buf)%nat eqn:Hb.
    + apply Nat.eqb_eq in Hb. simplify_eq. now apply Hdone.
    + apply Nat.eqb_neq in Hb. destruct ev as [n|e].
      * apply IH in H; [|lia].
        destruct H as (K & Hlen & k & Hk & Hsent & Hr).
        split; [exact K|]. split; [simpl; lia|]. exists k. split; [lia|]. split.
        -- rewrite Hsent, <- app_assoc. f_equal.
           rewrite <- (drop_drop buf), take_take_drop. f_equal. lia.
        -- destruct r; [exact Hr|].
           destruct Hr as (? & ? & ? & _). repeat split; try assumption.
           intros _. simpl. lia.
      * destruct (errno_eqb e EINTR).
        -- apply IH in H; [|lia].
           destruct H as (K & Hlen & k & Hk & Hsent & Hr).
           split; [exact K|]. split; [simpl; lia|]. exists k.
           repeat split; try lia; try assumption.
           destruct r; [exact Hr|].
           destruct Hr as (? & ? & ? & _). repeat split; try assumption.
           intros _. simpl. lia.
        -- destruct (would_block e).
           ++ destruct (write_would_block w f pos bufpos) as [[rc p] w1] eqn:E.
              simplify_eq. destruct (Hblock _ sent' _ _ _ Hle E) as (K & k & ?).
              split; [exact K|]. split; [simpl; lia|]. exists k. assumption.
           ++ simplify_eq. split; [apply kept_elog, kept_refl|].
              split; [simpl; lia|]. exists bufpos.
              rewrite Nat.sub_diag, take_0, app_nil_r. unfold FILE_ERROR.
              repeat split; lia.
Qed.

Lemma kept_file_bytes (w w' : World) (name : string) :
  kept w w' -> file_bytes w' name = file_bytes w name.
Proof. intros (Hfs & _). unfold file_bytes. now rewrite Hfs. Qed.

Lemma FILE_BUFSIZE_pos : (0 < FILE_BUFSIZE)%nat.
Proof. unfold FILE_BUFSIZE. lia. Qed.

Lemma take_nil_drop (A : Type) (n p : nat) (l : list A) :
  (0 < n)%nat -> take n (drop p l) = [] -> (length l <= p)%nat.
Proof.
  intros Hn H. apply (f_equal length) in H.
  rewrite length_take, length_drop in H. simpl in H. lia.
Qed.

Lemma write_from_file_loop_spec (f : nat) (name : string) :
  forall (fuel : nat) (wq : list write_event) (w : World) (pos : nat)
         (sent : list Byte.byte) (rc : Z) (pos' : nat) (wq' : list write_event)
         (sent' : list Byte.byte) (w' : World),
    stream_name w f = Some name -> stream_pos w f = Some pos ->
    write_from_file_loop fuel wq w f pos sent = Some (rc, pos', wq', sent', w') ->
    kept w w' /\ (pos <= pos')%nat /\
    (rc = 0 \/ rc = FILE_EOF \/ rc = FILE_ERROR) /\
    ((pos <= length (file_bytes w name))%nat ->
     (pos' <= length (file_bytes w name))%nat) /\
    (rc = 0 -> (pos' <= length (file_bytes w name))%nat) /\
    (rc = FILE_EOF -> (pos <= length (file_bytes w name))%nat ->
     pos' = length (file_bytes w name)) /\
    (rc <> FILE_ERROR ->
     sent' = sent ++ take (pos' - pos) (drop pos (file_bytes w name))).
Proof.
  induction fuel as [|fuel IH];
    intros wq w pos sent rc pos' wq' sent' w' Hname Hpos H; simpl in H; [discriminate|].
  destruct (fread w f FILE_BUFSIZE) as [[buf at_eof] w1] eqn:E1.
  apply fread_spec in E1 as (K1 & E1).
  destruct (length buf =? 0)%nat eqn:Hb.
  { (* nothing read *)
    apply Nat.eqb_eq in Hb.
    assert (Hnil : buf = []) by (destruct buf; [reflexivity | discriminate]).
    subst buf. destruct at_eof; injection H as <- <- <- <- <-.
    - destruct E1 as [(_ & ? & _) | (name0 & p & Hn0 & Hp0 & Hbuf & _)];
        [discriminate|].
      assert (name0 = name) by congruence. assert (p = pos) by congruence.
      subst name0 p. clear Hn0 Hp0.
      symmetry in Hbuf. apply take_nil_drop in Hbuf; [|apply FILE_BUFSIZE_pos].
      split; [exact K1|]. rewrite Nat.sub_diag, take_0, app_nil_r.
      unfold FILE_EOF, FILE_ERROR. repeat split; lia.
    - split; [apply kept_elog, K1|]. rewrite Nat.sub_diag, take_0, app_nil_r.
      unfold FILE_EOF, FILE_ERROR. repeat split; lia. }
  (* a chunk *)
  apply Nat.eqb_neq in Hb.
  destruct E1 as [(-> & _) | (name0 & p & Hn0 & Hp0 & Hbuf & _ & Hp1)];
    [simpl in Hb; lia|].
  assert (name0 = name) by congruence. assert (p = pos) by congruence.
  subst name0 p. clear Hn0 Hp0. subst buf.
  set (content := file_bytes w name) in *.
  set (buf := take FILE_BUFSIZE (drop pos content)) in *.
  assert (Hlen : length buf = Nat.min FILE_BUFSIZE (length content - pos))
    by (unfold buf; now rewrite length_take, length_drop).
  destruct (write_chunk wq w1 f pos buf 0 sent) as [[[[r p2] wq2] sent2] w2] eqn:E2.
  apply write_chunk_spec in E2 as (K2 & _ & k & Hk & Hsent & Hr); [|lia].
  rewrite Nat.sub_0_r, drop_0 in Hsent. subst sent2.
  assert (Htake : take k buf = take k (drop pos content)).
  { unfold buf. rewrite take_take. f_equal. lia. }
  pose proof (kept_trans _ _ _ K1 K2) as K12.
  destruct r as [rc2|].
  - (* return from inside the chunk *)
    injection H as <- <- <- <- <-. split; [exact K12|].
    destruct Hr as [(-> & ->) | (-> & ->)].
    + replace (pos + k - pos)%nat with k by lia. rewrite Htake.
      unfold FILE_EOF, FILE_ERROR. repeat split; lia.
    + unfold FILE_EOF, FILE_ERROR. repeat split; lia.
  - (* the chunk went out whole *)
    destruct Hr as (-> & -> & -> & _).
    destruct (fgetpos w1 f pos) as [[rc3 pos3] w3] eqn:E3.
    apply fgetpos_spec in E3 as (K3 & R3 & Hp3 & P3 & Q3).
    pose proof (kept_trans _ _ _ K1 K3) as K13.
    destruct R3 as [-> | ->]; simpl in H.
    + specialize (P3 eq_refl). rewrite Hp1 in P3. injection P3 as <-.
      apply IH in H.
      * destruct H as (K & Hle & Hrc & Hin & H0 & Heof & Hs).
        rewrite (kept_file_bytes _ _ name K13) in *. fold content in Hin, H0, Heof, Hs.
        split; [exact (kept_trans _ _ _ K13 K)|].
        split; [lia|]. split; [exact Hrc|].
        split; [intros; apply Hin; lia|]. split; [exact H0|].
        split; [intros; apply Heof; [assumption | lia]|].
        intros Hne. rewrite (Hs Hne), <- app_assoc. f_equal.
        rewrite Htake, <- (drop_drop content), take_take_drop. f_equal. lia.
      * destruct K13 as (_ & _ & _ & _ & Hn). now rewrite Hn.
      * now rewrite Hp3.
    + injection H as <- <- <- <- <-. rewrite (Q3 ltac:(discriminate)).
      split; [apply kept_elog, K13|].
      unfold FILE_EOF, FILE_ERROR. repeat split; lia.
Qed.

(** The loop of [write_from_file] ends: a chunk that goes out whole uses
    up an answer of the socket. *)
Lemma write_from_file_loop_total (f : nat) :
  forall (fuel : nat) (wq : list write_event) (w : World) (pos : nat)
         (sent : list Byte.byte),
    (length wq < fuel)%nat -> is_Some (write_from_file_loop fuel wq w f pos sent).
Proof.
  induction fuel as [|fuel IH]; intros wq w pos sent Hfuel; [lia|]. simpl.
  destruct (fread w f FILE_BUFSIZE) as [[buf at_eof] w1].
  destruct (length buf =? 0)%nat eqn:Hb.
  { destruct at_eof; eexists; reflexivity. }
  apply Nat.eqb_neq in Hb.
  destruct (write_chunk wq w1 f pos buf 0 sent) as [[[[r p2] wq2] sent2] w2] eqn:E2.
  apply write_chunk_spec in E2 as (_ & _ & k & _ & _ & Hr); [|lia].
  destruct r as [rc|]; [eexists; reflexivity|].
  destruct Hr as (_ & _ & _ & Hlt).
  destruct (fgetpos w2 f p2) as [[rc3 pos3] w3].
  destruct (negb (rc3 =? 0)); [eexists; reflexivity|].
  apply IH. specialize (Hlt ltac:(lia)). lia.
Qed.

Lemma write_chunk_done (wq : list write_event) (w : World) (f pos : nat)
    (buf sent : list Byte.byte) :
  write_chunk wq w f pos buf (length buf) sent = (None, pos, wq, sent, w).
Proof. destruct wq; simpl; rewrite Nat.eqb_refl; reflexivity. Qed.

(** [EINTR] answers of [write] leave no trace in a chunk. *)
Lemma write_chunk_strip (w : World) (f pos : nat) (buf : list Byte.byte) :
  forall (wq : list write_event) (bufpos : nat) (sent : list Byte.byte),
    write_chunk (strip_eintr wq) w f pos buf bufpos sent =
      let '(r, p, wq', s, w') := write_chunk wq w f pos buf bufpos sent in
      (r, p, strip_eintr wq', s, w').
Proof.
  induction wq as [|ev wq IH]; intros bufpos sent.
  - simpl. destruct (bufpos =? length buf)%nat; [reflexivity|].
    destruct (write_would_block w f pos bufpos) as [[rc p] w']. reflexivity.
  - destruct (bufpos =? length buf)%nat eqn:Hb.
    + apply Nat.eqb_eq in Hb. subst bufpos. rewrite !write_chunk_done. reflexivity.
    + destruct ev as [n|e]; simpl; rewrite ?Hb.
      * apply IH.
      * destruct (errno_eqb e EINTR) eqn:He; simpl; rewrite ?Hb, ?He; [apply IH|].
        destruct (would_block e); [|reflexivity].
        destruct (write_would_block w f pos bufpos) as [[rc p] w']. reflexivity.
Qed.

Lemma write_from_file_loop_strip (f : nat) :
  forall (fuel : nat) (wq : list write_event) (w : World) (pos : nat)
         (sent : list Byte.byte),
    write_from_file_loop fuel (strip_eintr wq) w f pos sent =
      match write_from_file_loop fuel wq w f pos sent with
      | Some (rc, p, wq', s, w') => Some (rc, p, strip_eintr wq', s, w')
      | None => None
      end.
Proof.
  induction fuel as [|fuel IH]; intros wq w pos sent; [reflexivity|]. simpl.
  destruct (fread w f FILE_BUFSIZE) as [[buf at_eof] w1].
  destruct (length buf =? 0)%nat; [destruct at_eof; reflexivity|].
  rewrite write_chunk_strip.
  destruct (write_chunk wq w1 f pos buf 0 sent) as [[[[r p2] wq2] sent2] w2].
  destruct r as [rc|]; [reflexivity|].
  destruct (fgetpos w2 f p2) as [[rc3 pos3] w3].
  destruct (negb (rc3 =? 0)); [reflexivity|]. apply IH.
Qed.

Lemma set_wq_sent_lookup (fd_ : Z) (wq : list write_event) (sent : list Byte.byte)
    (w : World) (s : Socket) :
  w_socks w !! fd_ = Some s ->
  exists s', w_socks (set_wq_sent fd_ wq sent w) !! fd_ = Some s' /\
             s_sent s' = sent /\ s_wq s' = wq.
Proof.
  intros Hs. unfold set_wq_sent. rewrite Hs. simpl. rewrite lookup_insert_eq.
  eexists. repeat split.
Qed.

Lemma set_wq_sent_files (fd_ : Z) (wq : list write_event) (sent : list Byte.byte)
    (w : World) :
  w_fs (set_wq_sent fd_ wq sent w) = w_fs w /\
  w_shut (set_wq_sent fd_ wq sent w) = w_shut w /\
  w_streams (set_wq_sent fd_ wq sent w) = w_streams w /\
  w_stderr (set_wq_sent fd_ wq sent w) = w_stderr w.
Proof. unfold set_wq_sent. destruct (w_socks w !! fd_); repeat split. Qed.

(** What [write_from_file] does to the cursor, to the files and to the
    socket. *)
Lemma write_from_file_spec (w : World) (fd_ : Z) (f : nat) (name : string) (pos : nat)
    (rc : Z) (pos' : nat) (w' : World) :
  stream_name w f = Some name ->
  write_from_file w fd_ f pos = Some (rc, pos', w') ->
  w_fs w' = w_fs w /\ w_shut w' = w_shut w /\
  (forall g, stream_name w' g = stream_name w g) /\
  (pos <= pos')%nat /\
  (rc = 0 \/ rc = FILE_EOF \/ rc = FILE_ERROR) /\
  ((pos <= length (file_bytes w name))%nat ->
   (pos' <= length (file_bytes w name))%nat) /\
  (rc = 0 -> (pos' <= length (file_bytes w name))%nat) /\
  (rc = FILE_EOF -> (pos <= length (file_bytes w name))%nat ->
   pos' = length (file_bytes w name)) /\
  (rc <> FILE_ERROR -> forall sent, sent_on w fd_ = Some sent ->
   sent_on w' fd_ = Some (sent ++ take (pos' - pos) (drop pos (file_bytes w name)))).
Proof.
  intros Hname H. unfold write_from_file in H.
  destruct (fsetpos w f pos) as [rc1 w1] eqn:E1.
  apply fsetpos_spec in E1 as (K1 & R1 & P1).
  destruct R1 as [-> | ->]; [change (negb (0 =? 0)) with false in H
                           |change (negb (-1 =? 0)) with true in H];
    cbv beta iota in H.
  2:{ injection H as <- <- <-. destruct K1 as (? & ? & ? & ? & ?).
      unfold FILE_EOF, FILE_ERROR. repeat split; try assumption; try lia. }
  specialize (P1 eq_refl).
  assert (Hname1 : stream_name w1 f = Some name)
    by (destruct K1 as (_ & _ & _ & _ & Hn); now rewrite Hn).
  destruct (match w_socks w1 !! fd_ with
            | Some s => (s_wq s, s_sent s)
            | None => ([WErr EBADF], [])
            end) as [wq sent0] eqn:Es.
  cbv beta iota in H.
  destruct (write_from_file_loop (S (length wq)) wq w1 f pos sent0)
    as [[[[[rc2 p2] wq2] sent2] w2]|] eqn:E2; cbv beta iota in H; [|discriminate].
  injection H as <- <- <-.
  apply (write_from_file_loop_spec f name) in E2; [|assumption..].
  destruct E2 as (K2 & Hle & Hrc & Hin & H0 & Heof & Hs).
  rewrite (kept_file_bytes _ _ name K1) in *.
  pose proof (kept_trans _ _ _ K1 K2) as (Kfs & Ksocks & Kshut & _ & Knames).
  destruct (set_wq_sent_files fd_ wq2 sent2 w2) as (Ffs & Fshut & Fstreams & _).
  split; [congruence|]. split; [congruence|].
  split; [intros g; unfold stream_name; rewrite Fstreams; apply Knames|].
  repeat (split; [assumption|]).
  intros Hne sent Hsent. unfold sent_on in *.
  destruct K1 as (_ & Ks1 & _). rewrite Ks1 in Es.
  destruct (w_socks w !! fd_) as [s|] eqn:Hsock; [|discriminate].
  simpl in Hsent. injection Hsent as <-. injection Es as <- <-.
  assert (Hsock2 : w_socks w2 !! fd_ = Some s) by (rewrite Ksocks; exact Hsock).
  destruct (set_wq_sent_lookup fd_ wq2 sent2 w2 s Hsock2) as (s' & -> & <- & _).
  simpl. f_equal. apply Hs. exact Hne.
Qed.

(** [write_from_file] returns. *)
Lemma write_from_file_total (w : World) (fd_ : Z) (f pos : nat) :
  is_Some (write_from_file w fd_ f pos).
Proof.
  unfold write_from_file. destruct (fsetpos w f pos) as [rc1 w1].
  destruct (negb (rc1 =? 0)); [eexists; reflexivity|].
  destruct (match w_socks w1 !! fd_ with
            | Some s => (s_wq s, s_sent s)
            | None => ([WErr EBADF], [])
            end) as [wq sent0].
  cbv beta iota.
  destruct (write_from_file_loop_total f (S (length wq)) wq w1 pos sent0 ltac:(lia))
    as [[[[[rc2 p2] wq2] sent2] w2] ->].
  eexists. reflexivity.
Qed.

Lemma appended_nil (w w' : World) (name : string) :
  w_fs w' = w_fs w -> appended w w' name [].
Proof.
  intros H n. unfold file_bytes. rewrite H, app_nil_r. now destruct (decide (n = name)).
Qed.

Lemma appended_trans (w w1 w2 : World) (name : string) (d1 d2 : list Byte.byte) :
  appended w w1 name d1 -> appended w1 w2 name d2 -> appended w w2 name (d1 ++ d2).
Proof.
  intros H1 H2 n. rewrite H2, H1.
  destruct (decide (n = name)); [now rewrite app_assoc | reflexivity].
Qed.

Lemma fwrite_spec (w : World) (f : nat) (buf : list Byte.byte) (ok : bool) (w' : World) :
  fwrite w f buf = (ok, w') ->
  w_socks w' = w_socks w /\ w_shut w' = w_shut w /\
  (forall g, stream_name w' g = stream_name w g) /\
  (ok = true -> exists name, stream_name w f = Some name /\ appended w w' name buf) /\
  (ok = false -> w_fs w' = w_fs w).
Proof.
  unfold fwrite, next_fault. cbv beta iota.
  destruct (match w_faults w with [] => None | r :: _ => r end) as [e|];
    [|destruct (w_streams (set_faults (tail (w_faults w)) w) !! f) as [st|] eqn:Hst];
    intros H; injection H as <- <-; simpl in *.
  1,3: repeat (split; [reflexivity|]); split; [discriminate | reflexivity].
  repeat (split; [reflexivity|]).
  split; [intros g; unfold stream_name at 1; simpl;
          eapply stream_name_insert; eassumption|].
  split; [intros _|discriminate].
  exists (st_name st). split; [unfold stream_name; now rewrite Hst|].
  intros n. unfold file_bytes. simpl.
  destruct (decide (n = st_name st)) as [->|Hne];
    [rewrite lookup_insert_eq | rewrite lookup_insert_ne by congruence]; reflexivity.
Qed.

Lemma read_into_file_loop_spec (f : nat) (name : string) :
  forall (rq : list read_event) (w : World) (count : nat)
         (rc : Z) (count' : nat) (rq' : list read_event) (w' : World),
    stream_name w f = Some name ->
    read_into_file_loop rq w f count = (rc, count', rq', w') ->
    w_socks w' = w_socks w /\ w_shut w' = w_shut w /\
    (forall g, stream_name w' g = stream_name w g) /\
    (rc = 0 \/ rc = FILE_EOF \/ rc = FILE_ERROR) /\
    exists data, count' = (count + length data)%nat /\ appended w w' name data.
Proof.
  induction rq as [|ev rq IH]; intros w count rc count' rq' w' Hname H; simpl in H.
  - injection H as <- <- <- <-. repeat (split; [auto|]).
    exists []. split; [simpl; lia | now apply appended_nil].
  - destruct ev as [bs|e].
    + destruct (length (take FILE_BUFSIZE bs) =? 0)%nat.
      * injection H as <- <- <- <-. repeat (split; [auto|]).
        exists []. split; [simpl; lia | now apply appended_nil].
      * destruct (fwrite w f (take FILE_BUFSIZE bs)) as [ok w1] eqn:E.
        apply fwrite_spec in E as (Hs & Hsh & Hn & Hok & Hfail).
        destruct ok; simpl in H.
        -- destruct (Hok eq_refl) as (name0 & Hn0 & Happ).
           assert (name0 = name) by congruence. subst name0.
           apply IH in H; [|now rewrite Hn].
           destruct H as (Hs2 & Hsh2 & Hn2 & Hrc & data & -> & Happ2).
           split; [congruence|]. split; [congruence|].
           split; [intros g; now rewrite Hn2, Hn|]. split; [exact Hrc|].
           exists (take FILE_BUFSIZE bs ++ data). split.
           ++ rewrite length_app. lia.
           ++ eapply appended_trans; eassumption.
        -- injection H as <- <- <- <-. repeat (split; [auto|]).
           exists []. split; [simpl; lia | apply appended_nil; auto].
    + destruct (errno_eqb e EINTR); [eapply IH; eassumption|].
      destruct (would_block e); injection H as <- <- <- <-;
        repeat (split; [auto|]); exists [];
        (split; [simpl; lia | now apply appended_nil]).
Qed.

Lemma set_rq_files (fd_ : Z) (rq : list read_event) (w : World) :
  w_fs (set_rq fd_ rq w) = w_fs w /\ w_shut (set_rq fd_ rq w) = w_shut w /\
  w_streams (set_rq fd_ rq w) = w_streams w /\
  w_stderr (set_rq fd_ rq w) = w_stderr w.
Proof. unfold set_rq. destruct (w_socks w !! fd_); repeat split. Qed.

(** What [read_into_file] does to the files: the journal grows by
    [*count] bytes, nothing else changes. *)
Lemma read_into_file_spec (w : World) (fd_ : Z) (f : nat) (name : string)
    (rc : Z) (count : nat) (w' : World) :
  stream_name w f = Some name ->
  read_into_file w fd_ f = (rc, count, w') ->
  w_shut w' = w_shut w /\
  (forall g, stream_name w' g = stream_name w g) /\
  (rc = 0 \/ rc = FILE_EOF \/ rc = FILE_ERROR) /\
  exists data, count = length data /\ appended w w' name data.
Proof.
  intros Hname H. unfold read_into_file in H.
  destruct (read_into_file_loop _ w f 0) as [[[rc1 count1] rq1] w1] eqn:E.
  injection H as <- <- <-.
  apply (read_into_file_loop_spec f name) in E; [|assumption].
  destruct E as (_ & Hsh & Hn & Hrc & data & -> & Happ).
  destruct (set_rq_files fd_ rq1 w1) as (Ffs & Fshut & Fstreams & _).
  split; [congruence|].
  split; [intros g; unfold stream_name; rewrite Fstreams; apply Hn|].
  split; [exact Hrc|]. exists data. split; [reflexivity|].
  intros n. unfold file_bytes. rewrite Ffs. apply Happ.
Qed.

(** A final chunk of eight bytes, of which the socket takes four: the
    cursor moves from 2 to 6, and the socket has the bytes 2 to 5. *)
Example replay_partial_chunk :
  exists w', write_from_file world_replay 5 0 2 = Some (0, 6%nat, w') /\
             sent_on w' 5 = Some (bytes_of [108; 108; 111; 32]).
Proof. eexists. split; vm_compute; reflexivity. Qed.

(** C5: when [write_from_file] returns 0 (would block), the cursor has
    advanced by exactly the bytes the socket took, which are the bytes of
    the journal between the old and the new cursor, whole chunks and the
    part of the last chunk alike; and [EINTR] answers of [write] change
    neither the returned code nor the cursor nor the bytes sent. *)
Theorem replay_would_block_cursor :
  (forall (w : World) (fd_ : Z) (f : nat) (name : string) (pos pos' : nat) (w' : World)
          (sent : list Byte.byte),
     stream_name w f = Some name ->
     sent_on w fd_ = Some sent ->
     write_from_file w fd_ f pos = Some (0, pos', w') ->
     (pos <= pos' <= length (file_bytes w name))%nat /\
     exists written,
       sent_on w' fd_ = Some (sent ++ written) /\
       written = take (pos' - pos) (drop pos (file_bytes w name)) /\
       length written = (pos' - pos)%nat) /\
  (forall (fuel : nat) (wq : list write_event) (w : World) (f pos : nat)
          (sent : list Byte.byte) (rc : Z) (pos' : nat) (wq' : list write_event)
          (sent' : list Byte.byte) (w' : World),
     write_from_file_loop fuel wq w f pos sent = Some (rc, pos', wq', sent', w') ->
     write_from_file_loop fuel (strip_eintr wq) w f pos sent =
       Some (rc, pos', strip_eintr wq', sent', w')).
Proof.
  split.
  - intros w fd_ f name pos pos' w' sent Hname Hsent H.
    apply (write_from_file_spec _ _ _ name) in H; [|assumption].
    destruct H as (_ & _ & _ & Hle & _ & _ & H0 & _ & Hs).
    specialize (H0 eq_refl). split; [lia|].
    eexists. split; [apply Hs; [discriminate | exact Hsent]|].
    split; [reflexivity|]. rewrite length_take, length_drop. lia.
  - intros fuel wq w f pos sent rc pos' wq' sent' w' H.
    rewrite write_from_file_loop_strip, H. reflexivity.
Qed.

Lemma replay_would_block_cursor_witness :
  exists w', write_from_file world_replay 5 0 2 = Some (0, 6%nat, w') /\
    (2 <= 6 <= length (file_bytes world_replay "127.0.0.1:54321"))%nat /\
    exists written,
      sent_on w' 5 = Some ([] ++ written) /\
      written = take (6 - 2) (drop 2 (file_bytes world_replay "127.0.0.1:54321")) /\
      length written = (6 - 2)%nat.
Proof.
  eexists. split; [vm_compute; reflexivity|].
  apply (proj1 replay_would_block_cursor world_replay 5 0%nat "127.0.0.1:54321"
           2%nat 6%nat _ []); [reflexivity | reflexivity | vm_compute; reflexivity].
Defined.

(** ** Bridge engine *)

Lemma shutdown_spec (w : World) (fd_ how rc : Z) (w' : World) :
  shutdown w fd_ how = (rc, w') ->
  w_fs w' = w_fs w /\ w_streams w' = w_streams w /\ w_socks w' = w_socks w /\
  w_shut w' = (fd_, how) :: w_shut w.
Proof. unfold shutdown, next_fault. intros H. injection H as <- <-. repeat split. Qed.

(** The effect of a [shutdown] call with its diagnostic. *)
Lemma shutdown_logged_spec (w : World) (fd_ how : Z) (msg : string) (rc : Z) (w1 : World) :
  shutdown w fd_ how = (rc, w1) ->
  let w' := if negb (rc =? 0) then elog msg w1 else w1 in
  w_fs w' = w_fs w /\ w_streams w' = w_streams w /\ w_socks w' = w_socks w /\
  w_shut w' = (fd_, how) :: w_shut w.
Proof.
  intros H. apply shutdown_spec in H. destruct (negb (rc =? 0)); exact H.
Qed.

Lemma stream_name_streams (w w' : World) :
  w_streams w' = w_streams w -> forall g, stream_name w' g = stream_name w g.
Proof. intros H g. unfold stream_name. now rewrite H. Qed.

Lemma file_bytes_fs (w w' : World) :
  w_fs w' = w_fs w -> forall n, file_bytes w' n = file_bytes w n.
Proof. intros H n. unfold file_bytes. now rewrite H. Qed.

(** "Read source": the source journal grows by [count] bytes; the bridge
    changes in [eofFromSource] at most, and then the read half of the
    source is shut down. *)
Lemma read_source_spec (w : World) (bridge : Bridge) (ns : string)
    (ok : bool) (count : nat) (w' : World) (bridge' : Bridge) :
  stream_name w (srcFile bridge) = Some ns ->
  read_source w bridge = (ok, count, w', bridge') ->
  (forall g, stream_name w' g = stream_name w g) /\
  (exists data, count = length data /\ appended w w' ns data) /\
  (bridge' = bridge /\ w_shut w' = w_shut w \/
   bridge' = set_eofFromSource true bridge /\ ok = true /\
   w_shut w' = (fd (srcwatcher bridge), SHUT_RD) :: w_shut w).
Proof.
  intros Hname H. unfold read_source in H.
  destruct (negb (eofFromSource bridge)).
  - destruct (read_into_file w (fd (srcwatcher bridge)) (srcFile bridge))
      as [[rc count0] w1] eqn:E.
    apply (read_into_file_spec _ _ _ ns) in E; [|assumption].
    destruct E as (Hsh & Hn & Hrc & data & -> & Happ).
    destruct Hrc as [-> | [-> | ->]]; cbv beta iota in H;
      [change (0 =? FILE_ERROR) with false in H; change (0 =? FILE_EOF) with false in H
      |change (FILE_EOF =? FILE_ERROR) with false in H;
       change (FILE_EOF =? FILE_EOF) with true in H
      |change (FILE_ERROR =? FILE_ERROR) with true in H]; cbv beta iota in H.
    + injection H as <- <- <- <-. split; [exact Hn|]. split; [eauto|]. left. auto.
    + destruct (shutdown w1 _ SHUT_RD) as [rc2 w2] eqn:E2.
      injection H as <- <- <- <-.
      pose proof (shutdown_logged_spec _ _ _
        "Unable to shutdown source %d for reading: %s" _ _ E2) as (Hfs & Hst & _ & Hsh2).
      cbv zeta in *.
      split; [intros g; rewrite (stream_name_streams _ _ Hst); apply Hn|].
      split.
      * exists data. split; [reflexivity|]. intros n.
        rewrite (file_bytes_fs _ _ Hfs). apply Happ.
      * right. rewrite Hsh2, Hsh. auto.
    + injection H as <- <- <- <-. split; [exact Hn|]. split.
      * exists data. split; [reflexivity|]. exact Happ.
      * left. auto.
  - change (0 =? FILE_ERROR) with false in H. change (0 =? FILE_EOF) with false in H.
    injection H as <- <- <- <-. split; [reflexivity|]. split.
    + exists []. split; [reflexivity | now apply appended_nil].
    + left. auto.
Qed.

(** "read destination", likewise. *)
Lemma read_destination_spec (w : World) (bridge : Bridge) (nd : string)
    (ok : bool) (count : nat) (w' : World) (bridge' : Bridge) :
  stream_name w (destFile bridge) = Some nd ->
  read_destination w bridge = (ok, count, w', bridge') ->
  (forall g, stream_name w' g = stream_name w g) /\
  (exists data, count = length data /\ appended w w' nd data) /\
  (bridge' = bridge /\ w_shut w' = w_shut w \/
   bridge' = set_eofFromDestination true bridge /\ ok = true /\
   w_shut w' = (fd (destwatcher bridge), SHUT_RD) :: w_shut w).
Proof.
  intros Hname H. unfold read_destination in H.
  destruct (negb (eofFromDestination bridge)).
  - destruct (read_into_file w (fd (destwatcher bridge)) (destFile bridge))
      as [[rc count0] w1] eqn:E.
    apply (read_into_file_spec _ _ _ nd) in E; [|assumption].
    destruct E as (Hsh & Hn & Hrc & data & -> & Happ).
    destruct Hrc as [-> | [-> | ->]]; cbv beta iota in H;
      [change (0 =? FILE_ERROR) with false in H; change (0 =? FILE_EOF) with false in H
      |change (FILE_EOF =? FILE_ERROR) with false in H;
       change (FILE_EOF =? FILE_EOF) with true in H
      |change (FILE_ERROR =? FILE_ERROR) with true in H]; cbv beta iota in H.
    + injection H as <- <- <- <-. split; [exact Hn|]. split; [eauto|]. left. auto.
    + destruct (shutdown w1 _ SHUT_RD) as [rc2 w2] eqn:E2.
      injection H as <- <- <- <-.
      pose proof (shutdown_logged_spec _ _ _
        "Unable to shutdown destination %d for reading: %s" _ _ E2)
        as (Hfs & Hst & _ & Hsh2).
      cbv zeta in *.
      split; [intros g; rewrite (stream_name_streams _ _ Hst); apply Hn|].
      split.
      * exists data. split; [reflexivity|]. intros n.
        rewrite (file_bytes_fs _ _ Hfs). apply Happ.
      * right. rewrite Hsh2, Hsh. auto.
    + injection H as <- <- <- <-. split; [exact Hn|]. split.
      * exists data. split; [reflexivity|]. exact Happ.
      * left. auto.
  - change (0 =? FILE_ERROR) with false in H. change (0 =? FILE_EOF) with false in H.
    injection H as <- <- <- <-. split; [reflexivity|]. split.
    + exists []. split; [reflexivity | now apply appended_nil].
    + left. auto.
Qed.

Lemma set_srcPos_id (b : Bridge) : set_srcPos (srcPos b) b = b.
Proof. destruct b; reflexivity. Qed.

Lemma set_destPos_id (b : Bridge) : set_destPos (destPos b) b = b.
Proof. destruct b; reflexivity. Qed.

(** "bridge source to destination": the files stay as they are; the
    bridge changes in [srcPos] and [sourceFlushed] only; the cursor stays
    within the journal, and is at its end when the block succeeds with
    [sourceFlushed] set after a replay; the write half of the destination
    is shut down only with [eofFromSource] and [sourceFlushed] set. *)
Lemma bridge_source_spec (w : World) (bridge : Bridge) (count : nat) (ns : string)
    (ok : bool) (w' : World) (bridge' : Bridge) :
  stream_name w (srcFile bridge) = Some ns ->
  bridge_source w bridge count = Some (ok, w', bridge') ->
  (forall g, stream_name w' g = stream_name w g) /\ w_fs w' = w_fs w /\
  exists pos' flushed',
    bridge' = set_sourceFlushed flushed' (set_srcPos pos' bridge) /\
    (srcPos bridge <= pos')%nat /\
    ((srcPos bridge <= length (file_bytes w ns))%nat ->
     (pos' <= length (file_bytes w ns))%nat) /\
    (ok = true -> flushed' = true ->
     ((srcPos bridge <= length (file_bytes w ns))%nat ->
      pos' = length (file_bytes w ns)) \/
     (sourceFlushed bridge = true /\ count = 0%nat /\ pos' = srcPos bridge)) /\
    (w_shut w' = w_shut w \/
     w_shut w' = (fd (destwatcher bridge), SHUT_WR) :: w_shut w /\
     eofFromSource bridge = true /\ flushed' = true /\ ok = true).
Proof.
  intros Hname H. unfold bridge_source in H.
  destruct (negb (sourceFlushed bridge) || (0 <? count)%nat) eqn:Hc.
  - destruct (write_from_file w (fd (destwatcher bridge)) (srcFile bridge)
                (srcPos bridge)) as [[[rc pos'] w1]|] eqn:E; [|discriminate].
    apply (write_from_file_spec _ _ _ ns) in E; [|assumption].
    destruct E as (Hfs & Hsh & Hn & Hle & Hrc & Hin & _ & Heof & _).
    unfold mbind, option_bind in H. cbv beta iota in H.
    destruct Hrc as [-> | [-> | ->]];
      [change (0 =? FILE_ERROR) with false in H; change (0 =? FILE_EOF) with false in H
      |change (FILE_EOF =? FILE_ERROR) with false in H;
       change (FILE_EOF =? FILE_EOF) with true in H
      |change (FILE_ERROR =? FILE_ERROR) with true in H]; cbv beta iota in H.
    + injection H as <- <- <-. split; [exact Hn|]. split; [exact Hfs|].
      exists pos', false. repeat split; auto. discriminate.
    + destruct (eofFromSource (set_sourceFlushed true (set_srcPos pos' bridge)))
        eqn:Heofs.
      * destruct (shutdown w1 _ SHUT_WR) as [rc2 w2] eqn:E2.
        injection H as <- <- <-.
        pose proof (shutdown_logged_spec _ _ _
          "Unable to shutdown destination %d for writing: %s" _ _ E2)
          as (Hfs2 & Hst & _ & Hsh2).
        cbv zeta in *.
        split; [intros g; rewrite (stream_name_streams _ _ Hst); apply Hn|].
        split; [congruence|].
        exists pos', true. repeat split; auto.
        right. simpl in Hsh2. rewrite Hsh2, Hsh. auto.
      * injection H as <- <- <-. split; [exact Hn|]. split; [exact Hfs|].
        exists pos', true. repeat split; auto.
    + injection H as <- <- <-. split; [exact Hn|]. split; [exact Hfs|].
      exists pos', (sourceFlushed bridge). repeat split; auto. discriminate.
  - apply orb_false_iff in Hc as [Hfl Hcount].
    apply negb_false_iff in Hfl. apply Nat.ltb_ge in Hcount.
    unfold mbind, option_bind in H. cbv beta iota in H.
    change (FILE_EOF =? FILE_ERROR) with false in H.
    change (FILE_EOF =? FILE_EOF) with true in H. cbv beta iota in H.
    assert (Hshort : sourceFlushed bridge = true /\ count = 0%nat /\
                     srcPos bridge = srcPos bridge) by (repeat split; [assumption | lia]).
    destruct (eofFromSource (set_sourceFlushed true bridge)) eqn:Heofs.
    + destruct (shutdown w _ SHUT_WR) as [rc2 w2] eqn:E2.
      injection H as <- <- <-.
      pose proof (shutdown_logged_spec _ _ _
        "Unable to shutdown destination %d for writing: %s" _ _ E2)
        as (Hfs2 & Hst & _ & Hsh2).
      cbv zeta in *.
      split; [apply stream_name_streams, Hst|]. split; [exact Hfs2|].
      exists (srcPos bridge), true. rewrite set_srcPos_id.
      split; [reflexivity|]. split; [lia|]. split; [auto|].
      split; [intros _ _; right; exact Hshort|].
      right. auto.
    + injection H as <- <- <-. split; [reflexivity|]. split; [reflexivity|].
      exists (srcPos bridge), true. rewrite set_srcPos_id.
      split; [reflexivity|]. split; [lia|]. split; [auto|].
      split; [intros _ _; right; exact Hshort|].
      left. reflexivity.
Qed.

(** "bridge destination to source", likewise. *)
Lemma bridge_destination_spec (w : World) (bridge : Bridge) (count : nat) (nd : string)
    (ok : bool) (w' : World) (bridge' : Bridge) :
  stream_name w (destFile bridge) = Some nd ->
  bridge_destination w bridge count = Some (ok, w', bridge') ->
  (forall g, stream_name w' g = stream_name w g) /\ w_fs w' = w_fs w /\
  exists pos' flushed',
    bridge' = set_destinationFlushed flushed' (set_destPos pos' bridge) /\
    (destPos bridge <= pos')%nat /\
    ((destPos bridge <= length (file_bytes w nd))%nat ->
     (pos' <= length (file_bytes w nd))%nat) /\
    (ok = true -> flushed' = true ->
     ((destPos bridge <= length (file_bytes w nd))%nat ->
      pos' = length (file_bytes w nd)) \/
     (destinationFlushed bridge = true /\ count = 0%nat /\ pos' = destPos bridge)) /\
    (w_shut w' = w_shut w \/
     w_shut w' = (fd (srcwatcher bridge), SHUT_WR) :: w_shut w /\
     eofFromDestination bridge = true /\ flushed' = true /\ ok = true).
Proof.
  intros Hname H. unfold bridge_destination in H.
  destruct (negb (destinationFlushed bridge) || (0 <? count)%nat) eqn:Hc.
  - destruct (write_from_file w (fd (srcwatcher bridge)) (destFile bridge)
                (destPos bridge)) as [[[rc pos'] w1]|] eqn:E; [|discriminate].
    apply (write_from_file_spec _ _ _ nd) in E; [|assumption].
    destruct E as (Hfs & Hsh & Hn & Hle & Hrc & Hin & _ & Heof & _).
    unfold mbind, option_bind in H. cbv beta iota in H.
    destruct Hrc as [-> | [-> | ->]];
      [change (0 =? FILE_ERROR) with false in H; change (0 =? FILE_EOF) with false in H
      |change (FILE_EOF =? FILE_ERROR) with false in H;
       change (FILE_EOF =? FILE_EOF) with true in H
      |change (FILE_ERROR =? FILE_ERROR) with true in H]; cbv beta iota in H.
    + injection H as <- <- <-. split; [exact Hn|]. split; [exact Hfs|].
      exists pos', false. repeat split; auto. discriminate.
    + destruct (eofFromDestination (set_destinationFlushed true (set_destPos pos' bridge)))
        eqn:Heofs.
      * destruct (shutdown w1 _ SHUT_WR) as [rc2 w2] eqn:E2.
        injection H as <- <- <-.
        pose proof (shutdown_logged_spec _ _ _
          "Unable to shutdown source %d for writing: %s" _ _ E2)
          as (Hfs2 & Hst & _ & Hsh2).
        cbv zeta in *.
        split; [intros g; rewrite (stream_name_streams _ _ Hst); apply Hn|].
        split; [congruence|].
        exists pos', true. repeat split; auto.
        right. simpl in Hsh2. rewrite Hsh2, Hsh. auto.
      * injection H as <- <- <-. split; [exact Hn|]. split; [exact Hfs|].
        exists pos', true. repeat split; auto.
    + injection H as <- <- <-. split; [exact Hn|]. split; [exact Hfs|].
      exists pos', (destinationFlushed bridge). repeat split; auto. discriminate.
  - apply orb_false_iff in Hc as [Hfl Hcount].
    apply negb_false_iff in Hfl. apply Nat.ltb_ge in Hcount.
    unfold mbind, option_bind in H. cbv beta iota in H.
    change (FILE_EOF =? FILE_ERROR) with false in H.
    change (FILE_EOF =? FILE_EOF) with true in H. cbv beta iota in H.
    assert (Hshort : destinationFlushed bridge = true /\ count = 0%nat /\
                     destPos bridge = destPos bridge) by (repeat split; [assumption | lia]).
    destruct (eofFromDestination (set_destinationFlushed true bridge)) eqn:Heofs.
    + destruct (shutdown w _ SHUT_WR) as [rc2 w2] eqn:E2.
      injection H as <- <- <-.
      pose proof (shutdown_logged_spec _ _ _
        "Unable to shutdown source %d for writing: %s" _ _ E2)
        as (Hfs2 & Hst & _ & Hsh2).
      cbv zeta in *.
      split; [apply stream_name_streams, Hst|]. split; [exact Hfs2|].
      exists (destPos bridge), true. rewrite set_destPos_id.
      split; [reflexivity|]. split; [lia|]. split; [auto|].
      split; [intros _ _; right; exact Hshort|].
      right. auto.
    + injection H as <- <- <-. split; [reflexivity|]. split; [reflexivity|].
      exists (destPos bridge), true. rewrite set_destPos_id.
      split; [reflexivity|]. split; [lia|]. split; [auto|].
      split; [intros _ _; right; exact Hshort|].
      left. reflexivity.
Qed.

Lemma appended_len (w w' : World) (name : string) (d : list Byte.byte) :
  appended w w' name d ->
  length (file_bytes w' name) = (length (file_bytes w name) + length d)%nat.
Proof.
  intros H. rewrite (H name). destruct (decide (name = name)); [|congruence].
  apply length_app.
Qed.

Lemma appended_len_other (w w' : World) (name n : string) (d : list Byte.byte) :
  appended w w' name d -> n <> name ->
  length (file_bytes w' n) = length (file_bytes w n).
Proof.
  intros H Hne. rewrite (H n). destruct (decide (n = name)); [congruence | reflexivity].
Qed.

Lemma appended_len_le (w w' : World) (name n : string) (d : list Byte.byte) :
  appended w w' name d ->
  (length (file_bytes w n) <= length (file_bytes w' n))%nat.
Proof.
  intros H. rewrite (H n). destruct (decide (n = name)); [rewrite length_app|]; lia.
Qed.

Lemma read_source_journal_inv (w : World) (b : Bridge) ok count w' b' :
  journal_inv w b -> read_source w b = (ok, count, w', b') -> journal_inv w' b'.
Proof.
  intros (ns & nd & (Hs & Hd) & Ps & Pd) H.
  apply (read_source_spec _ _ ns) in H; [|assumption].
  destruct H as (Hn & (data & _ & Happ) & Hb).
  pose proof (appended_len_le _ _ _ ns _ Happ). pose proof (appended_len_le _ _ _ nd _ Happ).
  exists ns, nd.
  destruct Hb as [(-> & _) | (-> & _)]; unfold journals_at; simpl; rewrite !Hn;
    repeat split; try assumption; lia.
Qed.

Lemma read_destination_journal_inv (w : World) (b : Bridge) ok count w' b' :
  journal_inv w b -> read_destination w b = (ok, count, w', b') -> journal_inv w' b'.
Proof.
  intros (ns & nd & (Hs & Hd) & Ps & Pd) H.
  apply (read_destination_spec _ _ nd) in H; [|assumption].
  destruct H as (Hn & (data & _ & Happ) & Hb).
  pose proof (appended_len_le _ _ _ ns _ Happ). pose proof (appended_len_le _ _ _ nd _ Happ).
  exists ns, nd.
  destruct Hb as [(-> & _) | (-> & _)]; unfold journals_at; simpl; rewrite !Hn;
    repeat split; try assumption; lia.
Qed.

Lemma bridge_source_journal_inv (w : World) (b : Bridge) count ok w' b' :
  journal_inv w b -> bridge_source w b count = Some (ok, w', b') -> journal_inv w' b'.
Proof.
  intros (ns & nd & (Hs & Hd) & Ps & Pd) H.
  apply (bridge_source_spec _ _ _ ns) in H; [|assumption].
  destruct H as (Hn & Hfs & pos' & fl & -> & _ & Hin & _).
  exists ns, nd. unfold journals_at. simpl. rewrite !Hn, !(file_bytes_fs _ _ Hfs).
  repeat split; auto.
Qed.

Lemma bridge_destination_journal_inv (w : World) (b : Bridge) count ok w' b' :
  journal_inv w b -> bridge_destination w b count = Some (ok, w', b') ->
  journal_inv w' b'.
Proof.
  intros (ns & nd & (Hs & Hd) & Ps & Pd) H.
  apply (bridge_destination_spec _ _ _ nd) in H; [|assumption].
  destruct H as (Hn & Hfs & pos' & fl & -> & _ & Hin & _).
  exists ns, nd. unfold journals_at. simpl. rewrite !Hn, !(file_bytes_fs _ _ Hfs).
  repeat split; auto.
Qed.

Lemma perform_operation_journal_inv (w : World) (b : Bridge) ok w' b' :
  journal_inv w b -> perform_operation w b = Some (ok, w', b') -> journal_inv w' b'.
Proof.
  intros Hinv H. unfold perform_operation in H.
  destruct (read_source w b) as [[[ok1 c1] w1] b1] eqn:E1.
  apply (read_source_journal_inv _ _ _ _ _ _ Hinv) in E1.
  destruct ok1; simpl in H; [|now injection H as <- <- <-].
  destruct (bridge_source w1 b1 c1) as [[[ok2 w2] b2]|] eqn:E2; [|discriminate].
  apply (bridge_source_journal_inv _ _ _ _ _ _ E1) in E2.
  simpl in H. destruct ok2; simpl in H; [|now injection H as <- <- <-].
  destruct (read_destination w2 b2) as [[[ok3 c3] w3] b3] eqn:E3.
  apply (read_destination_journal_inv _ _ _ _ _ _ E2) in E3.
  destruct ok3; simpl in H; [|now injection H as <- <- <-].
  now apply (bridge_destination_journal_inv _ _ _ _ _ _ E3) in H.
Qed.

Lemma close_fd_spec (w : World) (fd_ : Z) :
  w_socks (close_fd w fd_) = delete fd_ (w_socks w) /\
  w_streams (close_fd w fd_) = w_streams w /\
  w_fs (close_fd w fd_) = w_fs w /\ w_shut (close_fd w fd_) = w_shut w.
Proof.
  unfold close_fd. generalize (w_faults w) as faults.
  induction faults as [|[e|] faults IH]; simpl; try (repeat split; reflexivity).
  destruct (errno_eqb e EINTR); [exact IH | repeat split; reflexivity].
Qed.

Lemma close_output_file_spec (w : World) (f : nat) :
  w_streams (close_output_file w f) = delete f (w_streams w) /\
  w_socks (close_output_file w f) = w_socks w /\
  w_fs (close_output_file w f) = w_fs w /\
  w_shut (close_output_file w f) = w_shut w.
Proof.
  unfold close_output_file. generalize (w_faults w) as faults.
  induction faults as [|[e|] faults IH]; simpl; try (repeat split; reflexivity).
  destruct (errno_eqb e EINTR); [exact IH | repeat split; reflexivity].
Qed.

(** [bridge_del] stops both watchers, closes both descriptors and both
    streams, and leaves the files and the rest of the bridge alone. *)
Lemma bridge_del_spec (w : World) (b : Bridge) :
  exists w' b',
    bridge_del w b = (w', b', Freed) /\
    b' = set_destwatcher (ev_io_stop (destwatcher b))
           (set_srcwatcher (ev_io_stop (srcwatcher b)) b) /\
    w_socks w' = delete (fd (destwatcher b)) (delete (fd (srcwatcher b)) (w_socks w)) /\
    w_streams w' = delete (destFile b) (delete (srcFile b) (w_streams w)) /\
    w_fs w' = w_fs w /\ w_shut w' = w_shut w.
Proof.
  unfold bridge_del, bridge_fini. eexists _, _. split; [reflexivity|]. simpl.
  set (w1 := close_fd w (fd (srcwatcher b))).
  set (w2 := close_fd w1 (fd (destwatcher b))).
  set (w3 := close_output_file w2 (srcFile b)).
  destruct (close_fd_spec w (fd (srcwatcher b))) as (S1 & T1 & F1 & H1).
  destruct (close_fd_spec w1 (fd (destwatcher b))) as (S2 & T2 & F2 & H2).
  destruct (close_output_file_spec w2 (srcFile b)) as (T3 & S3 & F3 & H3).
  destruct (close_output_file_spec w3 (destFile b)) as (T4 & S4 & F4 & H4).
  fold w1 in S1, T1, F1, H1 |- *. fold w2 in S2, T2, F2, H2 |- *.
  fold w3 in S3, T3, F3, H3 |- *.
  repeat split; congruence.
Qed.

Lemma bridge_del_freed (w : World) (b : Bridge) w' b' fate_ :
  bridge_del w b = (w', b', fate_) -> fate_ = Freed.
Proof. unfold bridge_del. destruct (bridge_fini w b). congruence. Qed.

Lemma recalibrate_watcher_spec (watcher_ : ev_io) (read_open flushed : bool) :
  let watcher' := recalibrate_watcher watcher_ read_open flushed in
  fd watcher' = fd watcher_ /\
  Z.testbit (events watcher') 0 = read_open /\
  Z.testbit (events watcher') 1 = negb flushed /\
  (Z.land (events watcher') (Z.lor EV_READ EV_WRITE) = 0 <->
   read_open = false /\ flushed = true) /\
  (events watcher_ <> 0 -> read_open = false -> flushed = true ->
   active watcher' = false).
Proof.
  unfold recalibrate_watcher.
  destruct read_open, flushed; simpl;
    match goal with
    | |- context [events watcher_ =? ?n] =>
      destruct (Z.eqb_spec (events watcher_) n) as [He|He]; simpl
    end;
    try rewrite He; unfold ev_io_start, ev_io_set, ev_io_stop; simpl;
    repeat split; try reflexivity; try discriminate; try tauto; try congruence;
    try (intros [? ?]; discriminate); auto.
Qed.

Lemma read_source_bridge (w : World) (b : Bridge) ok count w' b' :
  read_source w b = (ok, count, w', b') ->
  b' = b \/ b' = set_eofFromSource true b.
Proof.
  unfold read_source. intros H.
  destruct (if negb (eofFromSource b) then _ else _) as [[rc c] w1].
  destruct (rc =? FILE_ERROR); [injection H as <- <- <- <-; auto|].
  destruct (rc =? FILE_EOF); [|injection H as <- <- <- <-; auto].
  destruct (shutdown w1 _ SHUT_RD) as [rc2 w2].
  injection H as <- <- <- <-. auto.
Qed.

Lemma read_destination_bridge (w : World) (b : Bridge) ok count w' b' :
  read_destination w b = (ok, count, w', b') ->
  b' = b \/ b' = set_eofFromDestination true b.
Proof.
  unfold read_destination. intros H.
  destruct (if negb (eofFromDestination b) then _ else _) as [[rc c] w1].
  destruct (rc =? FILE_ERROR); [injection H as <- <- <- <-; auto|].
  destruct (rc =? FILE_EOF); [|injection H as <- <- <- <-; auto].
  destruct (shutdown w1 _ SHUT_RD) as [rc2 w2].
  injection H as <- <- <- <-. auto.
Qed.

Lemma bridge_source_bridge (w : World) (b : Bridge) count ok w' b' :
  bridge_source w b count = Some (ok, w', b') ->
  exists p fl, b' = set_sourceFlushed fl (set_srcPos p b).
Proof.
  unfold bridge_source. intros H.
  destruct (negb (sourceFlushed b) || (0 <? count)%nat).
  - destruct (write_from_file w (fd (destwatcher b)) (srcFile b) (srcPos b))
      as [[[rc p] w1]|]; [|discriminate].
    unfold mbind, option_bind in H. cbv beta iota in H.
    destruct (rc =? FILE_ERROR);
      [injection H as <- <- <-; exists p, (sourceFlushed b); reflexivity|].
    destruct (rc =? FILE_EOF);
      [|injection H as <- <- <-; exists p, false; reflexivity].
    destruct (eofFromSource _); [destruct (shutdown w1 _ SHUT_WR)|];
      injection H as <- <- <-; exists p, true; reflexivity.
  - unfold mbind, option_bind in H. cbv beta iota in H.
    change (FILE_EOF =? FILE_ERROR) with false in H.
    change (FILE_EOF =? FILE_EOF) with true in H. cbv beta iota in H.
    destruct (eofFromSource _); [destruct (shutdown w _ SHUT_WR)|];
      injection H as <- <- <-; exists (srcPos b), true;
      now rewrite set_srcPos_id.
Qed.

Lemma bridge_destination_bridge (w : World) (b : Bridge) count ok w' b' :
  bridge_destination w b count = Some (ok, w', b') ->
  exists p fl, b' = set_destinationFlushed fl (set_destPos p b).
Proof.
  unfold bridge_destination. intros H.
  destruct (negb (destinationFlushed b) || (0 <? count)%nat).
  - destruct (write_from_file w (fd (srcwatcher b)) (destFile b) (destPos b))
      as [[[rc p] w1]|]; [|discriminate].
    unfold mbind, option_bind in H. cbv beta iota in H.
    destruct (rc =? FILE_ERROR);
      [injection H as <- <- <-; exists p, (destinationFlushed b); reflexivity|].
    destruct (rc =? FILE_EOF);
      [|injection H as <- <- <-; exists p, false; reflexivity].
    destruct (eofFromDestination _); [destruct (shutdown w1 _ SHUT_WR)|];
      injection H as <- <- <-; exists p, true; reflexivity.
  - unfold mbind, option_bind in H. cbv beta iota in H.
    change (FILE_EOF =? FILE_ERROR) with false in H.
    change (FILE_EOF =? FILE_EOF) with true in H. cbv beta iota in H.
    destruct (eofFromDestination _); [destruct (shutdown w _ SHUT_WR)|];
      injection H as <- <- <-; exists (destPos b), true;
      now rewrite set_destPos_id.
Qed.

(** The transfer steps leave the watchers alone. *)
Lemma perform_operation_watchers (w : World) (b : Bridge) ok w' b' :
  perform_operation w b = Some (ok, w', b') ->
  srcwatcher b' = srcwatcher b /\ destwatcher b' = destwatcher b.
Proof.
  unfold perform_operation. intros H.
  destruct (read_source w b) as [[[ok1 c1] w1] b1] eqn:E1.
  apply read_source_bridge in E1.
  assert (W1 : srcwatcher b1 = srcwatcher b /\ destwatcher b1 = destwatcher b)
    by (destruct E1 as [-> | ->]; split; reflexivity).
  destruct ok1; simpl negb in H; cbv beta iota in H;
    [|injection H as <- <- <-; exact W1].
  destruct (bridge_source w1 b1 c1) as [[[ok2 w2] b2]|] eqn:E2; [|discriminate].
  apply bridge_source_bridge in E2 as (p2 & fl2 & ->).
  unfold mbind, option_bind in H. cbv beta iota in H.
  destruct ok2; simpl negb in H; cbv beta iota in H;
    [|injection H as <- <- <-; exact W1].
  destruct (read_destination w2 _) as [[[ok3 c3] w3] b3] eqn:E3.
  apply read_destination_bridge in E3.
  assert (W3 : srcwatcher b3 = srcwatcher b /\ destwatcher b3 = destwatcher b)
    by (destruct E3 as [-> | ->]; exact W1).
  destruct ok3; simpl negb in H; cbv beta iota in H;
    [|injection H as <- <- <-; exact W3].
  apply bridge_destination_bridge in H as (p4 & fl4 & ->). exact W3.
Qed.

(** C7: in a dispatch of a connected bridge whose watchers have been set
    and whose four transfer steps meet no error, the masks come out as:
    source read iff not [eofFromSource], source write iff not
    [destinationFlushed], destination read iff not [eofFromDestination],
    destination write iff not [sourceFlushed]; a watcher whose mask is
    empty is not active; the bridge is freed exactly when both masks are
    empty, and then both descriptors and both streams are closed. *)
Theorem recalibration_masks (w : World) (b : Bridge) (wh : which) (flags : Z)
    (w1 : World) (b1 : Bridge) :
  Z.land flags EV_ERROR = 0 ->
  connectedToDestination b = true ->
  perform_operation w b = Some (true, w1, b1) ->
  events (srcwatcher b) <> 0 -> events (destwatcher b) <> 0 ->
  exists w' b' fate_,
    bridge_cb w b wh flags = Some (w', b', fate_) /\
    Z.testbit (events (srcwatcher b')) 0 = negb (eofFromSource b1) /\
    Z.testbit (events (srcwatcher b')) 1 = negb (destinationFlushed b1) /\
    Z.testbit (events (destwatcher b')) 0 = negb (eofFromDestination b1) /\
    Z.testbit (events (destwatcher b')) 1 = negb (sourceFlushed b1) /\
    (Z.land (events (srcwatcher b')) (Z.lor EV_READ EV_WRITE) = 0 ->
     active (srcwatcher b') = false) /\
    (Z.land (events (destwatcher b')) (Z.lor EV_READ EV_WRITE) = 0 ->
     active (destwatcher b') = false) /\
    (fate_ = Freed <->
     Z.land (events (srcwatcher b')) (Z.lor EV_READ EV_WRITE) = 0 /\
     Z.land (events (destwatcher b')) (Z.lor EV_READ EV_WRITE) = 0) /\
    (fate_ = Freed ->
     w_socks w' !! fd (srcwatcher b1) = None /\
     w_socks w' !! fd (destwatcher b1) = None /\
     w_streams w' !! srcFile b1 = None /\ w_streams w' !! destFile b1 = None /\
     active (srcwatcher b') = false /\ active (destwatcher b') = false).
Proof.
  intros Hflags Hconn Hop Hes Hed.
  destruct (perform_operation_watchers _ _ _ _ _ Hop) as (Hsw & Hdw).
  rewrite <- Hsw in Hes. rewrite <- Hdw in Hed.
  unfold bridge_cb. rewrite Hflags, Hconn, Hop. simpl.
  unfold recalibrate_watchers. cbn [srcwatcher destwatcher set_srcwatcher set_destwatcher
    eofFromSource eofFromDestination sourceFlushed destinationFlushed].
  destruct (recalibrate_watcher_spec (srcwatcher b1) (negb (eofFromSource b1))
              (destinationFlushed b1)) as (Fs & Rs & Ws & Zs & As).
  destruct (recalibrate_watcher_spec (destwatcher b1) (negb (eofFromDestination b1))
              (sourceFlushed b1)) as (Fd & Rd & Wd & Zd & Ad).
  cbv zeta in *.
  set (sw := recalibrate_watcher (srcwatcher b1) (negb (eofFromSource b1))
               (destinationFlushed b1)) in *.
  set (dw := recalibrate_watcher (destwatcher b1) (negb (eofFromDestination b1))
               (sourceFlushed b1)) in *.
  assert (Hs0 : Z.land (events sw) (Z.lor EV_READ EV_WRITE) = 0 -> active sw = false)
    by (intros H0; apply Zs in H0 as [? ?]; auto).
  assert (Hd0 : Z.land (events dw) (Z.lor EV_READ EV_WRITE) = 0 -> active dw = false)
    by (intros H0; apply Zd in H0 as [? ?]; auto).
  destruct (Z.eqb_spec (Z.land (events sw) (Z.lor EV_READ EV_WRITE)) 0) as [Es|Es];
    [destruct (Z.eqb_spec (Z.land (events dw) (Z.lor EV_READ EV_WRITE)) 0) as [Ed|Ed]|];
    simpl.
  - (* All done *)
    destruct (bridge_del_spec w1 (set_destwatcher dw (set_srcwatcher sw b1)))
      as (w' & b' & -> & -> & Hsocks & Hstreams & _).
    simpl in Hsocks, Hstreams. rewrite Fs, Fd in Hsocks.
    exists w', (set_destwatcher (ev_io_stop dw)
                 (set_srcwatcher (ev_io_stop sw)
                    (set_destwatcher dw (set_srcwatcher sw b1)))), Freed.
    split; [reflexivity|]. simpl.
    do 6 (split; [assumption || reflexivity || auto|]).
    split; [tauto|]. intros _.
    rewrite Hsocks, Hstreams.
    split; [destruct (decide (fd (destwatcher b1) = fd (srcwatcher b1))) as [->|?];
            [apply lookup_delete_eq
            |rewrite lookup_delete_ne by assumption; apply lookup_delete_eq]|].
    split; [apply lookup_delete_eq|].
    split; [destruct (decide (destFile b1 = srcFile b1)) as [->|?];
            [apply lookup_delete_eq
            |rewrite lookup_delete_ne by assumption; apply lookup_delete_eq]|].
    split; [apply lookup_delete_eq|]. split; reflexivity.
  - exists w1, (set_destwatcher dw (set_srcwatcher sw b1)), Alive.
    split; [reflexivity|]. simpl.
    do 6 (split; [assumption || auto|]).
    split; [split; [discriminate | tauto]|]. discriminate.
  - exists w1, (set_destwatcher dw (set_srcwatcher sw b1)), Alive.
    split; [reflexivity|]. simpl.
    do 6 (split; [assumption || auto|]).
    split; [split; [discriminate | tauto]|]. discriminate.
Qed.

Lemma set_eofFromSource_id (b : Bridge) : set_eofFromSource (eofFromSource b) b = b.
Proof. destruct b; reflexivity. Qed.

Lemma set_eofFromDestination_id (b : Bridge) :
  set_eofFromDestination (eofFromDestination b) b = b.
Proof. destruct b; reflexivity. Qed.

(** A dispatch boundary state goes through "Perform operation" with the
    cursors inside their journals; what is marked flushed at the end is
    at the end of its journal; and a write half is shut down only with the
    other side at end-of-file and that side's journal replayed to its
    end. *)
Lemma perform_operation_drained (ns nd : string) (w : World) (b : Bridge)
    (ok : bool) (w' : World) (b' : Bridge) :
  drained_inv ns nd w b ->
  perform_operation w b = Some (ok, w', b') ->
  (forall g, stream_name w' g = stream_name w g) /\
  (srcwatcher b' = srcwatcher b /\ destwatcher b' = destwatcher b /\
   srcFile b' = srcFile b /\ destFile b' = destFile b /\
   connectedToDestination b' = connectedToDestination b) /\
  (srcPos b' <= length (file_bytes w' ns))%nat /\
  (destPos b' <= length (file_bytes w' nd))%nat /\
  (ok = true ->
   (sourceFlushed b' = true -> srcPos b' = length (file_bytes w' ns)) /\
   (destinationFlushed b' = true -> destPos b' = length (file_bytes w' nd))) /\
  exists new, w_shut w' = new ++ w_shut w /\
    (In (fd (destwatcher b), SHUT_WR) new ->
     eofFromSource b' = true /\ sourceFlushed b' = true /\
     srcPos b' = length (file_bytes w' ns)) /\
    (In (fd (srcwatcher b), SHUT_WR) new ->
     eofFromDestination b' = true /\ destinationFlushed b' = true /\
     destPos b' = length (file_bytes w' nd)).
Proof.
  intros ((Hs & Hd) & Hne & Hfd & Ps & Pd & Fs & Fd) H.
  unfold perform_operation in H. unfold SHUT_WR.
  (* Read source *)
  destruct (read_source w b) as [[[ok1 c1] w1] b1] eqn:E1.
  apply (read_source_spec _ _ ns) in E1; [|assumption].
  destruct E1 as (N1 & (d1 & -> & A1) & B1).
  pose proof (appended_len _ _ _ _ A1) as Ls1.
  pose proof (appended_len_other _ _ _ nd _ A1 ltac:(congruence)) as Ld1.
  assert (B1' : exists e1 new1, b1 = set_eofFromSource e1 b /\
            w_shut w1 = new1 ++ w_shut w /\
            (new1 = [] \/ new1 = [(fd (srcwatcher b), SHUT_RD)] /\ ok1 = true)).
  { destruct B1 as [(-> & ->) | (-> & -> & ->)].
    - exists (eofFromSource b), []. rewrite set_eofFromSource_id. auto.
    - exists true, [(fd (srcwatcher b), SHUT_RD)]. auto. }
  clear B1. destruct B1' as (e1 & new1 & -> & Sh1 & Hnew1). unfold SHUT_RD in Hnew1.
  destruct ok1; cbv beta iota in H; simpl negb in H; cbv beta iota in H.
  2:{ injection H as <- <- <-. simpl.
      split; [exact N1|]. split; [auto|]. split; [lia|]. split; [lia|].
      split; [discriminate|]. exists new1. split; [exact Sh1|].
      destruct Hnew1 as [-> | (_ & ?)]; [|discriminate]. simpl. tauto. }
  (* bridge source to destination *)
  destruct (bridge_source w1 (set_eofFromSource e1 b) (length d1))
    as [[[ok2 w2] b2]|] eqn:E2; [|discriminate].
  apply (bridge_source_spec _ _ _ ns) in E2; [|simpl; now rewrite N1].
  destruct E2 as (N2 & FS2 & p2 & fl2 & -> & Hle2 & Hin2 & Hfl2 & Sh2).
  simpl in Hle2, Hin2, Hfl2, Sh2.
  pose proof (file_bytes_fs _ _ FS2) as L2.
  assert (K2 : ok2 = true -> fl2 = true -> p2 = length (file_bytes w2 ns)).
  { intros Hok Hfl. rewrite L2.
    destruct (Hfl2 Hok Hfl) as [Hrep | (Hf & Hc & ->)]; [apply Hrep; lia|].
    specialize (Fs Hf). lia. }
  assert (B2 : (p2 <= length (file_bytes w2 ns))%nat) by (rewrite L2; apply Hin2; lia).
  assert (Sh2' : exists new2, w_shut w2 = new2 ++ new1 ++ w_shut w /\
            (new2 = [] \/ new2 = [(fd (destwatcher b), 1)] /\ e1 = true /\
                          fl2 = true /\ ok2 = true)).
  { destruct Sh2 as [-> | (-> & ? & ? & ?)]; rewrite Sh1.
    - exists []. auto.
    - exists [(fd (destwatcher b), 1)]. auto 10. }
  clear Sh2 Hfl2. destruct Sh2' as (new2 & Sh2 & Hnew2).
  unfold mbind, option_bind in H. cbv beta iota in H.
  destruct ok2; simpl negb in H; cbv beta iota in H.
  2:{ injection H as <- <- <-. simpl.
      split; [intros g; now rewrite N2, N1|]. split; [auto|].
      split; [exact B2|]. split; [rewrite L2; lia|].
      split; [discriminate|]. exists (new2 ++ new1). rewrite <- app_assoc.
      split; [exact Sh2|].
      destruct Hnew2 as [-> | (_ & _ & _ & ?)]; [|discriminate].
      destruct Hnew1 as [-> | (-> & _)]; simpl; intuition congruence. }
  (* read destination *)
  destruct (read_destination w2 (set_sourceFlushed fl2 (set_srcPos p2
              (set_eofFromSource e1 b)))) as [[[ok3 c3] w3] b3] eqn:E3.
  apply (read_destination_spec _ _ nd) in E3; [|simpl; now rewrite N2, N1].
  destruct E3 as (N3 & (d3 & -> & A3) & B3).
  pose proof (appended_len _ _ _ _ A3) as Ld3.
  pose proof (appended_len_other _ _ _ ns _ A3 Hne) as Ls3.
  assert (B3' : exists e3 new3,
            b3 = set_eofFromDestination e3
                   (set_sourceFlushed fl2 (set_srcPos p2 (set_eofFromSource e1 b))) /\
            w_shut w3 = new3 ++ new2 ++ new1 ++ w_shut w /\
            (new3 = [] \/ new3 = [(fd (destwatcher b), 0)] /\ ok3 = true)).
  { destruct B3 as [(-> & ->) | (-> & -> & ->)]; rewrite Sh2.
    - eexists _, []. rewrite set_eofFromDestination_id. auto.
    - exists true, [(fd (destwatcher b), 0)]. auto. }
  clear B3. destruct B3' as (e3 & new3 & -> & Sh3 & Hnew3).
  destruct ok3; simpl negb in H; cbv beta iota in H.
  2:{ injection H as <- <- <-. simpl.
      split; [intros g; now rewrite N3, N2, N1|]. split; [auto|].
      split; [lia|]. split; [rewrite L2 in *; lia|].
      split; [discriminate|]. exists (new3 ++ new2 ++ new1). rewrite <- !app_assoc.
      split; [exact Sh3|].
      destruct Hnew3 as [-> | (_ & ?)]; [|discriminate].
      destruct Hnew2 as [-> | (-> & -> & -> & _)];
        destruct Hnew1 as [-> | (-> & _)]; simpl;
        (split; [|intuition congruence]); try (intuition congruence).
      all: intros _; specialize (K2 eq_refl eq_refl); repeat split; lia. }
  (* bridge destination to source *)
  apply (bridge_destination_spec _ _ _ nd) in H; [|simpl; now rewrite N3, N2, N1].
  destruct H as (N4 & FS4 & p4 & fl4 & -> & Hle4 & Hin4 & Hfl4 & Sh4).
  simpl in Hle4, Hin4, Hfl4, Sh4.
  pose proof (file_bytes_fs _ _ FS4) as L4.
  assert (K4 : ok = true -> fl4 = true -> p4 = length (file_bytes w' nd)).
  { intros Hok Hfl. rewrite L4.
    destruct (Hfl4 Hok Hfl) as [Hrep | (Hf & Hc & ->)];
      [apply Hrep; rewrite L2 in *; lia|].
    specialize (Fd Hf). rewrite L2 in *. lia. }
  assert (B4 : (p4 <= length (file_bytes w' nd))%nat)
    by (rewrite L4; apply Hin4; rewrite L2 in *; lia).
  simpl.
  split; [intros g; now rewrite N4, N3, N2, N1|]. split; [auto|].
  split; [rewrite L4; lia|]. split; [exact B4|].
  split.
  { intros Hok. split; [intros ->; rewrite L4, Ls3; now apply K2 | now apply K4]. }
  assert (Sh4' : exists new4, w_shut w' = new4 ++ new3 ++ new2 ++ new1 ++ w_shut w /\
            (new4 = [] \/ new4 = [(fd (srcwatcher b), 1)] /\ e3 = true /\
                          fl4 = true /\ ok = true)).
  { destruct Sh4 as [-> | (-> & ? & ? & ?)]; rewrite Sh3.
    - exists []. auto.
    - exists [(fd (srcwatcher b), 1)]. auto 10. }
  destruct Sh4' as (new4 & Sh4' & Hnew4).
  exists (new4 ++ new3 ++ new2 ++ new1). rewrite <- !app_assoc.
  split; [exact Sh4'|].
  split.
  - intros Hin.
    assert (Hin2' : In (fd (destwatcher b), 1) new2).
    { rewrite !in_app_iff in Hin.
      destruct Hnew4 as [-> | (-> & _)]; destruct Hnew3 as [-> | (-> & _)];
        destruct Hnew1 as [-> | (-> & _)]; simpl in Hin; intuition congruence. }
    destruct Hnew2 as [-> | (-> & -> & -> & _)]; [destruct Hin2'|].
    specialize (K2 eq_refl eq_refl). repeat split. rewrite L4, Ls3. exact K2.
  - intros Hin.
    assert (Hin4' : In (fd (srcwatcher b), 1) new4).
    { rewrite !in_app_iff in Hin.
      destruct Hnew4 as [-> | (-> & _)]; [|left; reflexivity].
      destruct Hnew3 as [-> | (-> & _)]; destruct Hnew2 as [-> | (-> & _)];
        destruct Hnew1 as [-> | (-> & _)]; simpl in Hin; intuition congruence. }
    destruct Hnew4 as [-> | (-> & -> & -> & ->)]; [destruct Hin4'|].
    specialize (K4 eq_refl eq_refl). repeat split. exact K4.
Qed.

Lemma bridge_del_epilogue (w : World) (b : Bridge) w' b' fate_ :
  bridge_del w b = (w', b', fate_) -> epilogue w b w' b' fate_.
Proof.
  intros H. destruct (bridge_del_spec w b) as (w2 & b2 & E & -> & _ & _ & Hfs & Hsh).
  rewrite E in H. injection H as <- <- <-.
  split; [repeat split|]. split; [exact Hsh|]. split; [exact Hfs|]. discriminate.
Qed.

Lemma recalibrate_watchers_epilogue (w : World) (b : Bridge) w' b' fate_ :
  recalibrate_watchers w b = (w', b', fate_) -> epilogue w b w' b' fate_.
Proof.
  unfold recalibrate_watchers. intros H.
  pose proof (recalibrate_watcher_spec (srcwatcher b) (negb (eofFromSource b))
                (destinationFlushed b)) as (Fs & _).
  pose proof (recalibrate_watcher_spec (destwatcher b) (negb (eofFromDestination b))
                (sourceFlushed b)) as (Fd & _).
  cbn [srcwatcher destwatcher set_srcwatcher set_destwatcher eofFromSource
       eofFromDestination sourceFlushed destinationFlushed] in H.
  match type of H with (if ?c then _ else _) = _ => destruct c end.
  - apply bridge_del_epilogue in H.
    destruct H as (Hj & Hsh & Hfs & Ha). split; [|auto].
    destruct Hj as (?&?&?&?&?&?&?&?&?&?). simpl in *.
    repeat split; congruence.
  - injection H as <- <- <-. split; [|auto]. repeat split; simpl; assumption.
Qed.

Lemma fd_ev_io_start (ev : ev_io) : fd (ev_io_start ev) = fd ev.
Proof. unfold ev_io_start. now destruct (active ev). Qed.

Lemma complete_connection_epilogue (w : World) (b : Bridge) (watcher_ : ev_io)
    w' b' fate_ :
  complete_connection w b watcher_ = (w', b', fate_) -> epilogue w b w' b' fate_.
Proof.
  unfold complete_connection, getsockopt_so_error, next_fault. intros H.
  cbv beta iota in H.
  set (w0 := set_faults (tail (w_faults w)) w) in *.
  assert (E0 : epilogue w b w0 b Alive) by (repeat split).
  assert (Hdel : forall msg w2 b2 f2,
            bridge_del (elog msg w0) b = (w2, b2, f2) -> epilogue w b w2 b2 f2).
  { intros msg w2 b2 f2 Hd. apply bridge_del_epilogue in Hd. exact Hd. }
  repeat case_match; simplify_eq; try (eapply Hdel; eassumption).
  all: repeat split; simpl; rewrite ?fd_ev_io_start; reflexivity.
Qed.

(** The two ways through [bridge_cb]: past the transfer steps, or not. *)
Lemma bridge_cb_shape (w : World) (b : Bridge) (wh : which) (flags : Z) w' b' fate_ :
  bridge_cb w b wh flags = Some (w', b', fate_) ->
  epilogue w b w' b' fate_ \/
  exists ok w1 b1, perform_operation w b = Some (ok, w1, b1) /\
    epilogue w1 b1 w' b' fate_ /\ (fate_ = Alive -> ok = true).
Proof.
  unfold bridge_cb. intros H.
  destruct (negb (Z.land flags EV_ERROR =? 0)).
  { left. apply (inj Some) in H. apply bridge_del_epilogue in H. exact H. }
  destruct (negb (connectedToDestination b)).
  { left. apply (inj Some) in H. now apply complete_connection_epilogue in H. }
  destruct (perform_operation w b) as [[[ok w1] b1]|] eqn:E; [|discriminate].
  right. exists ok, w1, b1. split; [reflexivity|]. simpl in H.
  destruct ok; simpl in H; apply (inj Some) in H.
  - split; [now apply recalibrate_watchers_epilogue in H | reflexivity].
  - pose proof (bridge_del_freed _ _ _ _ _ H) as ->.
    split; [now apply bridge_del_epilogue in H | discriminate].
Qed.


(** ** Bridge creation *)

Lemma file_bytes_insert_same (fs : gmap string (list Byte.byte)) (name n : string) :
  default [] (<[name := default [] (fs !! name)]> fs !! n) = default [] (fs !! n).
Proof.
  destruct (decide (name = n)) as [->|Hne].
  - now rewrite lookup_insert_eq.
  - now rewrite lookup_insert_ne.
Qed.

(** [open_output_file] names the journal by [satos], leaves every file
    as it is, and returns the end of the file as the cursor. *)
Lemma open_output_file_spec (w : World) (addrlen : Z) (addr : sockaddr)
    (f pos : nat) (w' : World) :
  open_output_file w addrlen addr = (Some (f, pos), w') ->
  w_socks w' = w_socks w /\ w_shut w' = w_shut w /\
  (forall n, file_bytes w' n = file_bytes w n) /\
  exists name, satos addr addrlen = inr name /\
    f = w_nextfile w /\ w_nextfile w' = S f /\
    w_streams w' = <[f := MkStream name pos]> (w_streams w) /\
    pos = length (file_bytes w name).
Proof.
  unfold open_output_file. intros H.
  destruct (satos addr addrlen) as [e|name]; [discriminate|].
  unfold fopen, next_fault in H. cbv beta iota in H.
  destruct (match w_faults w with [] => None | r :: _ => r end); [discriminate|].
  cbv beta iota zeta in H. cbn [w_nextfile set_faults set_fs set_streams set_nextfile
    w_fs w_streams] in H.
  unfold fseek_end, next_fault in H. cbv beta iota in H.
  cbn [w_faults w_streams set_faults set_fs set_streams set_nextfile] in H.
  rewrite lookup_insert_eq in H.
  destruct (match tail (w_faults w) with [] => None | r :: _ => r end);
    [discriminate|].
  cbv beta iota in H. change (negb (0 =? 0)) with false in H. cbv beta iota in H.
  unfold fgetpos, next_fault in H. cbv beta iota in H.
  cbn [w_faults w_streams set_faults set_fs set_streams set_nextfile st_name st_pos] in H.
  rewrite lookup_insert_eq in H.
  destruct (match tail (tail (w_faults w)) with [] => None | r :: _ => r end);
    [discriminate|].
  cbv beta iota in H. change (negb (0 =? 0)) with false in H. cbv beta iota in H.
  injection H as <- <- <-. cbn.
  split; [reflexivity|]. split; [reflexivity|].
  split; [intros n; unfold file_bytes; cbn; apply file_bytes_insert_same|].
  exists name. split; [reflexivity|]. split; [reflexivity|]. split; [reflexivity|].
  split; [now rewrite insert_insert_eq|].
  unfold file_bytes at 1. cbn. now rewrite lookup_insert_eq.
Qed.

Lemma socket_spec (w : World) (fd_ : Z) (w' : World) :
  socket w = (fd_, w') ->
  w_fs w' = w_fs w /\ w_streams w' = w_streams w /\ w_shut w' = w_shut w /\
  w_nextfile w' = w_nextfile w /\
  (fd_ = -1 \/
   exists s, w_socks w' = <[fd_ := s]> (w_socks w) /\
     s_local s = s_local (match w_dial w with s :: _ => s | [] => blank_socket end)).
Proof.
  unfold socket, next_fault. cbv beta iota.
  destruct (match w_faults w with [] => None | r :: _ => r end);
    intros H; injection H as <- <-; cbn; repeat split; auto.
  right. eexists. split; reflexivity.
Qed.

Lemma set_connecting_spec (fd_ : Z) (peer : sockaddr * Z) (cq : list (option errno))
    (w : World) (s : Socket) :
  w_socks w !! fd_ = Some s ->
  let w' := set_connecting fd_ peer cq w in
  w_fs w' = w_fs w /\ w_streams w' = w_streams w /\ w_shut w' = w_shut w /\
  w_nextfile w' = w_nextfile w /\
  exists s', w_socks w' !! fd_ = Some s' /\ s_local s' = s_local s /\ s_peer s' = peer.
Proof.
  intros Hs. unfold set_connecting. rewrite Hs. cbn. repeat split.
  eexists. rewrite lookup_insert_eq. repeat split.
Qed.

Lemma getsockname_spec (w : World) (fd_ : Z) (rc : Z) (a : sockaddr * Z) (w' : World) :
  getsockname w fd_ = (rc, a, w') ->
  w_fs w' = w_fs w /\ w_streams w' = w_streams w /\ w_shut w' = w_shut w /\
  w_nextfile w' = w_nextfile w /\ w_socks w' = w_socks w /\
  (rc = 0 -> exists s, w_socks w !! fd_ = Some s /\ a = s_local s).
Proof.
  unfold getsockname, next_fault. cbv beta iota. cbn.
  destruct (match w_faults w with [] => None | r :: _ => r end);
    [|destruct (w_socks w !! fd_) as [s|] eqn:Hs];
    intros H; injection H as <- <- <-; cbn; repeat split; try discriminate.
  intros _. exists s. split; reflexivity.
Qed.

(** What a bridge that [bridge_init] has set up looks like. *)
Lemma bridge_init_spec (w : World) (destaddr : addrinfo) (srcfd srcaddrlen : Z)
    (srcaddr : sockaddr) (b : Bridge) (w' : World) :
  bridge_init w destaddr srcfd srcaddrlen srcaddr = (Some b, w') ->
  exists ns nd s,
    satos srcaddr srcaddrlen = inr ns /\
    w_socks w' !! fd (destwatcher b) = Some s /\
    s_peer s = (ai_addr destaddr, ai_addrlen destaddr) /\
    satos (s_local s).1 (s_local s).2 = inr nd /\
    srcFile b <> destFile b /\
    journals_at ns nd w' b /\
    srcPos b = length (file_bytes w' ns) /\ destPos b = length (file_bytes w' nd) /\
    fd (srcwatcher b) = srcfd /\
    eofFromSource b = false /\ sourceFlushed b = true /\
    eofFromDestination b = false /\ destinationFlushed b = true /\
    w_shut w' = w_shut w /\
    events (srcwatcher b) <> 0 /\ events (destwatcher b) <> 0.
Proof.
  unfold bridge_init. intros H.
  destruct (socket w) as [destfd w1] eqn:E1.
  apply socket_spec in E1 as (Ffs1 & Fst1 & Fsh1 & Fnf1 & Hsock).
  destruct (destfd <? 0) eqn:Hneg; [discriminate|].
  destruct Hsock as [-> | (s1 & Hs1 & Hl1)]; [discriminate|].
  assert (Hlk1 : w_socks w1 !! destfd = Some s1)
    by (rewrite Hs1; apply lookup_insert_eq).
  rewrite Hlk1 in H.
  destruct (connect_loop (s_cq s1)) as [connected cq] eqn:Ec.
  cbv beta iota in H.
  pose proof (set_connecting_spec destfd (ai_addr destaddr, ai_addrlen destaddr) cq
                w1 s1 Hlk1) as (Ffs2 & Fst2 & Fsh2 & Fnf2 & s2 & Hlk2 & Hl2 & Hp2).
  cbv zeta in *.
  set (w2 := set_connecting destfd (ai_addr destaddr, ai_addrlen destaddr) cq w1) in *.
  destruct connected as [connected|]; [|discriminate].
  destruct (open_output_file w2 srcaddrlen srcaddr) as [[[f1 p1]|] w3] eqn:E3;
    [|discriminate].
  apply open_output_file_spec in E3
    as (Fso3 & Fsh3 & Fb3 & ns & Hns & Hf1 & Hnf3 & Hst3 & Hp1).
  destruct (getsockname w3 destfd) as [[rc a] w4] eqn:E4.
  apply getsockname_spec in E4 as (Ffs4 & Fst4 & Fsh4 & Fnf4 & Fso4 & Ha).
  destruct (Z.eqb_spec rc 0) as [->|?]; simpl negb in H; cbv beta iota in H;
    [|discriminate].
  destruct (Ha eq_refl) as (s3 & Hlk3 & ->). rewrite Fso3, Hlk2 in Hlk3.
  injection Hlk3 as <-.
  destruct (open_output_file w4 (s_local s2).2 (s_local s2).1)
    as [[[f2 p2]|] w5] eqn:E5; [|discriminate].
  apply open_output_file_spec in E5
    as (Fso5 & Fsh5 & Fb5 & nd & Hnd & Hf2 & Hnf5 & Hst5 & Hp2').
  assert (Hne : f1 <> f2) by (rewrite Hf2, Fnf4, Hnf3; lia).
  assert (Hb : b = MkBridge
            (if connected then ev_io_start (ev_io_init srcfd EV_READ)
             else ev_io_init srcfd EV_READ)
            (if connected then ev_io_start (ev_io_init destfd EV_READ)
             else ev_io_start (ev_io_set (ev_io_init destfd EV_READ) destfd EV_WRITE))
            f1 f2 p1 p2 false true connected false true /\ w' = w5).
  { destruct connected; simpl in H; injection H as <- <-; split; reflexivity. }
  destruct Hb as (-> & ->). clear H.
  assert (Hev : events (if connected then ev_io_start (ev_io_init srcfd EV_READ)
                        else ev_io_init srcfd EV_READ) <> 0 /\
                events (if connected then ev_io_start (ev_io_init destfd EV_READ)
                        else ev_io_start (ev_io_set (ev_io_init destfd EV_READ) destfd
                                            EV_WRITE)) <> 0)
    by (destruct connected; split; discriminate).
  exists ns, nd, s2. cbn [srcFile destFile srcPos destPos eofFromSource sourceFlushed
    eofFromDestination destinationFlushed srcwatcher destwatcher].
  assert (Hfd : fd (if connected then ev_io_start (ev_io_init destfd EV_READ)
                    else ev_io_start (ev_io_set (ev_io_init destfd EV_READ) destfd
                                        EV_WRITE)) = destfd)
    by (destruct connected; reflexivity).
  assert (Hfs : fd (if connected then ev_io_start (ev_io_init srcfd EV_READ)
                    else ev_io_init srcfd EV_READ) = srcfd)
    by (destruct connected; reflexivity).
  rewrite Hfd, Hfs.
  split; [exact Hns|]. split; [rewrite Fso5, Fso4, Fso3; exact Hlk2|].
  split; [exact Hp2|]. split; [exact Hnd|]. split; [exact Hne|].
  split.
  { unfold journals_at, stream_name. cbn [srcFile destFile].
    rewrite Hst5, Fst4, Hst3. split.
    - rewrite lookup_insert_ne by congruence. now rewrite lookup_insert_eq.
    - now rewrite lookup_insert_eq. }
  split; [rewrite Fb5, (file_bytes_fs _ _ Ffs4), Fb3; exact Hp1|].
  split; [rewrite Fb5; exact Hp2'|].
  repeat (split; [reflexivity|]). split; [congruence | exact Hev].
Qed.

Example bridge_init_example :
  exists b w', bridge_init world_dial upstream 4 16 client = (Some b, w') /\
    b = MkBridge (EvIo 4 (Z.lor EV_READ EV__IOFDSET) false) (EvIo 5 EV_WRITE true)
                 0 1 0 0 false true false false true /\
    stream_name w' 0 = Some "192.0.2.1:40000" /\
    stream_name w' 1 = Some "10.0.0.1:50000".
Proof. eexists _, _. split; [vm_compute; reflexivity|]. repeat split. Qed.

(** C2 as stated fails: the upstream is [10.0.0.7:80], and the journal of
    the bytes from the destination is not the file of that name. *)
Lemma dest_journal_not_named_by_peer :
  exists b w', bridge_init world_dial upstream 4 16 client = (Some b, w') /\
    (s_peer <$> w_socks w' !! fd (destwatcher b)) = Some (mk_in 10 0 0 7 80, 16) /\
    satos (mk_in 10 0 0 7 80) 16 = inr "10.0.0.7:80" /\
    stream_name w' (destFile b) <> Some "10.0.0.7:80".
Proof.
  eexists _, _. split; [vm_compute; reflexivity|].
  split; [vm_compute; reflexivity|]. split; [vm_compute; reflexivity|].
  vm_compute. discriminate.
Qed.

(** C2, amended: the journal that [bridge_init] opens for the destination
    direction is named by [satos] of the local address of the socket
    dialled to the upstream, as [getsockname] reports it, while the peer of
    that socket is the upstream address; and what "read destination" takes
    from the socket goes to the end of that file and of no other. *)
Theorem dest_journal_named_by_local_address (w : World) (destaddr : addrinfo)
    (srcfd srcaddrlen : Z) (srcaddr : sockaddr) (b : Bridge) (w' : World) :
  bridge_init w destaddr srcfd srcaddrlen srcaddr = (Some b, w') ->
  exists s nd,
    w_socks w' !! fd (destwatcher b) = Some s /\
    s_peer s = (ai_addr destaddr, ai_addrlen destaddr) /\
    satos (s_local s).1 (s_local s).2 = inr nd /\
    stream_name w' (destFile b) = Some nd /\
    forall ok count w2 b2,
      read_destination w' b = (ok, count, w2, b2) ->
      exists data, count = length data /\ appended w' w2 nd data.
Proof.
  intros H. apply bridge_init_spec in H
    as (ns & nd & s & _ & Hs & Hp & Hnd & _ & (_ & Hd) & _).
  exists s, nd. repeat (split; [assumption|]).
  intros ok count w2 b2 Hr.
  apply (read_destination_spec _ _ nd) in Hr as (_ & Hdata & _); assumption.
Qed.

Lemma dest_journal_named_by_local_address_witness :
  exists b w', bridge_init world_dial upstream 4 16 client = (Some b, w') /\
  exists s nd,
    w_socks w' !! fd (destwatcher b) = Some s /\
    s_peer s = (ai_addr upstream, ai_addrlen upstream) /\
    satos (s_local s).1 (s_local s).2 = inr nd /\
    stream_name w' (destFile b) = Some nd /\
    forall ok count w2 b2,
      read_destination w' b = (ok, count, w2, b2) ->
      exists data, count = length data /\ appended w' w2 nd data.
Proof.
  eexists _, _. split; [vm_compute; reflexivity|].
  apply (dest_journal_named_by_local_address world_dial upstream 4 16 client).
  vm_compute. reflexivity.
Defined.

(** ** Invariants of a dispatch *)

Lemma epilogue_journal_inv (w1 : World) (b1 : Bridge) (w' : World) (b' : Bridge) :
  journal_inv w1 b1 -> epilogue w1 b1 w' b' Alive -> journal_inv w' b'.
Proof.
  intros (ns & nd & (Hs & Hd) & Ps & Pd) ((Hf1&Hf2&Hp1&Hp2&_) & _ & Hfs & Ha).
  destruct (Ha eq_refl) as (Hst & _).
  exists ns, nd. unfold journals_at.
  rewrite !(stream_name_streams _ _ Hst), !(file_bytes_fs _ _ Hfs), Hf1, Hf2, Hp1, Hp2.
  auto.
Qed.

Lemma read_source_cursors (w : World) (b : Bridge) ok count w' b' :
  read_source w b = (ok, count, w', b') ->
  srcPos b' = srcPos b /\ destPos b' = destPos b.
Proof.
  intros H. apply read_source_bridge in H as [-> | ->]; split; reflexivity.
Qed.

Lemma read_destination_cursors (w : World) (b : Bridge) ok count w' b' :
  read_destination w b = (ok, count, w', b') ->
  srcPos b' = srcPos b /\ destPos b' = destPos b.
Proof.
  intros H. apply read_destination_bridge in H as [-> | ->]; split; reflexivity.
Qed.

(** C8: [open_output_file] returns the end of the file as the cursor, so
    a new bridge has both cursors at or before the end of their journals;
    the two read blocks, which append, leave both cursors where they are;
    [write_from_file] moves a cursor forward and not past the end of its
    file; and a dispatch that leaves the bridge alive leaves both cursors
    at or before the end of their journals. *)
Theorem replay_cursor_within_journal :
  (forall w addrlen addr f pos w',
     open_output_file w addrlen addr = (Some (f, pos), w') ->
     exists name, stream_name w' f = Some name /\ pos = length (file_bytes w' name)) /\
  (forall w destaddr srcfd srcaddrlen srcaddr b w',
     bridge_init w destaddr srcfd srcaddrlen srcaddr = (Some b, w') ->
     journal_inv w' b) /\
  (forall w b ok count w' b',
     read_source w b = (ok, count, w', b') \/
     read_destination w b = (ok, count, w', b') ->
     srcPos b' = srcPos b /\ destPos b' = destPos b) /\
  (forall w fd_ f name pos rc pos' w',
     stream_name w f = Some name ->
     (pos <= length (file_bytes w name))%nat ->
     write_from_file w fd_ f pos = Some (rc, pos', w') ->
     (pos <= pos' <= length (file_bytes w' name))%nat) /\
  (forall w b wh flags w' b',
     journal_inv w b ->
     bridge_cb w b wh flags = Some (w', b', Alive) ->
     journal_inv w' b').
Proof.
  split; [|split; [|split; [|split]]].
  - intros w addrlen addr f pos w' H.
    apply open_output_file_spec in H as (_ & _ & Hb & name & _ & _ & _ & Hst & Hp).
    exists name. split.
    + unfold stream_name. rewrite Hst, lookup_insert_eq. reflexivity.
    + now rewrite Hb.
  - intros w destaddr srcfd srcaddrlen srcaddr b w' H.
    apply bridge_init_spec in H
      as (ns & nd & s & _ & _ & _ & _ & _ & Hj & Hp1 & Hp2 & _).
    exists ns, nd. split; [exact Hj|]. lia.
  - intros w b ok count w' b' [H | H];
      [eapply read_source_cursors | eapply read_destination_cursors]; eassumption.
  - intros w fd_ f name pos rc pos' w' Hname Hpos H.
    apply (write_from_file_spec _ _ _ name) in H; [|assumption].
    destruct H as (Hfs & _ & _ & Hle & _ & Hin & _).
    rewrite (file_bytes_fs _ _ Hfs). split; [exact Hle | now apply Hin].
  - intros w b wh flags w' b' Hinv H.
    apply bridge_cb_shape in H as [E | (ok & w1 & b1 & Hop & E & _)].
    + eapply epilogue_journal_inv; eassumption.
    + eapply epilogue_journal_inv; [|eassumption].
      eapply perform_operation_journal_inv; eassumption.
Qed.

Lemma replay_cursor_within_journal_witness :
  exists w' b',
    bridge_cb world_hello bridge_conn SrcWatcher EV_READ = Some (w', b', Alive) /\
    srcPos b' = 3%nat /\ file_bytes w' "192.0.2.1:40000" = bytes_of [104; 101; 108; 108; 111] /\
    journal_inv w' b'.
Proof.
  eexists _, _. split; [vm_compute; reflexivity|].
  split; [reflexivity|]. split; [vm_compute; reflexivity|].
  apply (proj2 (proj2 (proj2 (proj2 replay_cursor_within_journal)))
           world_hello bridge_conn SrcWatcher EV_READ).
  - exists "192.0.2.1:40000", "10.0.0.1:50000".
    split; [split; reflexivity|]. split; vm_compute; lia.
  - vm_compute. reflexivity.
Defined.

(** The dispatch boundary state is an invariant: a dispatch that leaves
    the bridge alive leads to such a state again. *)
Lemma bridge_cb_drained_inv (ns nd : string) (w : World) (b : Bridge) (wh : which)
    (flags : Z) (w' : World) (b' : Bridge) :
  drained_inv ns nd w b ->
  bridge_cb w b wh flags = Some (w', b', Alive) ->
  drained_inv ns nd w' b'.
Proof.
  intros Hinv H.
  assert (Hep : forall w1 b1, drained_inv ns nd w1 b1 -> epilogue w1 b1 w' b' Alive ->
                              drained_inv ns nd w' b').
  { intros w1 b1 ((Hs & Hd) & Hne & Hfd & Ps & Pd & Fs & Fd)
           ((Hf1&Hf2&Hp1&Hp2&He1&Hl1&He2&Hl2&Hd1&Hd2) & _ & Hfs & Ha).
    destruct (Ha eq_refl) as (Hst & _). unfold drained_inv, journals_at.
    rewrite !(stream_name_streams _ _ Hst), !(file_bytes_fs _ _ Hfs),
      Hf1, Hf2, Hp1, Hp2, Hl1, Hl2, Hd1, Hd2.
    repeat split; assumption. }
  apply bridge_cb_shape in H as [E | (ok & w1 & b1 & Hop & E & Hok)].
  - eapply Hep; eassumption.
  - specialize (Hok eq_refl). subst ok.
    destruct (perform_operation_drained _ _ _ _ _ _ _ Hinv Hop)
      as (Hn & (Hw1 & Hw2 & Hf1 & Hf2 & _) & Ps & Pd & Hfl & _).
    destruct (Hfl eq_refl) as (Fs & Fd).
    destruct Hinv as ((Hs & Hd) & Hne & Hfd & _).
    eapply Hep; [|eassumption]. unfold drained_inv, journals_at.
    rewrite !Hn, Hw1, Hw2, Hf1, Hf2. repeat split; assumption.
Qed.

(** A new bridge is in a dispatch boundary state, when its two journals
    are two files and its two descriptors differ. *)
Lemma bridge_init_drained_inv (w : World) (destaddr : addrinfo) (srcfd srcaddrlen : Z)
    (srcaddr : sockaddr) (b : Bridge) (w' : World) :
  bridge_init w destaddr srcfd srcaddrlen srcaddr = (Some b, w') ->
  stream_name w' (srcFile b) <> stream_name w' (destFile b) ->
  fd (srcwatcher b) <> fd (destwatcher b) ->
  exists ns nd, drained_inv ns nd w' b.
Proof.
  intros H Hne Hfd. apply bridge_init_spec in H
    as (ns & nd & s & _ & _ & _ & _ & _ & (Hs & Hd) & Hp1 & Hp2 & _).
  exists ns, nd. unfold drained_inv, journals_at.
  repeat split; try assumption; try lia; congruence.
Qed.

(** The event field of a watcher that has been set is never zero. *)
Lemma recalibrate_watcher_events (watcher_ : ev_io) (read_open flushed : bool) :
  events watcher_ <> 0 -> events (recalibrate_watcher watcher_ read_open flushed) <> 0.
Proof.
  intros H. unfold recalibrate_watcher.
  destruct read_open, flushed; simpl;
    match goal with
    | |- context [events watcher_ =? ?n] =>
      destruct (Z.eqb_spec (events watcher_) n); simpl
    end; try assumption; discriminate.
Qed.

Lemma events_start_set (ev : ev_io) (fd_ : Z) :
  events (ev_io_start (ev_io_set ev fd_ EV_READ)) <> 0.
Proof. unfold ev_io_start, ev_io_set. simpl. destruct (active ev); discriminate. Qed.

Lemma bridge_cb_events (w : World) (b : Bridge) (wh : which) (flags : Z)
    (w' : World) (b' : Bridge) :
  events (srcwatcher b) <> 0 -> events (destwatcher b) <> 0 ->
  bridge_cb w b wh flags = Some (w', b', Alive) ->
  events (srcwatcher b') <> 0 /\ events (destwatcher b') <> 0.
Proof.
  intros Hs Hd H. unfold bridge_cb in H.
  destruct (negb (Z.land flags EV_ERROR =? 0)).
  { apply (inj Some) in H. apply bridge_del_freed in H. discriminate. }
  destruct (negb (connectedToDestination b)).
  { apply (inj Some) in H. unfold complete_connection in H.
    destruct (getsockopt_so_error w _) as [[rc errcode] w1].
    destruct (negb (rc =? 0)); [apply bridge_del_freed in H; discriminate|].
    destruct (errcode =? 0); [|apply bridge_del_freed in H; discriminate].
    injection H as <- <-. simpl. split; [apply events_start_set | discriminate]. }
  destruct (perform_operation w b) as [[[ok w1] b1]|] eqn:E; [|discriminate].
  destruct (perform_operation_watchers _ _ _ _ _ E) as (Hsw & Hdw).
  simpl in H. destruct ok; simpl in H; apply (inj Some) in H;
    [|apply bridge_del_freed in H; discriminate].
  unfold recalibrate_watchers in H.
  match type of H with (if ?c then _ else _) = _ => destruct c end;
    [apply bridge_del_freed in H; discriminate|].
  injection H as <- <-. simpl. rewrite Hsw, Hdw.
  split; apply recalibrate_watcher_events; assumption.
Qed.

(** Both peers close without a byte: the dispatch shuts down all four
    halves and frees the bridge. *)
Example zero_byte_connection :
  exists w' b',
    bridge_cb world_closing bridge_conn SrcWatcher EV_READ = Some (w', b', Freed) /\
    w_shut w' = [(4, SHUT_WR); (5, SHUT_RD); (5, SHUT_WR); (4, SHUT_RD)] /\
    w_socks w' = ∅ /\ w_streams w' = ∅ /\ w_stderr w' = [].
Proof. eexists _, _. split; [vm_compute; reflexivity|]. repeat split. Qed.



Lemma recalibration_masks_witness :
  exists w1 b1,
    perform_operation world_closing bridge_conn = Some (true, w1, b1) /\
    exists w' b' fate_,
      bridge_cb world_closing bridge_conn SrcWatcher EV_READ = Some (w', b', fate_) /\
      Z.testbit (events (srcwatcher b')) 0 = negb (eofFromSource b1) /\
      Z.testbit (events (srcwatcher b')) 1 = negb (destinationFlushed b1) /\
      Z.testbit (events (destwatcher b')) 0 = negb (eofFromDestination b1) /\
      Z.testbit (events (destwatcher b')) 1 = negb (sourceFlushed b1) /\
      (Z.land (events (srcwatcher b')) (Z.lor EV_READ EV_WRITE) = 0 ->
       active (srcwatcher b') = false) /\
      (Z.land (events (destwatcher b')) (Z.lor EV_READ EV_WRITE) = 0 ->
       active (destwatcher b') = false) /\
      (fate_ = Freed <->
       Z.land (events (srcwatcher b')) (Z.lor EV_READ EV_WRITE) = 0 /\
       Z.land (events (destwatcher b')) (Z.lor EV_READ EV_WRITE) = 0) /\
      (fate_ = Freed ->
       w_socks w' !! fd (srcwatcher b1) = None /\
       w_socks w' !! fd (destwatcher b1) = None /\
       w_streams w' !! srcFile b1 = None /\ w_streams w' !! destFile b1 = None /\
       active (srcwatcher b') = false /\ active (destwatcher b') = false).
Proof.
  eexists _, _. split; [vm_compute; reflexivity|].
  eapply (recalibration_masks world_closing bridge_conn SrcWatcher EV_READ);
    [reflexivity | reflexivity | vm_compute; reflexivity
    | vm_compute; discriminate | vm_compute; discriminate].
Defined.

(** The source sends five bytes and the destination takes three: the
    bridge goes on, reading from both and writing to the destination. *)
Example partial_delivery_masks :
  exists w' b',
    bridge_cb world_hello bridge_conn SrcWatcher EV_READ = Some (w', b', Alive) /\
    events (srcwatcher b') = EV_READ /\
    events (destwatcher b') = Z.lor EV_READ EV_WRITE /\
    srcPos b' = 3%nat /\ sourceFlushed b' = false /\
    sent_on w' 5 = Some (bytes_of [104; 101; 108]).
Proof. eexists _, _. split; [vm_compute; reflexivity|]. repeat split. Qed.

(** ** Errors on a peer socket *)

(** A [read] that fails with anything but [EINTR], [EAGAIN] or
    [EWOULDBLOCK] makes [read_into_file] return [FILE_EOF], where its
    description promises [FILE_ERROR]. *)
Lemma read_error_returns_eof (e : errno) (rq : list read_event) (w : World)
    (f count : nat) :
  errno_eqb e EINTR = false -> would_block e = false ->
  read_into_file_loop (RErr e :: rq) w f count =
    (FILE_EOF, count, rq, elog "Error reading from connection %d: %s" w).
Proof. intros H1 H2. simpl. now rewrite H1, H2. Qed.

(** The other direction: a [write] that fails with [EPIPE] frees the
    bridge. *)
Example write_error_frees_bridge :
  exists w' b',
    bridge_cb world_broken_pipe bridge_conn SrcWatcher EV_READ = Some (w', b', Freed) /\
    w_socks w' = ∅ /\ w_streams w' = ∅.
Proof. eexists _, _. split; [vm_compute; reflexivity|]. split; reflexivity. Qed.

(** C1, evaluated on the code: the source connection is reset
    ([ECONNRESET]); [read_into_file] logs the error and returns
    [FILE_EOF]; the dispatch takes it for an end-of-file, shuts down two
    halves and returns with the bridge alive: both descriptors and both
    journals are open and the destination watcher is active. *)
Theorem read_error_leaves_bridge_alive :
  (exists w1, read_into_file world_reset 4 0 = (FILE_EOF, 0%nat, w1) /\
              w_stderr w1 = ["Error reading from connection %d: %s"]) /\
  (exists w' b',
     bridge_cb world_reset bridge_conn SrcWatcher EV_READ = Some (w', b', Alive) /\
     eofFromSource b' = true /\
     active (srcwatcher b') = false /\ active (destwatcher b') = true /\
     events (destwatcher b') = EV_READ /\
     stream_name w' (srcFile b') = Some "192.0.2.1:40000" /\
     stream_name w' (destFile b') = Some "10.0.0.1:50000" /\
     sent_on w' 4 = Some [] /\ sent_on w' 5 = Some [] /\
     w_shut w' = [(5, SHUT_WR); (4, SHUT_RD)]).
Proof.
  split.
  - eexists. split; [vm_compute; reflexivity|]. reflexivity.
  - eexists _, _. split; [vm_compute; reflexivity|]. repeat split.
Qed.

(** ** The callback returns *)

Lemma bridge_source_total (w : World) (b : Bridge) (count : nat) :
  is_Some (bridge_source w b count).
Proof.
  unfold bridge_source.
  destruct (negb (sourceFlushed b) || (0 <? count)%nat).
  - destruct (write_from_file_total w (fd (destwatcher b)) (srcFile b) (srcPos b))
      as [[[rc p] w1] ->].
    unfold mbind, option_bind. cbv beta iota.
    destruct (rc =? FILE_ERROR); [eexists; reflexivity|].
    destruct (rc =? FILE_EOF); [|eexists; reflexivity].
    destruct (eofFromSource _); [destruct (shutdown w1 _ SHUT_WR)|];
      eexists; reflexivity.
  - unfold mbind, option_bind. cbv beta iota.
    change (FILE_EOF =? FILE_ERROR) with false.
    change (FILE_EOF =? FILE_EOF) with true. cbv beta iota.
    destruct (eofFromSource _); [destruct (shutdown w _ SHUT_WR)|];
      eexists; reflexivity.
Qed.

Lemma bridge_destination_total (w : World) (b : Bridge) (count : nat) :
  is_Some (bridge_destination w b count).
Proof.
  unfold bridge_destination.
  destruct (negb (destinationFlushed b) || (0 <? count)%nat).
  - destruct (write_from_file_total w (fd (srcwatcher b)) (destFile b) (destPos b))
      as [[[rc p] w1] ->].
    unfold mbind, option_bind. cbv beta iota.
    destruct (rc =? FILE_ERROR); [eexists; reflexivity|].
    destruct (rc =? FILE_EOF); [|eexists; reflexivity].
    destruct (eofFromDestination _); [destruct (shutdown w1 _ SHUT_WR)|];
      eexists; reflexivity.
  - unfold mbind, option_bind. cbv beta iota.
    change (FILE_EOF =? FILE_ERROR) with false.
    change (FILE_EOF =? FILE_EOF) with true. cbv beta iota.
    destruct (eofFromDestination _); [destruct (shutdown w _ SHUT_WR)|];
      eexists; reflexivity.
Qed.

(** Every dispatch ends: the fuel of [write_from_file] is never used up. *)
Lemma bridge_cb_total (w : World) (b : Bridge) (wh : which) (flags : Z) :
  is_Some (bridge_cb w b wh flags).
Proof.
  unfold bridge_cb.
  destruct (negb (Z.land flags EV_ERROR =? 0)); [eexists; reflexivity|].
  destruct (negb (connectedToDestination b)); [eexists; reflexivity|].
  assert (Hop : is_Some (perform_operation w b)).
  { unfold perform_operation.
    destruct (read_source w b) as [[[ok1 c1] w1] b1].
    destruct ok1; simpl negb; cbv beta iota; [|eexists; reflexivity].
    destruct (bridge_source_total w1 b1 c1) as [[[ok2 w2] b2] ->].
    unfold mbind, option_bind. cbv beta iota.
    destruct ok2; simpl negb; cbv beta iota; [|eexists; reflexivity].
    destruct (read_destination w2 b2) as [[[ok3 c3] w3] b3].
    destruct ok3; simpl negb; cbv beta iota; [|eexists; reflexivity].
    apply bridge_destination_total. }
  destruct Hop as [[[ok w1] b1] ->]. simpl.
  destruct ok; eexists; reflexivity.
Qed.

(** * Further properties *)

(** ** Closing *)

Lemma close_fd_loop_interrupted (n : nat) (r : option errno) (rest : list (option errno))
    (w : World) (fd_ : Z) :
  (forall e, r = Some e -> errno_eqb e EINTR = false) ->
  close_fd_loop (replicate n (Some EINTR) ++ r :: rest) w fd_ =
    let w' := set_faults rest (set_socks (delete fd_ (w_socks w)) w) in
    match r with
    | None => w'
    | Some _ => elog "Unable to properly close fd %d: %s" w'
    end.
Proof.
  intros Hr. induction n as [|n IH]; simpl.
  - destruct r as [e|]; [|reflexivity]. now rewrite (Hr e eq_refl).
  - exact IH.
Qed.

(** X1: [close_fd] repeats [close] as long as it is interrupted, however
    often; the first other outcome ends it with the descriptor released,
    and a diagnostic is written exactly when that outcome is an error.
    Whatever happens, the descriptor is gone afterwards and no other
    descriptor, stream or file is touched. *)
Theorem close_fd_retries_interrupted :
  (forall (w : World) (fd_ : Z) (n : nat) (r : option errno) (rest : list (option errno)),
     (forall e, r = Some e -> errno_eqb e EINTR = false) ->
     w_faults w = replicate n (Some EINTR) ++ r :: rest ->
     close_fd w fd_ =
       let w' := set_faults rest (set_socks (delete fd_ (w_socks w)) w) in
       match r with
       | None => w'
       | Some _ => elog "Unable to properly close fd %d: %s" w'
       end) /\
  (forall (w : World) (fd_ : Z),
     w_socks (close_fd w fd_) = delete fd_ (w_socks w) /\
     w_streams (close_fd w fd_) = w_streams w /\ w_fs (close_fd w fd_) = w_fs w).
Proof.
  split.
  - intros w fd_ n r rest Hr Hf. unfold close_fd. rewrite Hf.
    now apply close_fd_loop_interrupted.
  - intros w fd_. destruct (close_fd_spec w fd_) as (? & ? & ? & _). auto.
Qed.

Lemma close_fd_retries_interrupted_witness :
  close_fd (set_faults [Some EINTR; Some EINTR; Some EIO; None] world_reset) 4 =
    elog "Unable to properly close fd %d: %s"
      (set_faults [None] (set_socks (delete 4 (w_socks world_reset)) world_reset)).
Proof.
  apply (proj1 close_fd_retries_interrupted
           (set_faults [Some EINTR; Some EINTR; Some EIO; None] world_reset) 4 2%nat
           (Some EIO) [None]).
  - intros e He. injection He as <-. reflexivity.
  - reflexivity.
Defined.

Lemma close_output_file_frame (w : World) (f : nat) :
  kernel_kept w (close_output_file w f) /\
  w_nextfile (close_output_file w f) = w_nextfile w /\
  (length (w_stderr w) <= length (w_stderr (close_output_file w f)))%nat.
Proof.
  unfold close_output_file, kernel_kept. generalize (w_faults w) as faults.
  induction faults as [|[e|] faults IH]; simpl; try (repeat split; lia).
  destruct (errno_eqb e EINTR); [exact IH|].
  simpl. rewrite length_app. simpl. repeat split; lia.
Qed.

Lemma close_fd_frame (w : World) (fd_ : Z) :
  w_pending (close_fd w fd_) = w_pending w /\
  w_nextfd (close_fd w fd_) = w_nextfd w /\ w_dial (close_fd w fd_) = w_dial w /\
  w_nextfile (close_fd w fd_) = w_nextfile w /\
  (length (w_stderr w) <= length (w_stderr (close_fd w fd_)))%nat.
Proof.
  unfold close_fd. generalize (w_faults w) as faults.
  induction faults as [|[e|] faults IH]; simpl; try (repeat split; lia).
  destruct (errno_eqb e EINTR); [exact IH|].
  simpl. rewrite length_app. simpl. repeat split; lia.
Qed.

(** ** Opening a journal *)

Lemma close_output_file_undo (w w0 : World) (st : Stream) :
  kernel_kept w w0 -> (forall n, file_bytes w0 n = file_bytes w n) ->
  (length (w_stderr w) < length (w_stderr w0))%nat ->
  w_nextfile w0 = S (w_nextfile w) ->
  w_streams w0 = <[w_nextfile w := st]> (w_streams w) ->
  let w' := close_output_file w0 (w_nextfile w) in
  kernel_kept w w' /\ (forall n, file_bytes w' n = file_bytes w n) /\
  (length (w_stderr w) <= length (w_stderr w'))%nat /\
  said w w' /\ (w_nextfile w' = w_nextfile w \/ w_nextfile w' = S (w_nextfile w)) /\
  (w_streams w' = w_streams w \/ w_streams w' = delete (w_nextfile w) (w_streams w)).
Proof.
  unfold kernel_kept, said. intros (K1 & K2 & K3 & K4 & K5) Kfb Kerr Knf Kst.
  destruct (close_output_file_frame w0 (w_nextfile w))
    as ((L1 & L2 & L3 & L4 & L5) & Lnf & Lerr).
  destruct (close_output_file_spec w0 (w_nextfile w)) as (Lst & _ & Lfs & _).
  repeat split; try congruence; try lia; try (right; congruence).
  - intros n. rewrite <- Kfb. unfold file_bytes. now rewrite Lfs.
  - right. rewrite Lst, Kst. now rewrite delete_insert_eq.
Qed.

Lemma open_output_file_frame (w : World) (addrlen : Z) (addr : sockaddr)
    (r : option (nat * nat)) (w' : World) :
  open_output_file w addrlen addr = (r, w') ->
  kernel_kept w w' /\ (forall n, file_bytes w' n = file_bytes w n) /\
  (length (w_stderr w) <= length (w_stderr w'))%nat /\
  match r with
  | Some _ => w_nextfile w' = S (w_nextfile w) /\ w_stderr w' = w_stderr w
  | None =>
    said w w' /\ (w_nextfile w' = w_nextfile w \/ w_nextfile w' = S (w_nextfile w)) /\
    (w_streams w' = w_streams w \/ w_streams w' = delete (w_nextfile w) (w_streams w))
  end.
Proof.
  unfold open_output_file. intros H.
  destruct (satos addr addrlen) as [e|name].
  { injection H as <- <-. unfold kernel_kept, said. simpl. rewrite length_app. simpl.
    repeat split; try lia. auto. }
  unfold fopen, next_fault in H. cbv beta iota in H.
  destruct (match w_faults w with [] => None | r :: _ => r end).
  { injection H as <- <-. unfold kernel_kept, said. simpl. rewrite length_app. simpl.
    repeat split; try lia; auto. }
  cbv beta iota zeta in H. cbn [w_nextfile set_faults set_fs set_streams set_nextfile
    w_fs w_streams] in H.
  unfold fseek_end, next_fault in H. cbv beta iota in H.
  cbn [w_faults w_streams set_faults set_fs set_streams set_nextfile] in H.
  rewrite lookup_insert_eq in H.
  destruct (match tail (w_faults w) with [] => None | r :: _ => r end).
  { cbv beta iota in H. change (negb (-1 =? 0)) with true in H. cbv beta iota in H.
    injection H as <- <-. eapply close_output_file_undo.
    - unfold kernel_kept. cbn. auto.
    - intros n. unfold file_bytes. cbn. apply file_bytes_insert_same.
    - cbn. rewrite length_app. simpl. lia.
    - reflexivity.
    - cbn. reflexivity. }
  cbv beta iota in H. change (negb (0 =? 0)) with false in H. cbv beta iota in H.
  unfold fgetpos, next_fault in H. cbv beta iota in H.
  cbn [w_faults w_streams set_faults set_fs set_streams set_nextfile st_name st_pos] in H.
  rewrite lookup_insert_eq in H.
  destruct (match tail (tail (w_faults w)) with [] => None | r :: _ => r end).
  { cbv beta iota in H. change (negb (-1 =? 0)) with true in H. cbv beta iota in H.
    injection H as <- <-. eapply close_output_file_undo.
    - unfold kernel_kept. cbn. auto.
    - intros n. unfold file_bytes. cbn. apply file_bytes_insert_same.
    - cbn. rewrite length_app. simpl. lia.
    - reflexivity.
    - cbn. rewrite insert_insert_eq. reflexivity. }
  cbv beta iota in H. change (negb (0 =? 0)) with false in H. cbv beta iota in H.
  injection H as <- <-. unfold kernel_kept. cbn. repeat split; try lia.
  intros n. unfold file_bytes. cbn. apply file_bytes_insert_same.
Qed.

(** X3: a failed [open_output_file] leaves nothing behind.  When the
    stream handle the C library hands out next is not in use, every way
    [open_output_file] can return the null pointer (no name, [fopen],
    [fseek] or [fgetpos] failing) leaves the set of open streams, the
    sockets and the contents of every file as they were, and writes a
    diagnostic to standard error. *)
Theorem open_output_file_failure_releases (w : World) (addrlen : Z) (addr : sockaddr)
    (w' : World) :
  w_streams w !! w_nextfile w = None ->
  open_output_file w addrlen addr = (None, w') ->
  w_streams w' = w_streams w /\ w_socks w' = w_socks w /\
  (forall n, file_bytes w' n = file_bytes w n) /\ said w w'.
Proof.
  intros Hfresh H.
  apply open_output_file_frame in H as ((K1 & _) & Kfb & _ & Ksaid & _ & Kst).
  repeat split; try assumption.
  destruct Kst as [->| ->]; [reflexivity|]. now apply delete_id.
Qed.

Lemma open_output_file_failure_releases_witness :
  exists w',
    open_output_file (set_faults [None; None; Some EIO] world_replay) 16
      (mk_in 192 0 2 9 8080) = (None, w') /\
    w_streams w' = w_streams (set_faults [None; None; Some EIO] world_replay) /\
    said (set_faults [None; None; Some EIO] world_replay) w'.
Proof.
  eexists. split; [vm_compute; reflexivity|].
  edestruct (open_output_file_failure_releases
               (set_faults [None; None; Some EIO] world_replay) 16 (mk_in 192 0 2 9 8080))
    as (H1 & _ & _ & H2); [| vm_compute; reflexivity | split; [exact H1 | exact H2]].
  vm_compute. reflexivity.
Defined.

(** ** Releasing what a failed start took *)

Lemma close_fd_all (w : World) (fd_ : Z) :
  w_socks (close_fd w fd_) = delete fd_ (w_socks w) /\
  w_streams (close_fd w fd_) = w_streams w /\
  (forall n, file_bytes (close_fd w fd_) n = file_bytes w n) /\
  w_shut (close_fd w fd_) = w_shut w /\ w_pending (close_fd w fd_) = w_pending w /\
  w_nextfd (close_fd w fd_) = w_nextfd w /\ w_nextfile (close_fd w fd_) = w_nextfile w /\
  (length (w_stderr w) <= length (w_stderr (close_fd w fd_)))%nat.
Proof.
  destruct (close_fd_spec w fd_) as (H1 & H2 & H3 & H4).
  destruct (close_fd_frame w fd_) as (H5 & H6 & _ & H7 & H8).
  repeat split; try assumption. intros n. unfold file_bytes. now rewrite H3.
Qed.

Lemma close_output_file_all (w : World) (f : nat) :
  w_socks (close_output_file w f) = w_socks w /\
  w_streams (close_output_file w f) = delete f (w_streams w) /\
  (forall n, file_bytes (close_output_file w f) n = file_bytes w n) /\
  w_shut (close_output_file w f) = w_shut w /\
  w_pending (close_output_file w f) = w_pending w /\
  w_nextfd (close_output_file w f) = w_nextfd w /\
  w_nextfile (close_output_file w f) = w_nextfile w /\
  (length (w_stderr w) <= length (w_stderr (close_output_file w f)))%nat.
Proof.
  destruct (close_output_file_spec w f) as (H1 & H2 & H3 & H4).
  destruct (close_output_file_frame w f) as ((_ & H5 & H6 & _) & H7 & H8).
  repeat split; try assumption. intros n. unfold file_bytes. now rewrite H3.
Qed.

Lemma close_fd_elog (msg : string) (w : World) (fd_ : Z) :
  let w' := close_fd (elog msg w) fd_ in
  w_socks w' = delete fd_ (w_socks w) /\ w_streams w' = w_streams w /\
  (forall n, file_bytes w' n = file_bytes w n) /\
  w_shut w' = w_shut w /\ w_pending w' = w_pending w /\
  w_nextfd w' = w_nextfd w /\ w_nextfile w' = w_nextfile w /\
  (length (w_stderr w) < length (w_stderr w'))%nat.
Proof.
  destruct (close_fd_all (elog msg w) fd_) as (C1 & C2 & C3 & C4 & C5 & C6 & C7 & C8).
  change (w_stderr (elog msg w)) with (w_stderr w ++ [msg]) in C8.
  rewrite length_app in C8. cbn [length] in C8.
  cbv zeta. repeat split; try assumption. lia.
Qed.

Lemma close_both_elog (msg : string) (w : World) (f : nat) (fd_ : Z) :
  let w' := close_fd (close_output_file (elog msg w) f) fd_ in
  w_socks w' = delete fd_ (w_socks w) /\ w_streams w' = delete f (w_streams w) /\
  (forall n, file_bytes w' n = file_bytes w n) /\
  w_shut w' = w_shut w /\ w_pending w' = w_pending w /\
  w_nextfd w' = w_nextfd w /\ w_nextfile w' = w_nextfile w /\
  (length (w_stderr w) < length (w_stderr w'))%nat.
Proof.
  destruct (close_fd_all (close_output_file (elog msg w) f) fd_)
    as (C1 & C2 & C3 & C4 & C5 & C6 & C7 & C8).
  destruct (close_output_file_all (elog msg w) f)
    as (D1 & D2 & D3 & D4 & D5 & D6 & D7 & D8).
  change (w_stderr (elog msg w)) with (w_stderr w ++ [msg]) in D8.
  rewrite length_app in D8. cbn [length] in D8.
  cbv zeta. rewrite C1, C2, C4, C5, C6, C7, D1, D2, D4, D5, D6, D7.
  repeat split; try reflexivity; try lia.
  intros n. now rewrite C3, D3.
Qed.

Lemma socket_cases (w : World) (fd_ : Z) (w' : World) :
  socket w = (fd_, w') ->
  w_streams w' = w_streams w /\ (forall n, file_bytes w' n = file_bytes w n) /\
  w_shut w' = w_shut w /\ w_pending w' = w_pending w /\
  w_nextfile w' = w_nextfile w /\ w_stderr w' = w_stderr w /\
  ((fd_ = -1 /\ w_socks w' = w_socks w /\ w_nextfd w' = w_nextfd w) \/
   (fd_ = w_nextfd w /\ w_nextfd w' = w_nextfd w + 1 /\
    exists s, w_socks w' = <[fd_ := s]> (w_socks w) /\
      s_nonblock s = true /\ s_cloexec s = true /\
      s_cq s = s_cq (hd blank_socket (w_dial w)))).
Proof.
  unfold socket, next_fault. cbv beta iota.
  destruct (match w_faults w with [] => None | r :: _ => r end);
    intros H; injection H as <- <-; cbn; repeat split; auto.
  right. repeat split. eexists. repeat split.
Qed.

Lemma set_connecting_all (fd_ : Z) (peer : sockaddr * Z) (cq : list (option errno))
    (w : World) (m : gmap Z Socket) (s : Socket) :
  w_socks w = <[fd_ := s]> m ->
  let w' := set_connecting fd_ peer cq w in
  w_streams w' = w_streams w /\ (forall n, file_bytes w' n = file_bytes w n) /\
  w_shut w' = w_shut w /\ w_pending w' = w_pending w /\
  w_nextfd w' = w_nextfd w /\ w_nextfile w' = w_nextfile w /\
  w_stderr w' = w_stderr w /\
  exists s', w_socks w' = <[fd_ := s']> m /\ s_peer s' = peer /\
    s_local s' = s_local s /\ s_nonblock s' = s_nonblock s /\ s_cloexec s' = s_cloexec s.
Proof.
  intros Hs. unfold set_connecting. rewrite Hs, lookup_insert_eq. cbn.
  repeat split. eexists. rewrite insert_insert_eq. repeat split.
Qed.

Lemma getsockname_all (w : World) (fd_ : Z) (rc : Z) (a : sockaddr * Z) (w' : World) :
  getsockname w fd_ = (rc, a, w') ->
  w_socks w' = w_socks w /\ w_streams w' = w_streams w /\
  (forall n, file_bytes w' n = file_bytes w n) /\
  w_shut w' = w_shut w /\ w_pending w' = w_pending w /\
  w_nextfd w' = w_nextfd w /\ w_nextfile w' = w_nextfile w /\
  w_stderr w' = w_stderr w.
Proof.
  unfold getsockname, next_fault. cbv beta iota.
  destruct (match w_faults w with [] => None | r :: _ => r end);
    [|destruct (w_socks _ !! fd_)]; intros H; injection H as <- <- <-; cbn;
    repeat split; auto.
Qed.

(** What [bridge_init] leaves behind, whichever way it ends. *)
Lemma bridge_init_frame (w : World) (destaddr : addrinfo) (srcfd srcaddrlen : Z)
    (srcaddr : sockaddr) (r : option Bridge) (w' : World) :
  fresh_world w ->
  bridge_init w destaddr srcfd srcaddrlen srcaddr = (r, w') ->
  fresh_world w' /\ w_pending w' = w_pending w /\ w_shut w' = w_shut w /\
  (forall n, file_bytes w' n = file_bytes w n) /\
  (length (w_stderr w) <= length (w_stderr w'))%nat /\
  w_nextfd w <= w_nextfd w' /\ (w_nextfile w <= w_nextfile w')%nat /\
  match r with
  | None => w_socks w' = w_socks w /\ w_streams w' = w_streams w /\ said w w'
  | Some b =>
    fd (srcwatcher b) = srcfd /\ fd (destwatcher b) = w_nextfd w /\
    srcFile b = w_nextfile w /\ destFile b = S (w_nextfile w) /\
    w_nextfd w' = w_nextfd w + 1 /\ w_nextfile w' = S (S (w_nextfile w)) /\
    (exists s, w_socks w' = <[w_nextfd w := s]> (w_socks w) /\
       s_nonblock s = true /\ s_cloexec s = true /\
       s_peer s = (ai_addr destaddr, ai_addrlen destaddr)) /\
    (exists st1 st2,
       w_streams w' = <[S (w_nextfile w) := st2]> (<[w_nextfile w := st1]> (w_streams w))) /\
    w_stderr w' = w_stderr w
  end.
Proof.
  unfold bridge_init, fresh_world, said. intros (Hfd0 & Hfd & Hfile) H.
  destruct (socket w) as [destfd w1] eqn:E1.
  apply socket_cases in E1 as (Fst1 & Fb1 & Fsh1 & Fp1 & Fnf1 & Fe1 & Hsock).
  destruct Hsock as [(-> & Fso1 & Ffd1) | (-> & Ffd1 & s1 & Fso1 & Hnb1 & Hce1 & _)].
  { change (-1 <? 0) with true in H. cbv beta iota in H. injection H as <- <-.
    cbn. rewrite Fst1, Fp1, Fsh1, Fso1, Ffd1, Fnf1, Fe1, length_app. cbn.
    repeat split; auto; try lia. }
  destruct (Z.ltb_spec (w_nextfd w) 0) as [?|_]; [lia|].
  rewrite Fso1, lookup_insert_eq in H.
  destruct (connect_loop (s_cq s1)) as [connected cq] eqn:Ec.
  cbv beta iota in H.
  pose proof (set_connecting_all (w_nextfd w) (ai_addr destaddr, ai_addrlen destaddr) cq
                w1 _ s1 Fso1)
    as (Fst2 & Fb2 & Fsh2 & Fp2 & Ffd2 & Fnf2 & Fe2 & s2 & Fso2 & Hp2 & _ & Hnb2 & Hce2).
  cbv zeta in *.
  set (w2 := set_connecting (w_nextfd w) (ai_addr destaddr, ai_addrlen destaddr) cq w1) in *.
  assert (Hnone : w_socks w !! w_nextfd w = None) by (apply Hfd; lia).
  assert (Hfresh' : forall g, w_nextfd w + 1 <= g -> w_socks w !! g = None)
    by (intros; apply Hfd; lia).
  assert (Hnonef : w_streams w !! w_nextfile w = None) by (apply Hfile; lia).
  destruct connected as [connected|].
  2:{ injection H as <- <-.
      match goal with |- context [close_fd (elog ?m ?x) ?g] =>
        destruct (close_fd_elog m x g) as (C1 & C2 & C3 & C4 & C5 & C6 & C7 & C8) end.
      rewrite C1, C2, C4, C5, C6, C7, Fso2, delete_insert_id, Fst2, Fst1, Fp2, Fp1,
        Fsh2, Fsh1, Ffd2, Ffd1, Fnf2, Fnf1 by assumption.
      rewrite Fe2, Fe1 in C8.
      repeat split; try reflexivity; try lia;
        try (intros; first [apply Hfd | apply Hfile]; lia).
      intros n. now rewrite C3, Fb2, Fb1. }
  destruct (open_output_file w2 srcaddrlen srcaddr) as [[[f1 p1]|] w3] eqn:E3.
  2:{ injection H as <- <-.
      apply open_output_file_frame in E3
        as ((K1 & K2 & K3 & K4 & K5) & Kfb & Kerr & Ksaid & Knf & Kst).
      match goal with |- context [close_fd (elog ?m ?x) ?g] =>
        destruct (close_fd_elog m x g) as (C1 & C2 & C3 & C4 & C5 & C6 & C7 & C8) end.
      assert (Hst3 : w_streams w3 = w_streams w).
      { destruct Kst as [->| ->]; rewrite Fst2, Fst1; [reflexivity|].
        apply delete_id. rewrite Fnf2, Fnf1. apply Hfile. lia. }
      rewrite C1, C2, C4, C5, C6, C7, K1, K2, K3, K5, Fso2, delete_insert_id, Hst3, Fp2, Fp1,
        Fsh2, Fsh1, Ffd2, Ffd1 by assumption.
      rewrite Fe2, Fe1 in Kerr. rewrite Fnf2, Fnf1 in Knf.
      repeat split; try reflexivity; try lia;
        try (intros; first [apply Hfd | apply Hfile]; lia).
      intros n. now rewrite C3, Kfb, Fb2, Fb1. }
  pose proof E3 as E3'.
  apply open_output_file_frame in E3'
    as ((K1 & K2 & K3 & K4 & K5) & Kfb & Kerr & Knf3 & Ke3).
  apply open_output_file_spec in E3 as (_ & _ & _ & ns & Hns & Hf1 & _ & Hst3 & Hp1).
  destruct (getsockname w3 (w_nextfd w)) as [[rc a] w4] eqn:E4.
  apply getsockname_all in E4 as (Fso4 & Fst4 & Fb4 & Fsh4 & Fp4 & Ffd4 & Fnf4 & Fe4).
  rewrite Fnf2, Fnf1 in Hf1. subst f1.
  assert (Hst3' : w_streams w3 = <[w_nextfile w := MkStream ns p1]> (w_streams w))
    by (rewrite Hst3; congruence).
  assert (Hnf3 : w_nextfile w3 = S (w_nextfile w)) by congruence.
  destruct (Z.eqb_spec rc 0) as [->|Hrc]; simpl negb in H; cbv beta iota in H.
  2:{ injection H as <- <-.
      match goal with |- context [close_fd (close_output_file (elog ?m ?x) ?f) ?g] =>
        destruct (close_both_elog m x f g) as (C1 & C2 & C3 & C4 & C5 & C6 & C7 & C8) end.
      rewrite C1, C2, C4, C5, C6, C7, Fso4, Fst4, Fp4, Fsh4, Ffd4, Fnf4, K1, K2, K3, K5,
        Fso2, Hst3', Hnf3, delete_insert_id, delete_insert_id, Fp2, Fp1,
        Fsh2, Fsh1, Ffd2, Ffd1 by assumption.
      rewrite Fe4, Ke3, Fe2, Fe1 in C8.
      repeat split; try reflexivity; try lia;
        try (intros; first [apply Hfd | apply Hfile]; lia).
      intros nm. now rewrite C3, Fb4, Kfb, Fb2, Fb1. }
  destruct (open_output_file w4 a.2 a.1) as [[[f2 p2]|] w5] eqn:E5.
  2:{ injection H as <- <-.
      apply open_output_file_frame in E5
        as ((L1 & L2 & L3 & L4 & L5) & Lfb & Lerr & Lsaid & Lnf & Lst).
      match goal with |- context [close_fd (close_output_file (elog ?m ?x) ?f) ?g] =>
        destruct (close_both_elog m x f g) as (C1 & C2 & C3 & C4 & C5 & C6 & C7 & C8) end.
      assert (Hst5 : w_streams w5 = <[w_nextfile w := MkStream ns p1]> (w_streams w)).
      { destruct Lst as [->| ->]; rewrite Fst4, Hst3'; [reflexivity|].
        apply delete_id. rewrite Fnf4, Hnf3, lookup_insert_ne by lia.
        apply Hfile. lia. }
      rewrite C1, C2, C4, C5, C6, C7, L1, L2, L3, L5, Fso4, Fp4, Fsh4, Ffd4, K1, K2, K3, K5,
        Fso2, Hst5, delete_insert_id, delete_insert_id, Fp2, Fp1,
        Fsh2, Fsh1, Ffd2, Ffd1 by assumption.
      rewrite Fe4, Ke3, Fe2, Fe1 in Lerr. rewrite Fnf4, Hnf3 in Lnf.
      repeat split; try reflexivity; try lia;
        try (intros; first [apply Hfd | apply Hfile]; lia).
      intros nm. now rewrite C3, Lfb, Fb4, Kfb, Fb2, Fb1. }
  pose proof E5 as E5'.
  apply open_output_file_frame in E5'
    as ((L1 & L2 & L3 & L4 & L5) & Lfb & Lerr & Lnf5 & Le5).
  apply open_output_file_spec in E5 as (_ & _ & _ & nd & Hnd & Hf2 & _ & Hst5 & Hp2').
  rewrite Fnf4, Hnf3 in Hf2. subst f2.
  assert (Hbr : exists sw dw, r = Some (MkBridge sw dw (w_nextfile w) (S (w_nextfile w))
                  p1 p2 false true connected false true) /\ w' = w5 /\
                  fd sw = srcfd /\ fd dw = w_nextfd w).
  { destruct connected; cbv beta iota in H; injection H as <- <-;
      eexists _, _; repeat split. }
  destruct Hbr as (sw & dw & -> & -> & Hsw & Hdw). cbn [srcwatcher destwatcher srcFile destFile].
  repeat split; try congruence; try lia.
  - intros g Hg. rewrite L1, Fso4, K1, Fso2, lookup_insert_ne by lia. apply Hfd. lia.
  - intros f Hf. rewrite Hst5, Fst4, Hst3', !lookup_insert_ne by lia. apply Hfile. lia.
  - exists s2. rewrite L1, Fso4, K1, Fso2. repeat split; congruence.
  - eexists _, _. rewrite Hst5, Fst4, Hst3'. reflexivity.
Qed.

Lemma fresh_worldb_sound (w : World) : fresh_worldb w = true -> fresh_world w.
Proof.
  unfold fresh_worldb, fresh_world. intros H.
  apply andb_prop in H as [H H3]. apply andb_prop in H as [H1 H2].
  apply bool_decide_eq_true in H1, H2, H3.
  split; [exact H1|]. split.
  - intros g Hg. destruct (w_socks w !! g) eqn:E; [|reflexivity].
    apply (map_Forall_lookup_1 _ _ _ _ H2) in E. lia.
  - intros f Hf. destruct (w_streams w !! f) eqn:E; [|reflexivity].
    apply (map_Forall_lookup_1 _ _ _ _ H3) in E. lia.
Qed.

(** X4: a failed [bridge_init] gives back everything it took.  From a
    state in which the descriptors and stream handles still to be handed
    out are free, whichever step fails (socket, connect, opening either
    journal, getsockname), the destination socket and any journal stream
    opened on the way are closed again: the open sockets, among them the
    source connection, and the open streams are exactly those from before
    the call, no file content has changed, and a diagnostic was written. *)
Theorem bridge_init_failure_releases (w : World) (destaddr : addrinfo)
    (srcfd srcaddrlen : Z) (srcaddr : sockaddr) (w' : World) :
  fresh_world w ->
  bridge_init w destaddr srcfd srcaddrlen srcaddr = (None, w') ->
  w_socks w' = w_socks w /\ w_streams w' = w_streams w /\
  (forall n, file_bytes w' n = file_bytes w n) /\ w_shut w' = w_shut w /\ said w w'.
Proof.
  intros Hfresh H.
  apply bridge_init_frame in H as (_ & _ & Hsh & Hfb & _ & _ & _ & Hso & Hst & Hsaid);
    [|exact Hfresh].
  repeat split; assumption.
Qed.

Lemma bridge_init_failure_releases_witness :
  let w := set_faults [None; None; None; None; None; None; Some EMFILE] world_dial in
  exists w',
    bridge_init w upstream 4 16 client = (None, w') /\
    (w_socks w' = w_socks w /\ w_streams w' = w_streams w /\
     (forall n, file_bytes w' n = file_bytes w n) /\ w_shut w' = w_shut w /\ said w w').
Proof.
  cbv zeta. eexists. split; [vm_compute; reflexivity|].
  eapply (bridge_init_failure_releases _ upstream 4 16 client);
    [apply fresh_worldb_sound; vm_compute; reflexivity | vm_compute; reflexivity].
Defined.

(** ** Accepting connections *)

(** What [start_bridge] leaves behind, whichever way it ends. *)
Lemma start_bridge_frame (w : World) (destaddr : addrinfo) (fd_ srcaddrlen : Z)
    (srcaddr : sockaddr) (r : option Bridge) (w' : World) :
  fresh_world w ->
  start_bridge w destaddr fd_ srcaddrlen srcaddr = (r, w') ->
  fresh_world w' /\ w_pending w' = w_pending w /\ w_shut w' = w_shut w /\
  (forall n, file_bytes w' n = file_bytes w n) /\
  w_nextfd w <= w_nextfd w' /\ (w_nextfile w <= w_nextfile w')%nat /\
  match r with
  | None =>
    w_socks w' = delete fd_ (w_socks w) /\ w_streams w' = w_streams w /\ said w w'
  | Some b =>
    fd (srcwatcher b) = fd_ /\ fd (destwatcher b) = w_nextfd w /\
    srcFile b = w_nextfile w /\ destFile b = S (w_nextfile w) /\
    w_nextfd w' = w_nextfd w + 1 /\ w_nextfile w' = S (S (w_nextfile w)) /\
    (exists s, w_socks w' = <[w_nextfd w := s]> (w_socks w) /\
       s_nonblock s = true /\ s_cloexec s = true /\
       s_peer s = (ai_addr destaddr, ai_addrlen destaddr)) /\
    (exists st1 st2,
       w_streams w' = <[S (w_nextfile w) := st2]> (<[w_nextfile w := st1]> (w_streams w))) /\
    w_stderr w' = w_stderr w
  end.
Proof.
  unfold start_bridge, bridge_new, malloc, next_fault. intros Hfresh H.
  cbv beta iota in H.
  assert (Hdel : forall (msg : string) (w0 : World),
    fresh_world w0 -> w_pending w0 = w_pending w -> w_shut w0 = w_shut w ->
    (forall n, file_bytes w0 n = file_bytes w n) ->
    w_socks w0 = w_socks w -> w_streams w0 = w_streams w ->
    (length (w_stderr w) <= length (w_stderr w0))%nat ->
    w_nextfd w <= w_nextfd w0 -> (w_nextfile w <= w_nextfile w0)%nat ->
    let w' := close_fd (elog msg w0) fd_ in
    fresh_world w' /\ w_pending w' = w_pending w /\ w_shut w' = w_shut w /\
    (forall n, file_bytes w' n = file_bytes w n) /\
    w_nextfd w <= w_nextfd w' /\ (w_nextfile w <= w_nextfile w')%nat /\
    w_socks w' = delete fd_ (w_socks w) /\ w_streams w' = w_streams w /\ said w w').
  { intros msg w0 (G0 & G1 & G2) Gp Gsh Gfb Gso Gst Ge Gfd Gnf.
    destruct (close_fd_elog msg w0 fd_) as (C1 & C2 & C3 & C4 & C5 & C6 & C7 & C8).
    cbv zeta. unfold fresh_world, said. rewrite C1, C2, C4, C5, C6, C7, Gso, Gst.
    repeat split; try assumption; try lia.
    - intros g Hg. apply lookup_delete_None. right. rewrite <- Gso. now apply G1.
    - intros f Hf. rewrite <- Gst. now apply G2.
    - intros n. now rewrite C3. }
  destruct (match w_faults w with [] => None | r :: _ => r end).
  { simpl negb in H. cbv beta iota in H. injection H as <- <-.
    apply Hdel; try reflexivity.
    - destruct Hfresh as (G0 & G1 & G2). repeat split; assumption.
    - cbn. rewrite length_app. lia. }
  simpl negb in H. cbv beta iota in H.
  destruct (bridge_init (set_faults (tail (w_faults w)) w) destaddr fd_ srcaddrlen srcaddr)
    as [[b|] w1] eqn:E.
  - injection H as <- <-.
    apply bridge_init_frame in E as (F1 & F2 & F3 & F4 & _ & Fa & Fb & F5).
    + split; [exact F1|]. split; [exact F2|]. split; [exact F3|]. split; [exact F4|].
      split; [exact Fa|]. split; [exact Fb|]. exact F5.
    + destruct Hfresh as (G0 & G1 & G2). repeat split; assumption.
  - injection H as <- <-.
    apply bridge_init_frame in E as (F1 & F2 & F3 & F4 & F5 & Fa & Fb & F6 & F7 & F8).
    + match goal with |- context [close_fd (elog ?m ?x) _] =>
        apply (Hdel m x);
          [exact F1 | exact F2 | exact F3 | exact F4 | exact F6 | exact F7 | | exact Fa
          | exact Fb]
      end.
      cbn in F5 |- *. rewrite length_app. lia.
    + destruct Hfresh as (G0 & G1 & G2). repeat split; assumption.
Qed.

(** X5: when [start_bridge] fails, the accepted connection is closed and
    nothing else is left open.  From a state in which the descriptors and
    stream handles still to be handed out are free, a failure of
    [start_bridge] (no memory, or [bridge_init] failing at any step)
    leaves exactly the sockets from before the call without the
    connection [fd], the same open streams and the same file contents,
    and writes a diagnostic. *)
Theorem start_bridge_failure_closes_connection (w : World) (destaddr : addrinfo)
    (fd_ srcaddrlen : Z) (srcaddr : sockaddr) (w' : World) :
  fresh_world w ->
  start_bridge w destaddr fd_ srcaddrlen srcaddr = (None, w') ->
  w_socks w' = delete fd_ (w_socks w) /\ w_streams w' = w_streams w /\
  (forall n, file_bytes w' n = file_bytes w n) /\ said w w'.
Proof.
  intros Hfresh H.
  apply start_bridge_frame in H as (_ & _ & _ & Hfb & _ & _ & Hso & Hst & Hsaid);
    [|exact Hfresh].
  repeat split; assumption.
Qed.

Lemma start_bridge_failure_closes_connection_witness :
  let w := set_faults [None; None; Some EIO] world_dial in
  exists w',
    start_bridge w upstream 4 16 client = (None, w') /\
    (w_socks w' = delete 4 (w_socks w) /\ w_streams w' = w_streams w /\
     (forall n, file_bytes w' n = file_bytes w n) /\ said w w').
Proof.
  cbv zeta. eexists. split; [vm_compute; reflexivity|].
  eapply (start_bridge_failure_closes_connection _ upstream 4 16 client);
    [apply fresh_worldb_sound; vm_compute; reflexivity | vm_compute; reflexivity].
Defined.

Lemma accounted_nil (w : World) : fresh_world w -> accounted w w [].
Proof.
  intros (G0 & G1 & G2). unfold accounted.
  split; [reflexivity|]. split; [reflexivity|]. split; [|split].
  - intros g Hg [s Hs]. rewrite G1 in Hs by exact Hg. discriminate.
  - intros f Hf [s Hs]. rewrite G2 in Hs by exact Hf. discriminate.
  - intros b [].
Qed.

Lemma accept_loop_accounted (destaddr : addrinfo) (aq : list accept_event) :
  forall (w : World) (acc : list Bridge) (w' : World) (bs : list Bridge)
         (aq' : list accept_event),
  fresh_world w ->
  accept_loop aq w destaddr acc = (w', bs, aq') ->
  fresh_world w' /\ w_pending w' = w_pending w /\ w_shut w' = w_shut w /\
  (forall n, file_bytes w' n = file_bytes w n) /\
  w_nextfd w <= w_nextfd w' /\ (w_nextfile w <= w_nextfile w')%nat /\
  exists new, bs = acc ++ new /\ accounted w w' new.
Proof.
  induction aq as [|[s|e] aq IH]; intros w acc w' bs aq' Hfresh H; simpl in H.
  - injection H as <- <- <-. repeat split; try apply Hfresh; try lia.
    exists []. split; [now rewrite app_nil_r | now apply accounted_nil].
  - destruct (start_bridge _ destaddr (w_nextfd w) _ _) as [r w1] eqn:E in H.
    pose proof Hfresh as (G0 & G1 & G2).
    apply start_bridge_frame in E as (F1 & F2 & F3 & F4 & Fa & Fb & F5).
    2:{ repeat split; cbn; [lia| |exact G2].
        intros g Hg. rewrite lookup_insert_ne by lia. apply G1. lia. }
    cbn [w_nextfd w_nextfile w_socks w_streams w_pending w_shut set_nextfd set_socks] in *.
    apply IH in H as (I1 & I2 & I3 & I4 & Ia & Ib & new' & -> & A1 & A2 & B1 & B2 & C1);
      [|exact F1].
    split; [exact I1|]. split; [congruence|]. split; [congruence|].
    split; [intros n; rewrite I4, F4; reflexivity|].
    split; [lia|]. split; [lia|].
    destruct r as [b|].
    + destruct F5 as (Hsf & Hdf & Hsfile & Hdfile & Hnfd & Hnfile & (s' & Hso & _)
                      & (st1 & st2 & Hst) & _).
      exists (b :: new'). split; [now rewrite <- app_assoc|].
      unfold accounted. split; [|split; [|split; [|split]]].
      * intros g Hg. rewrite A1, Hso, !lookup_insert_ne by lia. reflexivity.
      * intros f Hf. rewrite A2, Hst, !lookup_insert_ne by lia. reflexivity.
      * intros g Hg Hs. destruct (Z_lt_le_dec g (w_nextfd w1)) as [Hlt|Hge].
        -- exists b. split; [now left|]. lia.
        -- destruct (B1 g Hge Hs) as (b' & Hin & Hb'). exists b'. split; [now right|exact Hb'].
      * intros f Hf Hs. destruct (le_lt_dec (w_nextfile w1) f) as [Hge|Hlt].
        -- destruct (B2 f Hge Hs) as (b' & Hin & Hb'). exists b'. split; [now right|exact Hb'].
        -- exists b. split; [now left|]. lia.
      * intros b' [<-|Hin].
        -- rewrite Hsf, Hdf, Hsfile, Hdfile.
           rewrite (A1 (w_nextfd w)), (A1 (w_nextfd w + 1)), Hso by lia.
           rewrite (A2 (w_nextfile w)), (A2 (S (w_nextfile w))), Hst by lia.
           rewrite lookup_insert_eq, lookup_insert_ne, lookup_insert_eq by lia.
           rewrite lookup_insert_eq, lookup_insert_ne, lookup_insert_eq by lia.
           repeat split; try lia; eexists; reflexivity.
        -- destruct (C1 b' Hin) as (c1 & c2 & c3 & c4 & c5 & c6 & c7 & c8).
           repeat split; try assumption; lia.
    + destruct F5 as (Hso & Hst & _).
      rewrite delete_insert_id in Hso by (apply G1; lia).
      exists new'. split; [now rewrite app_nil_r|].
      unfold accounted. split; [|split; [|split; [|split]]].
      * intros g Hg. rewrite A1, Hso by lia. reflexivity.
      * intros f Hf. rewrite A2, Hst by lia. reflexivity.
      * intros g Hg Hs. destruct (Z_lt_le_dec g (w_nextfd w1)) as [Hlt|Hge].
        -- rewrite A1, Hso, G1 in Hs by lia. destruct Hs as [? Hs]. discriminate.
        -- exact (B1 g Hge Hs).
      * intros f Hf Hs. destruct (le_lt_dec (w_nextfile w1) f) as [Hge|Hlt].
        -- exact (B2 f Hge Hs).
        -- rewrite A2, Hst, G2 in Hs by lia. destruct Hs as [? Hs]. discriminate.
      * intros b' Hin.
        destruct (C1 b' Hin) as (c1 & c2 & c3 & c4 & c5 & c6 & c7 & c8).
        repeat split; try assumption; lia.
  - injection H as <- <- <-. repeat split; try apply Hfresh; try lia.
    exists []. split; [now rewrite app_nil_r | now apply accounted_nil].
Qed.

(** X6: [accept_cb] leaks no descriptor and no stream.  From a state in
    which the descriptors and stream handles still to be handed out are
    free, after [accept_cb] every socket and stream that was open before
    is exactly as it was (the listening socket and the other bridges
    among them), every further open descriptor or stream belongs to one
    of the bridges the call started, each started bridge holds two open
    descriptors and two open streams made during the call, no file content
    has changed, and the watcher of the listener is left as it was: a
    connection whose bridge could not be started is closed again. *)
Theorem accept_cb_accounts_for_descriptors (w : World) (destaddr : addrinfo)
    (watcher_ : ev_io) (flags : Z) (w' : World) (watcher' : ev_io)
    (bridges : list Bridge) :
  fresh_world w ->
  accept_cb w destaddr watcher_ flags = (w', watcher', bridges) ->
  fresh_world w' /\ watcher' = watcher_ /\ accounted w w' bridges /\
  (forall n, file_bytes w' n = file_bytes w n) /\ w_shut w' = w_shut w.
Proof.
  unfold accept_cb. intros Hfresh H.
  destruct (negb (Z.land flags EV_ERROR =? 0)).
  { injection H as <- <- <-.
    split; [exact Hfresh|]. split; [reflexivity|].
    split; [exact (accounted_nil w Hfresh)|]. split; reflexivity. }
  destruct (accept_loop _ w destaddr []) as [[w1 bs] aq'] eqn:E.
  injection H as <- <- <-.
  apply accept_loop_accounted in E
    as (F1 & F2 & F3 & F4 & _ & _ & new & -> & Hacc); [|exact Hfresh].
  split; [exact F1|]. split; [reflexivity|]. split; [exact Hacc|].
  split; [exact F4 | exact F3].
Qed.

Lemma accept_cb_accounts_for_descriptors_witness :
  exists w' bridges,
    accept_cb world_accepting upstream (EvIo 3 EV_READ true) EV_READ
      = (w', EvIo 3 EV_READ true, bridges) /\ length bridges = 1%nat /\
    (fresh_world w' /\ EvIo 3 EV_READ true = EvIo 3 EV_READ true /\
     accounted world_accepting w' bridges /\
     (forall n, file_bytes w' n = file_bytes world_accepting n) /\
     w_shut w' = w_shut world_accepting).
Proof.
  eexists _, _. split; [vm_compute; reflexivity|]. split; [reflexivity|].
  eapply (accept_cb_accounts_for_descriptors world_accepting upstream
            (EvIo 3 EV_READ true) EV_READ);
    [apply fresh_worldb_sound; vm_compute; reflexivity | vm_compute; reflexivity].
Defined.

(** ** A failing [accept4] *)

(** A failure of [accept4] ends the loop as an empty queue does, except
    that the answers behind it stay pending. *)
Lemma accept_loop_error (destaddr : addrinfo) (e : errno) (rest : list accept_event)
    (conns : list accept_event) :
  forallb is_connection conns = true ->
  forall (w : World) (acc : list Bridge),
    accept_loop (conns ++ AErr e :: rest) w destaddr acc =
      let '(w1, bridges, _) := accept_loop conns w destaddr acc in (w1, bridges, rest).
Proof.
  induction conns as [|[s|e'] conns IH]; intros Hc w acc; simpl in Hc |- *;
    [reflexivity| |discriminate].
  destruct (start_bridge _ destaddr (w_nextfd w) _ _) as [r w1].
  now apply IH.
Qed.

(** Accepting connections writes to standard error only when a bridge
    could not be started. *)
Lemma accept_loop_stderr (destaddr : addrinfo) (conns : list accept_event) :
  forallb is_connection conns = true ->
  forall (w : World) (acc : list Bridge) (w' : World) (bs : list Bridge)
         (aq' : list accept_event),
  fresh_world w ->
  accept_loop conns w destaddr acc = (w', bs, aq') ->
  aq' = [] /\ (length bs <= length acc + length conns)%nat /\
  (length bs = (length acc + length conns)%nat -> w_stderr w' = w_stderr w).
Proof.
  induction conns as [|[s|e'] conns IH]; intros Hc w acc w' bs aq' Hfresh H;
    simpl in Hc, H; [| |discriminate].
  - injection H as <- <- <-. simpl. repeat split; lia.
  - destruct (start_bridge _ destaddr (w_nextfd w) _ _) as [r w1] eqn:E in H.
    pose proof Hfresh as (G0 & G1 & G2).
    apply start_bridge_frame in E as (F1 & _ & _ & _ & _ & _ & F5).
    2:{ repeat split; cbn; [lia| |exact G2].
        intros g Hg. rewrite lookup_insert_ne by lia. apply G1. lia. }
    apply (IH Hc) in H as (I1 & I2 & I3); [|exact F1].
    rewrite length_app in I2, I3. simpl length.
    destruct r as [b|]; cbn [length] in I2, I3.
    + split; [exact I1|]. split; [lia|]. intros Hl.
      rewrite I3 by lia. apply F5.
    + split; [exact I1|]. split; [lia|]. intros Hl. lia.
Qed.

(** C4, amended: when [accept4] fails, with whatever error and after
    however many connections of the same dispatch, the callback goes on
    as if the queue had run dry: the connections before the failure are
    handed to [start_bridge], the loop is left at once with the answers
    behind the failure still pending, and the failure itself leaves no
    line on standard error (standard error is as the connections before
    it left it, and untouched when each of them got its bridge).  The
    listener's watcher is returned as it was, and the listening socket
    stays open. *)
Theorem accept_error_leaves_loop (w : World) (destaddr : addrinfo) (watcher_ : ev_io)
    (flags : Z) (e : errno) (conns rest : list accept_event) :
  Z.land flags EV_ERROR = 0 ->
  fresh_world w ->
  forallb is_connection conns = true ->
  w_pending w !! fd watcher_ = Some (conns ++ AErr e :: rest) ->
  exists w1 bridges,
    accept_loop conns w destaddr [] = (w1, bridges, []) /\
    accept_cb w destaddr watcher_ flags =
      (set_pending (<[fd watcher_ := rest]> (w_pending w)) w1, watcher_, bridges) /\
    (length bridges <= length conns)%nat /\
    (length bridges = length conns -> w_stderr w1 = w_stderr w) /\
    (fd watcher_ < w_nextfd w -> w_socks w1 !! fd watcher_ = w_socks w !! fd watcher_).
Proof.
  intros Hflags Hfresh Hc Hq.
  destruct (accept_loop conns w destaddr []) as [[w1 bs] aq'] eqn:E.
  pose proof (accept_loop_stderr _ _ Hc _ _ _ _ _ Hfresh E) as (-> & Hlen & Herr).
  pose proof (accept_loop_accounted _ _ _ _ _ _ _ Hfresh E)
    as (_ & Hp & _ & _ & _ & _ & new & _ & A1 & _).
  exists w1, bs. split; [reflexivity|]. split.
  - unfold accept_cb. rewrite Hflags, Hq. change (negb (0 =? 0)) with false.
    cbv beta iota. unfold default; cbn [from_option id].
    rewrite (accept_loop_error _ _ _ _ Hc), E, Hp.
    reflexivity.
  - split; [exact Hlen|]. split; [exact Herr|]. intros Hlt. now apply A1.
Qed.

Lemma accept_error_leaves_loop_witness :
  exists w1 bridges,
    accept_loop [AConn (socket_with (mk_in 192 0 2 9 8080) client [] [] [])]
                world_accept_fails_later upstream [] = (w1, bridges, []) /\
    accept_cb world_accept_fails_later upstream (listener_at 3) EV_READ =
      (set_pending (<[3 := [AConn blank_socket]]> (w_pending world_accept_fails_later)) w1,
       listener_at 3, bridges) /\
    length bridges = 1%nat /\ w_stderr w1 = [].
Proof.
  destruct (accept_error_leaves_loop world_accept_fails_later upstream (listener_at 3)
              EV_READ EMFILE
              [AConn (socket_with (mk_in 192 0 2 9 8080) client [] [] [])]
              [AConn blank_socket])
    as (w1 & bridges & H1 & H2 & H3 & H4 & _);
    [reflexivity | apply fresh_worldb_sound; vm_compute; reflexivity
    | reflexivity | reflexivity |].
  assert (Hl : length bridges = 1%nat).
  { pose proof (f_equal (fun r => length r.1.2) H1) as Hl. cbv beta in Hl.
    cbn [fst snd] in Hl. rewrite <- Hl. vm_compute. reflexivity. }
  exists w1, bridges. split; [exact H1|]. split; [exact H2|]. split; [exact Hl|].
  now apply H4.
Defined.

(** ** Connecting to the destination *)

(** X7: what [bridge_init] watches depends on how [connect] ended.  A
    bridge that [bridge_init] returns has [connectedToDestination] set
    exactly when the connect loop (which repeats [connect] on [EINTR])
    ended with success rather than [EINPROGRESS]; the destination watcher
    is always started, for reading when connected and for writing only
    when the connection is still in progress; the source watcher is
    started, for reading, only when connected, so nothing is read from the
    client before the destination connection stands.  Both directions
    start as not at end-of-file and flushed. *)
Theorem bridge_init_watches_by_connect_outcome (w : World) (destaddr : addrinfo)
    (srcfd srcaddrlen : Z) (srcaddr : sockaddr) (b : Bridge) (w' : World) :
  bridge_init w destaddr srcfd srcaddrlen srcaddr = (Some b, w') ->
  (connect_loop (s_cq (hd blank_socket (w_dial w)))).1 = Some (connectedToDestination b) /\
  active (destwatcher b) = true /\
  events (destwatcher b) = (if connectedToDestination b then EV_READ else EV_WRITE) /\
  active (srcwatcher b) = connectedToDestination b /\
  (connectedToDestination b = true -> events (srcwatcher b) = EV_READ) /\
  eofFromSource b = false /\ eofFromDestination b = false /\
  sourceFlushed b = true /\ destinationFlushed b = true.
Proof.
  unfold bridge_init. intros H.
  destruct (socket w) as [destfd w1] eqn:E1.
  apply socket_cases in E1 as (_ & _ & _ & _ & _ & _ & Hsock).
  destruct Hsock as [(-> & _) | (-> & _ & s1 & Fso1 & _ & _ & Hcq)]; [discriminate|].
  destruct (w_nextfd w <? 0); [discriminate|].
  rewrite Fso1, lookup_insert_eq, Hcq in H.
  destruct (connect_loop (s_cq (hd blank_socket (w_dial w)))) as [connected cq].
  cbv beta iota in H.
  destruct connected as [connected|]; [|discriminate].
  destruct (open_output_file _ srcaddrlen srcaddr) as [[[f1 p1]|] w3]; [|discriminate].
  destruct (getsockname w3 (w_nextfd w)) as [[rc a] w4].
  destruct (negb (rc =? 0)); [discriminate|].
  destruct (open_output_file w4 a.2 a.1) as [[[f2 p2]|] w5]; [|discriminate].
  destruct connected; cbv beta iota in H; injection H as <- <-; cbn;
    repeat split; discriminate.
Qed.

Lemma bridge_init_watches_by_connect_outcome_witness :
  exists b w',
    bridge_init world_dial upstream 4 16 client = (Some b, w') /\
    connectedToDestination b = false /\
    ((connect_loop (s_cq (hd blank_socket (w_dial world_dial)))).1
       = Some (connectedToDestination b) /\
     active (destwatcher b) = true /\
     events (destwatcher b) = (if connectedToDestination b then EV_READ else EV_WRITE) /\
     active (srcwatcher b) = connectedToDestination b /\
     (connectedToDestination b = true -> events (srcwatcher b) = EV_READ) /\
     eofFromSource b = false /\ eofFromDestination b = false /\
     sourceFlushed b = true /\ destinationFlushed b = true).
Proof.
  eexists _, _. split; [vm_compute; reflexivity|]. split; [reflexivity|].
  eapply (bridge_init_watches_by_connect_outcome world_dial upstream 4 16 client).
  vm_compute. reflexivity.
Defined.

Lemma bridge_del_stderr (w : World) (b : Bridge) :
  (length (w_stderr w) <= length (w_stderr (bridge_del w b).1.1))%nat.
Proof.
  unfold bridge_del, bridge_fini. cbn [fst].
  repeat match goal with
  | |- context [close_output_file ?x ?f] =>
    lazymatch goal with
    | _ : (length (w_stderr x) <= length (w_stderr (close_output_file x f)))%nat |- _ => fail
    | _ => pose proof (proj2 (proj2 (close_output_file_frame x f)))
    end
  | |- context [close_fd ?x ?g] =>
    lazymatch goal with
    | _ : (length (w_stderr x) <= length (w_stderr (close_fd x g)))%nat |- _ => fail
    | _ => pose proof (proj2 (proj2 (proj2 (proj2 (close_fd_frame x g)))))
    end
  end.
  lia.
Qed.

(** X8: the first event of a bridge whose connection was in progress
    settles the connection and moves no data.  With no error flag and
    [connectedToDestination] unset, [bridge_cb] asks for [SO_ERROR] on the
    watcher's descriptor.  When the call succeeds and reports 0, the
    bridge stays, now connected, with both watchers started, the
    destination watcher (and a source watcher that was not running) set
    to read events, and with every socket, stream, file and the error log
    untouched.  In every other case (the call fails, or reports an error)
    the bridge is freed, with a diagnostic written, both watchers stopped
    and both descriptors and both journal streams closed.  In both cases
    no cursor or flag of the transfer moves, no file is written and no
    [shutdown] is made. *)
Theorem connection_completion (w : World) (b : Bridge) (wh : which) (flags : Z) :
  Z.land flags EV_ERROR = 0 ->
  connectedToDestination b = false ->
  exists w' b' fate_,
    bridge_cb w b wh flags = Some (w', b', fate_) /\
    same_journals b b' /\ w_fs w' = w_fs w /\ w_shut w' = w_shut w /\
    if so_error_clear w (fd (watcher_of b wh)) then
      fate_ = Alive /\ connectedToDestination b' = true /\
      active (srcwatcher b') = true /\ active (destwatcher b') = true /\
      events (destwatcher b') = EV_READ /\
      (active (srcwatcher b) = false -> events (srcwatcher b') = EV_READ) /\
      w_socks w' = w_socks w /\ w_streams w' = w_streams w /\
      w_stderr w' = w_stderr w
    else
      fate_ = Freed /\ said w w' /\
      active (srcwatcher b') = false /\ active (destwatcher b') = false /\
      w_socks w' = delete (fd (destwatcher b)) (delete (fd (srcwatcher b)) (w_socks w)) /\
      w_streams w' = delete (destFile b) (delete (srcFile b) (w_streams w)).
Proof.
  intros Hflags Hconn. unfold bridge_cb. rewrite Hflags, Hconn.
  change (negb (0 =? 0)) with false. cbv beta iota. simpl negb. cbv beta iota.
  assert (Hdel : forall (msg : string) (w0 : World),
    w_fs w0 = w_fs w -> w_shut w0 = w_shut w -> w_socks w0 = w_socks w ->
    w_streams w0 = w_streams w -> w_stderr w0 = w_stderr w ->
    exists w' b' fate_,
      Some (bridge_del (elog msg w0) b) = Some (w', b', fate_) /\
      same_journals b b' /\ w_fs w' = w_fs w /\ w_shut w' = w_shut w /\
      (fate_ = Freed /\ said w w' /\
       active (srcwatcher b') = false /\ active (destwatcher b') = false /\
       w_socks w' = delete (fd (destwatcher b)) (delete (fd (srcwatcher b)) (w_socks w)) /\
       w_streams w' = delete (destFile b) (delete (srcFile b) (w_streams w)))).
  { intros msg w0 K1 K2 K3 K4 K5.
    pose proof (bridge_del_stderr (elog msg w0) b) as Herr.
    destruct (bridge_del_spec (elog msg w0) b) as (w2 & b2 & E & -> & Hso & Hst & Hfs & Hsh).
    rewrite E in Herr |- *. cbn [fst] in Herr.
    change (w_stderr (elog msg w0)) with (w_stderr w0 ++ [msg]) in Herr.
    rewrite length_app, K5 in Herr. cbn [length] in Herr.
    eexists w2, _, Freed. split; [reflexivity|].
    split; [repeat split|]. split; [exact (eq_trans Hfs K1)|].
    split; [exact (eq_trans Hsh K2)|].
    split; [reflexivity|]. split; [unfold said; lia|].
    split; [reflexivity|]. split; [reflexivity|].
    split; [rewrite Hso; cbn; now rewrite K3 | rewrite Hst; cbn; now rewrite K4]. }
  unfold so_error_clear, complete_connection, getsockopt_so_error, next_fault.
  cbv beta iota.
  set (w0 := set_faults (tail (w_faults w)) w).
  destruct (match w_faults w with [] => None | r :: _ => r end).
  { change (negb (-1 =? 0)) with true. cbv beta iota.
    change ((-1 =? 0) && (0 =? 0)) with false. cbv beta iota.
    destruct (Hdel "Unable to obtain connection completion information for socket %d: %s"
                w0 eq_refl eq_refl eq_refl eq_refl eq_refl)
      as (w' & b' & f & E & H1 & H2 & H3 & H4).
    exists w', b', f. repeat split; try assumption; apply H1 || apply H4. }
  change (w_socks w0) with (w_socks w).
  destruct (w_socks w !! fd (watcher_of b wh)) as [s|] eqn:Es.
  2:{ change (negb (-1 =? 0)) with true. cbv beta iota.
      change ((-1 =? 0) && (0 =? 0)) with false. cbv beta iota.
      destruct (Hdel "Unable to obtain connection completion information for socket %d: %s"
                  w0 eq_refl eq_refl eq_refl eq_refl eq_refl)
        as (w' & b' & f & E & H1 & H2 & H3 & H4).
      exists w', b', f. repeat split; try assumption; apply H1 || apply H4. }
  change (negb (0 =? 0)) with false. cbv beta iota.
  change ((0 =? 0) && (s_soerr s =? 0)) with (s_soerr s =? 0).
  destruct (s_soerr s =? 0).
  - eexists _, _, _. split; [reflexivity|].
    split; [repeat split; cbn; rewrite ?fd_ev_io_start; reflexivity|].
    split; [reflexivity|]. split; [reflexivity|].
    cbn. unfold ev_io_start at 2. cbn.
    repeat split.
    + unfold ev_io_start. cbn.
      destruct (active (srcwatcher b)) eqn:Ha; cbn; [exact Ha | reflexivity].
    + intros Hact. unfold ev_io_start. cbn. now rewrite Hact.
  - destruct (Hdel "Unable to complete connection for socket %d: %s"
                w0 eq_refl eq_refl eq_refl eq_refl eq_refl)
      as (w' & b' & f & E & H1 & H2 & H3 & H4).
    exists w', b', f. repeat split; try assumption; apply H1 || apply H4.
Qed.

Lemma connection_completion_witness :
  Z.land EV_WRITE EV_ERROR = 0 /\ connectedToDestination bridge_pending = false /\
  so_error_clear (world_bridged [] [] [] []) (fd (watcher_of bridge_pending DestWatcher))
    = true /\
  exists w' b' fate_,
    bridge_cb (world_bridged [] [] [] []) bridge_pending DestWatcher EV_WRITE
      = Some (w', b', fate_) /\
    same_journals bridge_pending b' /\ w_fs w' = w_fs (world_bridged [] [] [] []) /\
    w_shut w' = w_shut (world_bridged [] [] [] []) /\
    fate_ = Alive /\ connectedToDestination b' = true /\
    active (srcwatcher b') = true /\ active (destwatcher b') = true /\
    events (destwatcher b') = EV_READ /\
    (active (srcwatcher bridge_pending) = false -> events (srcwatcher b') = EV_READ) /\
    w_socks w' = w_socks (world_bridged [] [] [] []) /\
    w_streams w' = w_streams (world_bridged [] [] [] []) /\
    w_stderr w' = w_stderr (world_bridged [] [] [] []).
Proof.
  split; [reflexivity|]. split; [reflexivity|]. split; [reflexivity|].
  exact (connection_completion (world_bridged [] [] [] []) bridge_pending DestWatcher
           EV_WRITE eq_refl eq_refl).
Defined.

(** ** What goes into a journal and what comes out *)

Lemma read_into_file_loop_incoming (f : nat) (name : string) :
  forall (rq : list read_event) (w : World) (count : nat)
         (rc : Z) (count' : nat) (rq' : list read_event) (w' : World),
    stream_name w f = Some name ->
    read_into_file_loop rq w f count = (rc, count', rq', w') ->
    exists data rest, incoming rq = data ++ rest /\
      count' = (count + length data)%nat /\ appended w w' name data /\
      (rc <> FILE_ERROR -> rest = []).
Proof.
  induction rq as [|ev rq IH]; intros w count rc count' rq' w' Hname H; simpl in H.
  - injection H as <- <- <- <-. exists [], []. simpl.
    repeat split; [lia | now apply appended_nil].
  - destruct ev as [bs|e]; simpl incoming.
    + destruct (take FILE_BUFSIZE bs) as [|c buf] eqn:Hbuf.
      { simpl in H. injection H as <- <- <- <-. exists [], []. simpl.
        repeat split; [lia | now apply appended_nil]. }
      change (length (c :: buf) =? 0)%nat with false in H. cbv beta iota in H.
      destruct (fwrite w f (c :: buf)) as [ok w1] eqn:E.
      apply fwrite_spec in E as (Hs & Hsh & Hn & Hok & Hfail).
      destruct ok; simpl in H.
      * destruct (Hok eq_refl) as (name0 & Hn0 & Happ).
        assert (name0 = name) by congruence. subst name0.
        apply IH in H; [|now rewrite Hn].
        destruct H as (data & rest & Hin & -> & Happ2 & Hrest).
        exists ((c :: buf) ++ data), rest. rewrite Hin.
        split; [now rewrite <- app_assoc|].
        split; [rewrite length_app; cbn [length]; lia|].
        split; [eapply appended_trans; eassumption | exact Hrest].
      * injection H as <- <- <- <-. exists [], ((c :: buf) ++ incoming rq).
        split; [reflexivity|]. split; [simpl; lia|].
        split; [apply appended_nil; auto | intros Hne; now destruct Hne].
    + destruct (errno_eqb e EINTR); [eapply IH; eassumption|].
      destruct (would_block e); injection H as <- <- <- <-;
        exists [], []; simpl; (repeat split; [lia | now apply appended_nil]).
Qed.

Lemma set_rq_lookup (fd_ : Z) (rq : list read_event) (w : World) (g : Z) :
  sent_on (set_rq fd_ rq w) g = sent_on w g /\
  (g <> fd_ -> w_socks (set_rq fd_ rq w) !! g = w_socks w !! g).
Proof.
  unfold set_rq, sent_on. destruct (w_socks w !! fd_) as [s|] eqn:Hs; [|split; reflexivity].
  cbn. destruct (decide (fd_ = g)) as [<-|Hne].
  - rewrite lookup_insert_eq, Hs. split; [reflexivity | congruence].
  - rewrite lookup_insert_ne by exact Hne. split; reflexivity.
Qed.

(** In the model, where a journal stream has no buffer of its own,
    [read_into_file] appends to the journal the bytes the socket delivers
    up to its first end-of-file, would-block or error answer; only with
    [FILE_ERROR] may a tail of them be missing. *)
Lemma read_into_file_incoming (w : World) (fd_ : Z) (f : nat)
    (name : string) (s : Socket) (rc : Z) (count : nat) (w' : World) :
  w_socks w !! fd_ = Some s ->
  stream_name w f = Some name ->
  read_into_file w fd_ f = (rc, count, w') ->
  exists data rest,
    incoming (s_rq s) = data ++ rest /\ (rc <> FILE_ERROR -> rest = []) /\
    appended w w' name data /\ count = length data /\
    (forall g, sent_on w' g = sent_on w g).
Proof.
  intros Hs Hname H. unfold read_into_file in H. rewrite Hs in H.
  destruct (read_into_file_loop (s_rq s) w f 0) as [[[rc1 count1] rq1] w1] eqn:E.
  injection H as <- <- <-.
  pose proof E as E'.
  apply (read_into_file_loop_spec f name) in E' as (Hso & _); [|exact Hname].
  apply (read_into_file_loop_incoming f name) in E
    as (data & rest & Hin & -> & Happ & Hrest); [|exact Hname].
  destruct (set_rq_files fd_ rq1 w1) as (Ffs & _).
  exists data, rest. repeat split; try assumption.
  - intros n. unfold file_bytes. rewrite Ffs. apply Happ.
  - intros g. rewrite (proj1 (set_rq_lookup fd_ rq1 w1 g)). unfold sent_on.
    now rewrite Hso.
Qed.


Lemma set_wq_sent_other (fd_ : Z) (wq : list write_event) (sent : list Byte.byte)
    (w : World) (g : Z) :
  g <> fd_ -> w_socks (set_wq_sent fd_ wq sent w) !! g = w_socks w !! g.
Proof.
  intros Hne. unfold set_wq_sent. destruct (w_socks w !! fd_); [|reflexivity].
  cbn. now rewrite lookup_insert_ne by congruence.
Qed.

(** [write_from_file] leaves every other descriptor alone. *)
Lemma write_from_file_others (w : World) (fd_ : Z) (f : nat) (name : string) (pos : nat)
    (rc : Z) (pos' : nat) (w' : World) :
  stream_name w f = Some name ->
  write_from_file w fd_ f pos = Some (rc, pos', w') ->
  forall g, g <> fd_ -> w_socks w' !! g = w_socks w !! g.
Proof.
  intros Hname H g Hne. unfold write_from_file in H.
  destruct (fsetpos w f pos) as [rc1 w1] eqn:E1.
  apply fsetpos_spec in E1 as (K1 & R1 & P1).
  destruct R1 as [-> | ->]; [change (negb (0 =? 0)) with false in H
                           |change (negb (-1 =? 0)) with true in H];
    cbv beta iota in H.
  2:{ injection H as <- <- <-. destruct K1 as (_ & Hso & _). cbn. now rewrite Hso. }
  specialize (P1 eq_refl).
  assert (Hname1 : stream_name w1 f = Some name)
    by (destruct K1 as (_ & _ & _ & _ & Hn); now rewrite Hn).
  destruct (match w_socks w1 !! fd_ with
            | Some s => (s_wq s, s_sent s)
            | None => ([WErr EBADF], [])
            end) as [wq sent0] eqn:Es.
  cbv beta iota in H.
  destruct (write_from_file_loop (S (length wq)) wq w1 f pos sent0)
    as [[[[[rc2 p2] wq2] sent2] w2]|] eqn:E2; cbv beta iota in H; [|discriminate].
  injection H as <- <- <-.
  apply (write_from_file_loop_spec f name) in E2; [|assumption..].
  destruct E2 as (K2 & _).
  rewrite set_wq_sent_other by exact Hne.
  destruct K2 as (_ & -> & _). destruct K1 as (_ & -> & _). reflexivity.
Qed.

(** X10: a replay puts on the socket exactly the journal bytes the
    cursor passes.  When [write_from_file], started at a cursor inside an
    open journal, does not fail, the bytes the socket has taken grow by
    the journal's bytes from the old cursor up to the new one, in order
    and without gap or repetition; the cursor does not go back and stays
    inside the journal; with [FILE_EOF] the cursor is at the end, so every
    byte from the old cursor on was delivered.  The files and every other
    socket are left as they were. *)
Theorem replay_delivers_cursor_span (w : World) (fd_ : Z) (f : nat) (name : string)
    (pos : nat) (sent : list Byte.byte) (rc : Z) (pos' : nat) (w' : World) :
  stream_name w f = Some name ->
  (pos <= length (file_bytes w name))%nat ->
  sent_on w fd_ = Some sent ->
  write_from_file w fd_ f pos = Some (rc, pos', w') ->
  rc <> FILE_ERROR ->
  sent_on w' fd_ = Some (sent ++ take (pos' - pos) (drop pos (file_bytes w name))) /\
  (pos <= pos' <= length (file_bytes w name))%nat /\
  (rc = FILE_EOF ->
   pos' = length (file_bytes w name) /\
   sent_on w' fd_ = Some (sent ++ drop pos (file_bytes w name))) /\
  w_fs w' = w_fs w /\
  (forall g, g <> fd_ -> w_socks w' !! g = w_socks w !! g).
Proof.
  intros Hname Hpos Hsent H Hrc.
  pose proof (write_from_file_others _ _ _ _ _ _ _ _ Hname H) as Hoth.
  apply (write_from_file_spec _ _ _ name) in H; [|exact Hname].
  destruct H as (Hfs & _ & _ & Hle & _ & Hin & _ & Heof & Hs).
  specialize (Hs Hrc sent Hsent). specialize (Hin Hpos).
  split; [exact Hs|]. split; [lia|]. split; [|split; [exact Hfs | exact Hoth]].
  intros ->. specialize (Heof eq_refl Hpos). split; [exact Heof|].
  rewrite Hs, Heof. f_equal. f_equal. apply take_ge. rewrite length_drop. lia.
Qed.

Lemma replay_delivers_cursor_span_witness :
  exists rc pos' w',
    write_from_file world_replay 5 0 3 = Some (rc, pos', w') /\
    pos' = 7%nat /\
    sent_on w' 5 = Some ([] ++ take (pos' - 3) (drop 3 (file_bytes world_replay
                                                       "127.0.0.1:54321"))).
Proof.
  eexists _, _, _. split; [vm_compute; reflexivity|]. split; [reflexivity|].
  eapply (replay_delivers_cursor_span world_replay 5 0 "127.0.0.1:54321" 3 []).
  - reflexivity.
  - vm_compute. lia.
  - reflexivity.
  - vm_compute. reflexivity.
  - vm_compute. discriminate.
Defined.

(** ** One dispatch of an established bridge *)

Lemma sent_on_socks (w w' : World) (g : Z) :
  w_socks w' !! g = w_socks w !! g -> sent_on w' g = sent_on w g.
Proof. unfold sent_on. now intros ->. Qed.

Lemma read_into_file_socks (w : World) (fd_ : Z) (f : nat) (name : string)
    (rc : Z) (count : nat) (w' : World) :
  stream_name w f = Some name ->
  read_into_file w fd_ f = (rc, count, w') ->
  (forall g, sent_on w' g = sent_on w g) /\
  (forall g, g <> fd_ -> w_socks w' !! g = w_socks w !! g).
Proof.
  intros Hname H. unfold read_into_file in H.
  destruct (read_into_file_loop _ w f 0) as [[[rc1 count1] rq1] w1] eqn:E.
  injection H as <- <- <-.
  apply (read_into_file_loop_spec f name) in E as (Hso & _); [|exact Hname].
  split; intros g.
  - rewrite (proj1 (set_rq_lookup fd_ rq1 w1 g)). unfold sent_on. now rewrite Hso.
  - intros Hne. rewrite (proj2 (set_rq_lookup fd_ rq1 w1 g) Hne). now rewrite Hso.
Qed.

Lemma shutdown_logged_socks (w : World) (fd_ how : Z) (msg : string) (rc : Z)
    (w1 : World) :
  shutdown w fd_ how = (rc, w1) ->
  w_socks (if negb (rc =? 0) then elog msg w1 else w1) = w_socks w.
Proof.
  intros H. apply (shutdown_logged_spec _ _ _ msg) in H. cbv zeta in H. apply H.
Qed.

Lemma read_side_socks (w : World) (fd_ : Z) (f : nat) (name : string) (eof : bool)
    (rc : Z) (count : nat) (w' : World) :
  stream_name w f = Some name ->
  (if negb eof then read_into_file w fd_ f else (0, 0%nat, w)) = (rc, count, w') ->
  (forall g, sent_on w' g = sent_on w g) /\
  (forall g, g <> fd_ -> w_socks w' !! g = w_socks w !! g).
Proof.
  intros Hname H. destruct (negb eof).
  - eapply read_into_file_socks; eassumption.
  - injection H as <- <- <-. split; reflexivity.
Qed.

Lemma read_source_socks (w : World) (b : Bridge) (ns : string)
    (ok : bool) (count : nat) (w' : World) (b' : Bridge) :
  stream_name w (srcFile b) = Some ns ->
  read_source w b = (ok, count, w', b') ->
  (forall g, sent_on w' g = sent_on w g) /\
  (forall g, g <> fd (srcwatcher b) -> w_socks w' !! g = w_socks w !! g).
Proof.
  intros Hname H. unfold read_source in H.
  destruct (if negb (eofFromSource b) then _ else _) as [[rc c] w1] eqn:E in H.
  apply (read_side_socks _ _ _ ns) in E as (S1 & O1); [|exact Hname].
  destruct (rc =? FILE_ERROR); [injection H as <- <- <- <-; split; assumption|].
  destruct (rc =? FILE_EOF); [|injection H as <- <- <- <-; split; assumption].
  destruct (shutdown w1 _ SHUT_RD) as [rc2 w2] eqn:E2.
  injection H as <- <- <- <-.
  apply (shutdown_logged_socks _ _ _ "Unable to shutdown source %d for reading: %s")
    in E2.
  split; intros g.
  - rewrite <- S1. apply sent_on_socks. now rewrite E2.
  - intros Hne. rewrite E2. now apply O1.
Qed.

Lemma read_destination_socks (w : World) (b : Bridge) (nd : string)
    (ok : bool) (count : nat) (w' : World) (b' : Bridge) :
  stream_name w (destFile b) = Some nd ->
  read_destination w b = (ok, count, w', b') ->
  (forall g, sent_on w' g = sent_on w g) /\
  (forall g, g <> fd (destwatcher b) -> w_socks w' !! g = w_socks w !! g).
Proof.
  intros Hname H. unfold read_destination in H.
  destruct (if negb (eofFromDestination b) then _ else _) as [[rc c] w1] eqn:E in H.
  apply (read_side_socks _ _ _ nd) in E as (S1 & O1); [|exact Hname].
  destruct (rc =? FILE_ERROR); [injection H as <- <- <- <-; split; assumption|].
  destruct (rc =? FILE_EOF); [|injection H as <- <- <- <-; split; assumption].
  destruct (shutdown w1 _ SHUT_RD) as [rc2 w2] eqn:E2.
  injection H as <- <- <- <-.
  apply (shutdown_logged_socks _ _ _ "Unable to shutdown destination %d for reading: %s")
    in E2.
  split; intros g.
  - rewrite <- S1. apply sent_on_socks. now rewrite E2.
  - intros Hne. rewrite E2. now apply O1.
Qed.

(** The replay step of either direction, on its socket [fd_], journal
    stream [f] and cursor [pos]. *)
Lemma replay_side_socks (w : World) (fd_ : Z) (f : nat) (name : string) (pos : nat)
    (skip : bool) (rc : Z) (pos' : nat) (w' : World) :
  stream_name w f = Some name ->
  (pos <= length (file_bytes w name))%nat ->
  (if skip then Some (FILE_EOF, pos, w) else write_from_file w fd_ f pos)
    = Some (rc, pos', w') ->
  (rc <> FILE_ERROR -> forall sent, sent_on w fd_ = Some sent ->
   sent_on w' fd_ = Some (sent ++ take (pos' - pos) (drop pos (file_bytes w name)))) /\
  (forall g, g <> fd_ -> w_socks w' !! g = w_socks w !! g).
Proof.
  intros Hname Hpos H. destruct skip.
  - injection H as <- <- <-. split; [|reflexivity].
    intros _ sent ->. now rewrite Nat.sub_diag, take_0, app_nil_r.
  - split.
    + apply (write_from_file_spec _ _ _ name) in H; [|exact Hname]. apply H.
    + eapply write_from_file_others; eassumption.
Qed.

Lemma bridge_source_socks (w : World) (b : Bridge) (count : nat) (ns : string)
    (w' : World) (b' : Bridge) :
  stream_name w (srcFile b) = Some ns ->
  bridge_source w b count = Some (true, w', b') ->
  (forall sent, sent_on w (fd (destwatcher b)) = Some sent ->
   sent_on w' (fd (destwatcher b))
     = Some (sent ++ take (srcPos b' - srcPos b) (drop (srcPos b) (file_bytes w ns)))) /\
  (forall g, g <> fd (destwatcher b) -> w_socks w' !! g = w_socks w !! g).
Proof.
  intros Hname H. unfold bridge_source in H.
  destruct (negb (sourceFlushed b) || (0 <? count)%nat).
  - destruct (write_from_file w (fd (destwatcher b)) (srcFile b) (srcPos b))
      as [[[rc pos'] w1]|] eqn:E; [|discriminate].
    pose proof (write_from_file_others _ _ _ _ _ _ _ _ Hname E) as Hoth.
    apply (write_from_file_spec _ _ _ ns) in E; [|exact Hname].
    destruct E as (_ & _ & _ & _ & Hrc & _ & _ & _ & Hs).
    unfold mbind, option_bind in H. cbv beta iota in H.
    destruct Hrc as [-> | [-> | ->]];
      [change (0 =? FILE_ERROR) with false in H; change (0 =? FILE_EOF) with false in H
      |change (FILE_EOF =? FILE_ERROR) with false in H;
       change (FILE_EOF =? FILE_EOF) with true in H
      |change (FILE_ERROR =? FILE_ERROR) with true in H]; cbv beta iota in H;
      [| |discriminate].
    + injection H as <- <-. cbn [srcPos set_sourceFlushed set_srcPos].
      split; [apply Hs; discriminate | exact Hoth].
    + destruct (eofFromSource (set_sourceFlushed true (set_srcPos pos' b))).
      * destruct (shutdown w1 _ SHUT_WR) as [rc2 w2] eqn:E2.
        injection H as <- <-. cbn [srcPos set_sourceFlushed set_srcPos].
        apply (shutdown_logged_socks _ _ _
                 "Unable to shutdown destination %d for writing: %s") in E2.
        split.
        -- intros sent Hsent. rewrite <- (Hs ltac:(discriminate) sent Hsent).
           apply sent_on_socks. now rewrite E2.
        -- intros g Hne. rewrite E2. now apply Hoth.
      * injection H as <- <-. cbn [srcPos set_sourceFlushed set_srcPos].
        split; [apply Hs; discriminate | exact Hoth].
  - unfold mbind, option_bind in H. cbv beta iota in H.
    change (FILE_EOF =? FILE_ERROR) with false in H.
    change (FILE_EOF =? FILE_EOF) with true in H. cbv beta iota in H.
    destruct (eofFromSource (set_sourceFlushed true b)).
    + destruct (shutdown w _ SHUT_WR) as [rc2 w2] eqn:E2.
      injection H as <- <-. cbn [srcPos set_sourceFlushed].
      apply (shutdown_logged_socks _ _ _
               "Unable to shutdown destination %d for writing: %s") in E2.
      rewrite Nat.sub_diag, take_0. split.
      * intros sent Hsent. rewrite app_nil_r, <- Hsent.
        apply sent_on_socks. now rewrite E2.
      * intros g _. now rewrite E2.
    + injection H as <- <-. cbn [srcPos set_sourceFlushed].
      rewrite Nat.sub_diag, take_0. split; [|reflexivity].
      intros sent ->. now rewrite app_nil_r.
Qed.

Lemma bridge_destination_socks (w : World) (b : Bridge) (count : nat) (nd : string)
    (w' : World) (b' : Bridge) :
  stream_name w (destFile b) = Some nd ->
  bridge_destination w b count = Some (true, w', b') ->
  (forall sent, sent_on w (fd (srcwatcher b)) = Some sent ->
   sent_on w' (fd (srcwatcher b))
     = Some (sent ++ take (destPos b' - destPos b) (drop (destPos b) (file_bytes w nd)))) /\
  (forall g, g <> fd (srcwatcher b) -> w_socks w' !! g = w_socks w !! g).
Proof.
  intros Hname H. unfold bridge_destination in H.
  destruct (negb (destinationFlushed b) || (0 <? count)%nat).
  - destruct (write_from_file w (fd (srcwatcher b)) (destFile b) (destPos b))
      as [[[rc pos'] w1]|] eqn:E; [|discriminate].
    pose proof (write_from_file_others _ _ _ _ _ _ _ _ Hname E) as Hoth.
    apply (write_from_file_spec _ _ _ nd) in E; [|exact Hname].
    destruct E as (_ & _ & _ & _ & Hrc & _ & _ & _ & Hs).
    unfold mbind, option_bind in H. cbv beta iota in H.
    destruct Hrc as [-> | [-> | ->]];
      [change (0 =? FILE_ERROR) with false in H; change (0 =? FILE_EOF) with false in H
      |change (FILE_EOF =? FILE_ERROR) with false in H;
       change (FILE_EOF =? FILE_EOF) with true in H
      |change (FILE_ERROR =? FILE_ERROR) with true in H]; cbv beta iota in H;
      [| |discriminate].
    + injection H as <- <-. cbn [destPos set_destinationFlushed set_destPos].
      split; [apply Hs; discriminate | exact Hoth].
    + destruct (eofFromDestination (set_destinationFlushed true (set_destPos pos' b))).
      * destruct (shutdown w1 _ SHUT_WR) as [rc2 w2] eqn:E2.
        injection H as <- <-. cbn [destPos set_destinationFlushed set_destPos].
        apply (shutdown_logged_socks _ _ _
                 "Unable to shutdown source %d for writing: %s") in E2.
        split.
        -- intros sent Hsent. rewrite <- (Hs ltac:(discriminate) sent Hsent).
           apply sent_on_socks. now rewrite E2.
        -- intros g Hne. rewrite E2. now apply Hoth.
      * injection H as <- <-. cbn [destPos set_destinationFlushed set_destPos].
        split; [apply Hs; discriminate | exact Hoth].
  - unfold mbind, option_bind in H. cbv beta iota in H.
    change (FILE_EOF =? FILE_ERROR) with false in H.
    change (FILE_EOF =? FILE_EOF) with true in H. cbv beta iota in H.
    destruct (eofFromDestination (set_destinationFlushed true b)).
    + destruct (shutdown w _ SHUT_WR) as [rc2 w2] eqn:E2.
      injection H as <- <-. cbn [destPos set_destinationFlushed].
      apply (shutdown_logged_socks _ _ _
               "Unable to shutdown source %d for writing: %s") in E2.
      rewrite Nat.sub_diag, take_0. split.
      * intros sent Hsent. rewrite app_nil_r, <- Hsent.
        apply sent_on_socks. now rewrite E2.
      * intros g _. now rewrite E2.
    + injection H as <- <-. cbn [destPos set_destinationFlushed].
      rewrite Nat.sub_diag, take_0. split; [|reflexivity].
      intros sent ->. now rewrite app_nil_r.
Qed.

(** The four transfer steps, when none of them fails: what the journals
    gain and what the two sockets are given. *)
Lemma perform_operation_relays (ns nd : string) (w : World) (b : Bridge)
    (w' : World) (b' : Bridge) :
  drained_inv ns nd w b ->
  perform_operation w b = Some (true, w', b') ->
  exists from_src from_dest,
    (forall n, file_bytes w' n =
       if decide (n = ns) then file_bytes w n ++ from_src
       else if decide (n = nd) then file_bytes w n ++ from_dest
       else file_bytes w n) /\
    (srcPos b <= srcPos b')%nat /\ (destPos b <= destPos b')%nat /\
    (forall sent, sent_on w (fd (destwatcher b)) = Some sent ->
     sent_on w' (fd (destwatcher b))
       = Some (sent ++ take (srcPos b' - srcPos b)
                         (drop (srcPos b) (file_bytes w' ns)))) /\
    (forall sent, sent_on w (fd (srcwatcher b)) = Some sent ->
     sent_on w' (fd (srcwatcher b))
       = Some (sent ++ take (destPos b' - destPos b)
                         (drop (destPos b) (file_bytes w' nd)))) /\
    (forall g, g <> fd (srcwatcher b) -> g <> fd (destwatcher b) ->
     w_socks w' !! g = w_socks w !! g).
Proof.
  intros ((Hs & Hd) & Hne & Hfd & _) H. unfold perform_operation in H.
  (* Read source *)
  destruct (read_source w b) as [[[ok1 c1] w1] b1] eqn:E1.
  pose proof (read_source_socks _ _ ns _ _ _ _ Hs E1) as (S1 & O1).
  apply (read_source_spec _ _ ns) in E1 as (N1 & (d1 & -> & A1) & B1); [|exact Hs].
  assert (Hb1 : srcFile b1 = srcFile b /\ destFile b1 = destFile b /\
                srcPos b1 = srcPos b /\ destPos b1 = destPos b /\
                fd (srcwatcher b1) = fd (srcwatcher b) /\
                fd (destwatcher b1) = fd (destwatcher b))
    by (destruct B1 as [(-> & _) | (-> & _)]; repeat split).
  clear B1. destruct Hb1 as (Hsf1 & Hdf1 & Hsp1 & Hdp1 & Hsw1 & Hdw1).
  destruct ok1; simpl negb in H; cbv beta iota in H; [|discriminate].
  (* bridge source to destination *)
  destruct (bridge_source w1 b1 (length d1)) as [[[ok2 w2] b2]|] eqn:E2; [|discriminate].
  unfold mbind, option_bind in H. cbv beta iota in H.
  destruct ok2; simpl negb in H; cbv beta iota in H; [|discriminate].
  assert (Hs1 : stream_name w1 (srcFile b1) = Some ns) by (rewrite Hsf1, N1; exact Hs).
  pose proof (bridge_source_socks _ _ _ ns _ _ Hs1 E2) as (S2 & O2).
  apply (bridge_source_spec _ _ _ ns) in E2
    as (N2 & FS2 & p2 & fl2 & Hb2 & Hle2 & _); [|exact Hs1].
  assert (Hb2' : srcFile b2 = srcFile b /\ destFile b2 = destFile b /\
                 srcPos b2 = p2 /\ destPos b2 = destPos b /\
                 fd (srcwatcher b2) = fd (srcwatcher b) /\
                 fd (destwatcher b2) = fd (destwatcher b))
    by (rewrite Hb2; cbn; repeat split; assumption).
  destruct Hb2' as (Hsf2 & Hdf2 & Hsp2 & Hdp2 & Hsw2 & Hdw2).
  rewrite Hsp2 in S2. clear Hb2.
  (* read destination *)
  destruct (read_destination w2 b2) as [[[ok3 c3] w3] b3] eqn:E3.
  assert (Hd2 : stream_name w2 (destFile b2) = Some nd)
    by (rewrite Hdf2, N2, N1; exact Hd).
  pose proof (read_destination_socks _ _ nd _ _ _ _ Hd2 E3) as (S3 & O3).
  apply (read_destination_spec _ _ nd) in E3 as (N3 & (d3 & -> & A3) & B3); [|exact Hd2].
  assert (Hb3 : srcFile b3 = srcFile b /\ destFile b3 = destFile b /\
                srcPos b3 = p2 /\ destPos b3 = destPos b /\
                fd (srcwatcher b3) = fd (srcwatcher b) /\
                fd (destwatcher b3) = fd (destwatcher b))
    by (destruct B3 as [(-> & _) | (-> & _)]; cbn; repeat split; assumption).
  clear B3. destruct Hb3 as (Hsf3 & Hdf3 & Hsp3 & Hdp3 & Hsw3 & Hdw3).
  destruct ok3; simpl negb in H; cbv beta iota in H; [|discriminate].
  (* bridge destination to source *)
  assert (Hd3 : stream_name w3 (destFile b3) = Some nd)
    by (rewrite Hdf3, N3, N2, N1; exact Hd).
  pose proof (bridge_destination_socks _ _ _ nd _ _ Hd3 H) as (S4 & O4).
  apply (bridge_destination_spec _ _ _ nd) in H
    as (N4 & FS4 & p4 & fl4 & Hb4 & Hle4 & _); [|exact Hd3].
  assert (Hb4' : srcPos b' = p2 /\ destPos b' = p4)
    by (rewrite Hb4; cbn; split; [assumption | reflexivity]).
  destruct Hb4' as (Hsp4 & Hdp4). rewrite Hdp4 in S4. clear Hb4.
  rewrite Hsp1, Hdw1 in S2. rewrite Hdw1 in O2. rewrite Hdw2 in O3.
  rewrite Hdp3, Hsw3 in S4. rewrite Hsw3 in O4.
  rewrite Hsp1 in Hle2. rewrite Hdp3 in Hle4.
  pose proof (file_bytes_fs _ _ FS2) as L2. pose proof (file_bytes_fs _ _ FS4) as L4.
  assert (Hfiles : forall n, file_bytes w' n =
            if decide (n = ns) then file_bytes w n ++ d1
            else if decide (n = nd) then file_bytes w n ++ d3 else file_bytes w n).
  { intros n. rewrite L4, (A3 n), L2, (A1 n).
    destruct (decide (n = ns)) as [En|En]; destruct (decide (n = nd)) as [En'|En'];
      try reflexivity. congruence. }
  exists d1, d3. split; [exact Hfiles|]. rewrite Hsp4, Hdp4.
  split; [exact Hle2|]. split; [exact Hle4|]. split; [|split].
  - intros sent Hsent. rewrite <- S1 in Hsent. apply S2 in Hsent.
    rewrite <- S3 in Hsent.
    rewrite (sent_on_socks w3 w') by (apply O4; congruence).
    rewrite Hsent. do 4 f_equal.
    rewrite (Hfiles ns), (A1 ns). now destruct (decide (ns = ns)).
  - intros sent Hsent. rewrite <- S1 in Hsent.
    rewrite <- (sent_on_socks w1 w2) in Hsent by (apply O2; congruence).
    rewrite <- S3 in Hsent. apply S4 in Hsent. rewrite Hsent. do 4 f_equal.
    symmetry. apply L4.
  - intros g Hg1 Hg2.
    rewrite O4, O3, O2, O1 by congruence. reflexivity.
Qed.

(** X11: one dispatch relays journal spans, in order, and touches nothing
    else.  When [bridge_cb] is entered in a dispatch boundary state and
    the bridge survives, then each of its two journals has only grown at
    its end and no other file has changed; neither cursor has gone back;
    the destination socket was given exactly the bytes of the source
    journal between the old and the new source cursor, the source socket
    exactly those of the destination journal between the old and the new
    destination cursor; and every descriptor other than the bridge's two
    is as it was. *)
Theorem dispatch_relays_journal_spans (ns nd : string) (w : World) (b : Bridge)
    (wh : which) (flags : Z) (w' : World) (b' : Bridge) :
  drained_inv ns nd w b ->
  bridge_cb w b wh flags = Some (w', b', Alive) ->
  exists from_src from_dest,
    (forall n, file_bytes w' n =
       if decide (n = ns) then file_bytes w n ++ from_src
       else if decide (n = nd) then file_bytes w n ++ from_dest
       else file_bytes w n) /\
    (srcPos b <= srcPos b')%nat /\ (destPos b <= destPos b')%nat /\
    (forall sent, sent_on w (fd (destwatcher b)) = Some sent ->
     sent_on w' (fd (destwatcher b))
       = Some (sent ++ take (srcPos b' - srcPos b)
                         (drop (srcPos b) (file_bytes w' ns)))) /\
    (forall sent, sent_on w (fd (srcwatcher b)) = Some sent ->
     sent_on w' (fd (srcwatcher b))
       = Some (sent ++ take (destPos b' - destPos b)
                         (drop (destPos b) (file_bytes w' nd)))) /\
    (forall g, g <> fd (srcwatcher b) -> g <> fd (destwatcher b) ->
     w_socks w' !! g = w_socks w !! g).
Proof.
  intros Hinv H.
  apply bridge_cb_shape in H as [Hep | (ok & w1 & b1 & Hop & Hep & Hok)].
  - destruct Hep as ((_ & _ & Hsp & Hdp & _) & _ & Hfs & Halive).
    destruct (Halive eq_refl) as (_ & Hso).
    exists [], []. rewrite Hsp, Hdp, !Nat.sub_diag.
    split; [|split; [lia|split; [lia|split; [|split]]]].
    + intros n. rewrite (file_bytes_fs _ _ Hfs), !app_nil_r.
      now destruct (decide (n = ns)), (decide (n = nd)).
    + intros sent Hsent. rewrite take_0, app_nil_r, <- Hsent.
      apply sent_on_socks. now rewrite Hso.
    + intros sent Hsent. rewrite take_0, app_nil_r, <- Hsent.
      apply sent_on_socks. now rewrite Hso.
    + intros g _ _. now rewrite Hso.
  - rewrite (Hok eq_refl) in Hop.
    destruct (perform_operation_relays ns nd w b w1 b1 Hinv Hop)
      as (d1 & d3 & Hfiles & Hle1 & Hle2 & Hsd & Hss & Hoth).
    destruct Hep as ((_ & _ & Hsp & Hdp & _) & _ & Hfs & Halive).
    destruct (Halive eq_refl) as (_ & Hso).
    pose proof (file_bytes_fs _ _ Hfs) as L.
    exists d1, d3. rewrite Hsp, Hdp, !L.
    split; [intros n; rewrite L; apply Hfiles|].
    split; [exact Hle1|]. split; [exact Hle2|]. split; [|split].
    + intros sent Hsent. rewrite <- (Hsd sent Hsent). apply sent_on_socks. now rewrite Hso.
    + intros sent Hsent. rewrite <- (Hss sent Hsent). apply sent_on_socks. now rewrite Hso.
    + intros g Hg1 Hg2. rewrite Hso. now apply Hoth.
Qed.


Lemma dispatch_relays_journal_spans_witness :
  exists w' b',
    bridge_cb world_hello bridge_conn SrcWatcher EV_READ = Some (w', b', Alive) /\
    srcPos b' = 3%nat /\
    exists from_src from_dest,
      (forall n, file_bytes w' n =
         if decide (n = "192.0.2.1:40000") then file_bytes world_hello n ++ from_src
         else if decide (n = "10.0.0.1:50000") then file_bytes world_hello n ++ from_dest
         else file_bytes world_hello n) /\
      (srcPos bridge_conn <= srcPos b')%nat /\ (destPos bridge_conn <= destPos b')%nat /\
      (forall sent, sent_on world_hello (fd (destwatcher bridge_conn)) = Some sent ->
       sent_on w' (fd (destwatcher bridge_conn))
         = Some (sent ++ take (srcPos b' - srcPos bridge_conn)
                           (drop (srcPos bridge_conn)
                                 (file_bytes w' "192.0.2.1:40000")))) /\
      (forall sent, sent_on world_hello (fd (srcwatcher bridge_conn)) = Some sent ->
       sent_on w' (fd (srcwatcher bridge_conn))
         = Some (sent ++ take (destPos b' - destPos bridge_conn)
                           (drop (destPos bridge_conn)
                                 (file_bytes w' "10.0.0.1:50000")))) /\
      (forall g, g <> fd (srcwatcher bridge_conn) -> g <> fd (destwatcher bridge_conn) ->
       w_socks w' !! g = w_socks world_hello !! g).
Proof.
  eexists _, _. split; [vm_compute; reflexivity|]. split; [reflexivity|].
  eapply (dispatch_relays_journal_spans "192.0.2.1:40000" "10.0.0.1:50000"
            world_hello bridge_conn SrcWatcher EV_READ).
  - unfold drained_inv, journals_at.
    split; [split; reflexivity|]. split; [discriminate|]. split; [discriminate|].
    split; [vm_compute; lia|]. split; [vm_compute; lia|].
    split; intros _; reflexivity.
  - vm_compute. reflexivity.
Defined.

Lemma span_join {A : Type} (J d : list A) (base p p' : nat) :
  (base <= p)%nat -> (p <= length J)%nat -> (p <= p')%nat ->
  take (p - base) (drop base J) ++ take (p' - p) (drop p (J ++ d))
    = take (p' - base) (drop base (J ++ d)).
Proof.
  intros H1 H2 H3.
  replace (drop p (J ++ d)) with (drop (p - base) (drop base (J ++ d)))
    by (rewrite drop_drop; f_equal; lia).
  rewrite (drop_app_le J d base) by lia.
  rewrite <- (take_app_le (drop base J) d (p - base)) by (rewrite length_drop; lia).
  rewrite take_take_drop. f_equal. lia.
Qed.

(** X12: what each peer has been sent is always a span of the other
    side's journal.  If at a dispatch boundary the destination socket has
    been given exactly the source journal from the offset at which the
    bridge started up to the source cursor, and the source socket the
    destination journal likewise, then the same holds after every
    dispatch that the bridge survives: replay neither loses nor repeats
    nor reorders a journalled byte, whatever the sockets answer. *)
Theorem dispatch_keeps_delivered_span (ns nd : string) (base_s base_d : nat)
    (w : World) (b : Bridge) (wh : which) (flags : Z) (w' : World) (b' : Bridge) :
  relayed_inv ns nd base_s base_d w b ->
  bridge_cb w b wh flags = Some (w', b', Alive) ->
  relayed_inv ns nd base_s base_d w' b'.
Proof.
  intros (Hinv & Hbs & Hbd & Hsd & Hss) H.
  pose proof (bridge_cb_drained_inv _ _ _ _ _ _ _ _ Hinv H) as Hinv'.
  split; [exact Hinv'|].
  destruct (bridge_cb_shape _ _ _ _ _ _ _ H)
    as [((_&_&Hsp&Hdp&_&_&_&_&F1&F2) & _ & Hfs & Halive)
       | (ok & w1 & b1 & Hop & ((_&_&Hsp&Hdp&_&_&_&_&F1&F2) & _ & Hfs & Halive) & Hok)];
    destruct (Halive eq_refl) as (_ & Hso).
  - (* no transfer step was made *)
    rewrite Hsp, Hdp, F1, F2, !(file_bytes_fs _ _ Hfs).
    split; [exact Hbs|]. split; [exact Hbd|].
    split; [rewrite <- Hsd | rewrite <- Hss]; apply sent_on_socks; now rewrite Hso.
  - rewrite (Hok eq_refl) in Hop.
    destruct (perform_operation_relays ns nd w b w1 b1 Hinv Hop)
      as (d1 & d3 & Hfiles & Hle1 & Hle2 & Hsd' & Hss' & _).
    apply perform_operation_watchers in Hop as (Hw1 & Hw2).
    destruct Hinv as (_ & Hne & _ & Ps & Pd & _).
    rewrite Hsp, Hdp, F1, F2, Hw1, Hw2, !(file_bytes_fs _ _ Hfs).
    split; [lia|]. split; [lia|].
    rewrite !(sent_on_socks w1 w') by now rewrite Hso.
    pose proof (Hfiles ns) as Hns. pose proof (Hfiles nd) as Hnd.
    destruct (decide (ns = ns)) as [_|]; [|congruence].
    destruct (decide (nd = ns)) as [|_]; [congruence|].
    destruct (decide (nd = nd)) as [_|]; [|congruence].
    split.
    + rewrite (Hsd' _ Hsd), Hns. f_equal. apply span_join; lia.
    + rewrite (Hss' _ Hss), Hnd. f_equal. apply span_join; lia.
Qed.

Lemma dispatch_keeps_delivered_span_witness :
  exists w' b',
    bridge_cb world_hello bridge_conn SrcWatcher EV_READ = Some (w', b', Alive) /\
    sent_on w' 5 = Some (bytes_of [104; 101; 108]) /\
    relayed_inv "192.0.2.1:40000" "10.0.0.1:50000" 0 0 w' b'.
Proof.
  eexists _, _. split; [vm_compute; reflexivity|]. split; [reflexivity|].
  eapply (dispatch_keeps_delivered_span "192.0.2.1:40000" "10.0.0.1:50000" 0 0
            world_hello bridge_conn SrcWatcher EV_READ).
  - unfold relayed_inv, drained_inv, journals_at.
    split; [|repeat split; vm_compute; lia].
    split; [split; reflexivity|]. split; [discriminate|]. split; [discriminate|].
    split; [vm_compute; lia|]. split; [vm_compute; lia|].
    split; intros _; reflexivity.
  - vm_compute. reflexivity.
Defined.

(** ** What a dispatch journals *)

(** [write_from_file] leaves what its socket has still to deliver. *)
Lemma write_from_file_own (w : World) (fd_ : Z) (f : nat) (name : string) (pos : nat)
    (rc : Z) (pos' : nat) (w' : World) (s : Socket) :
  stream_name w f = Some name ->
  write_from_file w fd_ f pos = Some (rc, pos', w') ->
  w_socks w !! fd_ = Some s ->
  exists s', w_socks w' !! fd_ = Some s' /\ s_rq s' = s_rq s.
Proof.
  intros Hname H Hs. unfold write_from_file in H.
  destruct (fsetpos w f pos) as [rc1 w1] eqn:E1.
  apply fsetpos_spec in E1 as (K1 & R1 & P1).
  destruct R1 as [-> | ->]; [change (negb (0 =? 0)) with false in H
                           |change (negb (-1 =? 0)) with true in H];
    cbv beta iota in H.
  2:{ injection H as <- <- <-. destruct K1 as (_ & Hso & _). cbn. rewrite Hso.
      now exists s. }
  specialize (P1 eq_refl).
  assert (Hname1 : stream_name w1 f = Some name)
    by (destruct K1 as (_ & _ & _ & _ & Hn); now rewrite Hn).
  destruct (match w_socks w1 !! fd_ with
            | Some s => (s_wq s, s_sent s)
            | None => ([WErr EBADF], [])
            end) as [wq sent0] eqn:Es.
  cbv beta iota in H.
  destruct (write_from_file_loop (S (length wq)) wq w1 f pos sent0)
    as [[[[[rc2 p2] wq2] sent2] w2]|] eqn:E2; cbv beta iota in H; [|discriminate].
  injection H as <- <- <-.
  apply (write_from_file_loop_spec f name) in E2; [|assumption..].
  destruct E2 as (K2 & _).
  assert (Hs2 : w_socks w2 !! fd_ = Some s).
  { destruct K2 as (_ & -> & _). destruct K1 as (_ & -> & _). exact Hs. }
  unfold set_wq_sent. rewrite Hs2. cbn. rewrite lookup_insert_eq.
  eexists. split; reflexivity.
Qed.

(** The replay steps: every other socket is as it was, and the socket
    written to has the same input pending. *)
Lemma bridge_source_frame (w : World) (b : Bridge) (count : nat) (ns : string)
    (ok : bool) (w' : World) (b' : Bridge) :
  stream_name w (srcFile b) = Some ns ->
  bridge_source w b count = Some (ok, w', b') ->
  (forall g, g <> fd (destwatcher b) -> w_socks w' !! g = w_socks w !! g) /\
  (forall s, w_socks w !! fd (destwatcher b) = Some s ->
   exists s', w_socks w' !! fd (destwatcher b) = Some s' /\ s_rq s' = s_rq s).
Proof.
  intros Hname H. unfold bridge_source in H.
  assert (Hmid : exists w1,
            ((forall g, g <> fd (destwatcher b) -> w_socks w1 !! g = w_socks w !! g) /\
             (forall s, w_socks w !! fd (destwatcher b) = Some s ->
              exists s', w_socks w1 !! fd (destwatcher b) = Some s' /\ s_rq s' = s_rq s)) /\
            w_socks w' = w_socks w1).
  { destruct (negb (sourceFlushed b) || (0 <? count)%nat).
    - destruct (write_from_file w (fd (destwatcher b)) (srcFile b) (srcPos b))
        as [[[rc pos'] w1]|] eqn:E; [|discriminate].
      exists w1. split.
      + split; [eapply write_from_file_others; eassumption|].
        intros s Hs. eapply write_from_file_own; eassumption.
      + unfold mbind, option_bind in H. cbv beta iota in H.
        destruct (rc =? FILE_ERROR); [injection H as _ <- _; reflexivity|].
        destruct (rc =? FILE_EOF); [|injection H as _ <- _; reflexivity].
        destruct (eofFromSource _); [|injection H as _ <- _; reflexivity].
        destruct (shutdown w1 _ SHUT_WR) as [rc2 w2] eqn:E2.
        injection H as _ <- _.
        now apply (shutdown_logged_socks _ _ _
                     "Unable to shutdown destination %d for writing: %s") in E2.
    - exists w. split; [split; [reflexivity | intros s Hs; now exists s]|].
      unfold mbind, option_bind in H. cbv beta iota in H.
      change (FILE_EOF =? FILE_ERROR) with false in H.
      change (FILE_EOF =? FILE_EOF) with true in H. cbv beta iota in H.
      destruct (eofFromSource _); [|injection H as _ <- _; reflexivity].
      destruct (shutdown w _ SHUT_WR) as [rc2 w2] eqn:E2.
      injection H as _ <- _.
      now apply (shutdown_logged_socks _ _ _
                   "Unable to shutdown destination %d for writing: %s") in E2. }
  destruct Hmid as (w1 & (Ho & Hown) & ->). split; assumption.
Qed.

Lemma bridge_destination_frame (w : World) (b : Bridge) (count : nat) (nd : string)
    (ok : bool) (w' : World) (b' : Bridge) :
  stream_name w (destFile b) = Some nd ->
  bridge_destination w b count = Some (ok, w', b') ->
  (forall g, g <> fd (srcwatcher b) -> w_socks w' !! g = w_socks w !! g) /\
  (forall s, w_socks w !! fd (srcwatcher b) = Some s ->
   exists s', w_socks w' !! fd (srcwatcher b) = Some s' /\ s_rq s' = s_rq s).
Proof.
  intros Hname H. unfold bridge_destination in H.
  assert (Hmid : exists w1,
            ((forall g, g <> fd (srcwatcher b) -> w_socks w1 !! g = w_socks w !! g) /\
             (forall s, w_socks w !! fd (srcwatcher b) = Some s ->
              exists s', w_socks w1 !! fd (srcwatcher b) = Some s' /\ s_rq s' = s_rq s)) /\
            w_socks w' = w_socks w1).
  { destruct (negb (destinationFlushed b) || (0 <? count)%nat).
    - destruct (write_from_file w (fd (srcwatcher b)) (destFile b) (destPos b))
        as [[[rc pos'] w1]|] eqn:E; [|discriminate].
      exists w1. split.
      + split; [eapply write_from_file_others; eassumption|].
        intros s Hs. eapply write_from_file_own; eassumption.
      + unfold mbind, option_bind in H. cbv beta iota in H.
        destruct (rc =? FILE_ERROR); [injection H as _ <- _; reflexivity|].
        destruct (rc =? FILE_EOF); [|injection H as _ <- _; reflexivity].
        destruct (eofFromDestination _); [|injection H as _ <- _; reflexivity].
        destruct (shutdown w1 _ SHUT_WR) as [rc2 w2] eqn:E2.
        injection H as _ <- _.
        now apply (shutdown_logged_socks _ _ _
                     "Unable to shutdown source %d for writing: %s") in E2.
    - exists w. split; [split; [reflexivity | intros s Hs; now exists s]|].
      unfold mbind, option_bind in H. cbv beta iota in H.
      change (FILE_EOF =? FILE_ERROR) with false in H.
      change (FILE_EOF =? FILE_EOF) with true in H. cbv beta iota in H.
      destruct (eofFromDestination _); [|injection H as _ <- _; reflexivity].
      destruct (shutdown w _ SHUT_WR) as [rc2 w2] eqn:E2.
      injection H as _ <- _.
      now apply (shutdown_logged_socks _ _ _
                   "Unable to shutdown source %d for writing: %s") in E2. }
  destruct Hmid as (w1 & (Ho & Hown) & ->). split; assumption.
Qed.

(** The read step of either direction, when it does not fail. *)
Lemma read_side_incoming (w : World) (fd_ : Z) (f : nat) (name : string) (s : Socket)
    (eof : bool) (rc : Z) (count : nat) (w' : World) :
  stream_name w f = Some name ->
  w_socks w !! fd_ = Some s ->
  (if negb eof then read_into_file w fd_ f else (0, 0%nat, w)) = (rc, count, w') ->
  rc <> FILE_ERROR ->
  appended w w' name (if eof then [] else incoming (s_rq s)).
Proof.
  intros Hname Hs H Hrc. destruct eof; simpl negb in H; cbv beta iota in H.
  - injection H as <- <- <-. now apply appended_nil.
  - apply (read_into_file_incoming _ _ _ name s) in H
      as (data & rest & Hin & Hrest & Happ & _); [|assumption..].
    rewrite Hin, (Hrest Hrc), app_nil_r. exact Happ.
Qed.

Lemma read_source_incoming (w : World) (b : Bridge) (ns : string) (s : Socket)
    (count : nat) (w' : World) (b' : Bridge) :
  stream_name w (srcFile b) = Some ns ->
  w_socks w !! fd (srcwatcher b) = Some s ->
  read_source w b = (true, count, w', b') ->
  appended w w' ns (if eofFromSource b then [] else incoming (s_rq s)).
Proof.
  intros Hname Hs H. unfold read_source in H.
  destruct (if negb (eofFromSource b) then _ else _) as [[rc c] w1] eqn:E in H.
  destruct (Z.eqb_spec rc FILE_ERROR) as [|Hrc]; [discriminate|].
  apply (read_side_incoming _ _ _ ns s) in E; [|assumption..].
  destruct (rc =? FILE_EOF); [|injection H as _ <- _; exact E].
  destruct (shutdown w1 _ SHUT_RD) as [rc2 w2] eqn:E2.
  injection H as _ <- _.
  pose proof (shutdown_logged_spec _ _ _
    "Unable to shutdown source %d for reading: %s" _ _ E2) as (Hfs & _).
  cbv zeta in Hfs. intros n. rewrite (file_bytes_fs _ _ Hfs). apply E.
Qed.

Lemma read_destination_incoming (w : World) (b : Bridge) (nd : string) (s : Socket)
    (count : nat) (w' : World) (b' : Bridge) :
  stream_name w (destFile b) = Some nd ->
  w_socks w !! fd (destwatcher b) = Some s ->
  read_destination w b = (true, count, w', b') ->
  appended w w' nd (if eofFromDestination b then [] else incoming (s_rq s)).
Proof.
  intros Hname Hs H. unfold read_destination in H.
  destruct (if negb (eofFromDestination b) then _ else _) as [[rc c] w1] eqn:E in H.
  destruct (Z.eqb_spec rc FILE_ERROR) as [|Hrc]; [discriminate|].
  apply (read_side_incoming _ _ _ nd s) in E; [|assumption..].
  destruct (rc =? FILE_EOF); [|injection H as _ <- _; exact E].
  destruct (shutdown w1 _ SHUT_RD) as [rc2 w2] eqn:E2.
  injection H as _ <- _.
  pose proof (shutdown_logged_spec _ _ _
    "Unable to shutdown destination %d for reading: %s" _ _ E2) as (Hfs & _).
  cbv zeta in Hfs. intros n. rewrite (file_bytes_fs _ _ Hfs). apply E.
Qed.

Lemma perform_operation_journals (ns nd : string) (w : World) (b : Bridge)
    (w' : World) (b' : Bridge) (ss sd : Socket) :
  drained_inv ns nd w b ->
  w_socks w !! fd (srcwatcher b) = Some ss ->
  w_socks w !! fd (destwatcher b) = Some sd ->
  perform_operation w b = Some (true, w', b') ->
  forall n, file_bytes w' n =
    if decide (n = ns)
    then file_bytes w n ++ (if eofFromSource b then [] else incoming (s_rq ss))
    else if decide (n = nd)
    then file_bytes w n ++ (if eofFromDestination b then [] else incoming (s_rq sd))
    else file_bytes w n.
Proof.
  intros ((Hs & Hd) & Hne & Hfd & _) Hss Hsd H. unfold perform_operation in H.
  (* Read source *)
  destruct (read_source w b) as [[[ok1 c1] w1] b1] eqn:E1.
  destruct ok1; simpl negb in H; cbv beta iota in H; [|discriminate].
  pose proof (read_source_socks _ _ ns _ _ _ _ Hs E1) as (_ & O1).
  pose proof (read_source_incoming _ _ ns ss _ _ _ Hs Hss E1) as A1.
  apply (read_source_spec _ _ ns) in E1 as (N1 & _ & B1); [|exact Hs].
  assert (Hb1 : srcFile b1 = srcFile b /\ destFile b1 = destFile b /\
                eofFromDestination b1 = eofFromDestination b /\
                fd (srcwatcher b1) = fd (srcwatcher b) /\
                fd (destwatcher b1) = fd (destwatcher b))
    by (destruct B1 as [(-> & _) | (-> & _)]; repeat split).
  clear B1. destruct Hb1 as (Hsf1 & Hdf1 & Hed1 & Hsw1 & Hdw1).
  (* bridge source to destination *)
  destruct (bridge_source w1 b1 c1) as [[[ok2 w2] b2]|] eqn:E2; [|discriminate].
  unfold mbind, option_bind in H. cbv beta iota in H.
  destruct ok2; simpl negb in H; cbv beta iota in H; [|discriminate].
  assert (Hs1 : stream_name w1 (srcFile b1) = Some ns) by (rewrite Hsf1, N1; exact Hs).
  pose proof (bridge_source_frame _ _ _ ns _ _ _ Hs1 E2) as (_ & Hown2).
  apply (bridge_source_spec _ _ _ ns) in E2
    as (N2 & FS2 & p2 & fl2 & Hb2 & _); [|exact Hs1].
  assert (Hb2' : destFile b2 = destFile b /\
                 eofFromDestination b2 = eofFromDestination b /\
                 fd (destwatcher b2) = fd (destwatcher b))
    by (rewrite Hb2; cbn; repeat split; assumption).
  destruct Hb2' as (Hdf2 & Hed2 & Hdw2). clear Hb2.
  assert (Hsd1 : w_socks w1 !! fd (destwatcher b1) = Some sd)
    by (rewrite Hdw1, O1 by congruence; exact Hsd).
  destruct (Hown2 _ Hsd1) as (sd2 & Hsd2 & Hrq2). rewrite Hdw1 in Hsd2.
  (* read destination *)
  destruct (read_destination w2 b2) as [[[ok3 c3] w3] b3] eqn:E3.
  destruct ok3; simpl negb in H; cbv beta iota in H; [|discriminate].
  assert (Hd2 : stream_name w2 (destFile b2) = Some nd)
    by (rewrite Hdf2, N2, N1; exact Hd).
  rewrite <- Hdw2 in Hsd2.
  pose proof (read_destination_incoming _ _ nd sd2 _ _ _ Hd2 Hsd2 E3) as A3.
  rewrite Hed2, Hrq2 in A3.
  apply (read_destination_spec _ _ nd) in E3 as (N3 & _ & B3); [|exact Hd2].
  assert (Hdf3 : destFile b3 = destFile b)
    by (destruct B3 as [(-> & _) | (-> & _)]; cbn; assumption).
  (* bridge destination to source *)
  assert (Hd3 : stream_name w3 (destFile b3) = Some nd)
    by (rewrite Hdf3, N3, N2, N1; exact Hd).
  apply (bridge_destination_spec _ _ _ nd) in H as (_ & FS4 & _); [|exact Hd3].
  intros n. rewrite (file_bytes_fs _ _ FS4), (A3 n), (file_bytes_fs _ _ FS2), (A1 n).
  destruct (decide (n = ns)) as [En|En]; destruct (decide (n = nd)) as [En'|En'];
    try reflexivity. congruence.
Qed.

(** X9: a dispatch journals exactly what arrived.  When a connected
    bridge in a dispatch boundary state, with both sockets open, is
    dispatched and survives, then afterwards the source journal holds
    what it held followed by the bytes the source socket delivered up to
    its first end-of-file, would-block or error answer (answers of
    [EINTR] are passed over, and no [read] takes more than
    [FILE_BUFSIZE] bytes), or by nothing when the source was at
    end-of-file already; the destination journal likewise for the
    destination socket; and no other file has changed. *)
Theorem dispatch_journals_what_arrived (ns nd : string) (w : World) (b : Bridge)
    (wh : which) (flags : Z) (w' : World) (b' : Bridge) (ss sd : Socket) :
  drained_inv ns nd w b ->
  connectedToDestination b = true ->
  w_socks w !! fd (srcwatcher b) = Some ss ->
  w_socks w !! fd (destwatcher b) = Some sd ->
  bridge_cb w b wh flags = Some (w', b', Alive) ->
  file_bytes w' ns
    = file_bytes w ns ++ (if eofFromSource b then [] else incoming (s_rq ss)) /\
  file_bytes w' nd
    = file_bytes w nd ++ (if eofFromDestination b then [] else incoming (s_rq sd)) /\
  (forall n, n <> ns -> n <> nd -> file_bytes w' n = file_bytes w n).
Proof.
  intros Hinv Hconn Hss Hsd H. unfold bridge_cb in H.
  destruct (negb (Z.land flags EV_ERROR =? 0)).
  { apply (inj Some) in H. apply bridge_del_freed in H. discriminate. }
  rewrite Hconn in H. simpl negb in H. cbv beta iota in H.
  destruct (perform_operation w b) as [[[ok w1] b1]|] eqn:E; [|discriminate].
  unfold mbind, option_bind in H. cbv beta iota in H.
  destruct ok; simpl negb in H; cbv beta iota in H; apply (inj Some) in H.
  2:{ apply bridge_del_freed in H. discriminate. }
  apply recalibrate_watchers_epilogue in H as (_ & _ & Hfs & _).
  pose proof (perform_operation_journals _ _ _ _ _ _ _ _ Hinv Hss Hsd E) as Hfiles.
  pose proof Hinv as (_ & Hne & _).
  pose proof (Hfiles ns) as Hns. pose proof (Hfiles nd) as Hnd.
  destruct (decide (ns = ns)) as [_|]; [|congruence].
  destruct (decide (nd = ns)) as [|_]; [congruence|].
  destruct (decide (nd = nd)) as [_|]; [|congruence].
  rewrite !(file_bytes_fs _ _ Hfs).
  split; [exact Hns|]. split; [exact Hnd|].
  intros n H1 H2. rewrite (file_bytes_fs _ _ Hfs), (Hfiles n).
  destruct (decide (n = ns)); [contradiction|].
  destruct (decide (n = nd)); [contradiction | reflexivity].
Qed.

Lemma dispatch_journals_what_arrived_witness :
  exists w' b' ss sd,
    w_socks world_hello !! 4 = Some ss /\ w_socks world_hello !! 5 = Some sd /\
    bridge_cb world_hello bridge_conn SrcWatcher EV_READ = Some (w', b', Alive) /\
    file_bytes w' "192.0.2.1:40000" = bytes_of [104; 101; 108; 108; 111] /\
    (file_bytes w' "192.0.2.1:40000"
       = file_bytes world_hello "192.0.2.1:40000" ++
         (if eofFromSource bridge_conn then [] else incoming (s_rq ss)) /\
     file_bytes w' "10.0.0.1:50000"
       = file_bytes world_hello "10.0.0.1:50000" ++
         (if eofFromDestination bridge_conn then [] else incoming (s_rq sd)) /\
     (forall n, n <> "192.0.2.1:40000" -> n <> "10.0.0.1:50000" ->
                file_bytes w' n = file_bytes world_hello n)).
Proof.
  eexists _, _, _, _. split; [reflexivity|]. split; [reflexivity|].
  split; [vm_compute; reflexivity|]. split; [reflexivity|].
  eapply (dispatch_journals_what_arrived "192.0.2.1:40000" "10.0.0.1:50000"
            world_hello bridge_conn SrcWatcher EV_READ).
  - unfold drained_inv, journals_at.
    split; [split; reflexivity|]. split; [discriminate|]. split; [discriminate|].
    split; [vm_compute; lia|]. split; [vm_compute; lia|].
    split; intros _; reflexivity.
  - reflexivity.
  - reflexivity.
  - reflexivity.
  - vm_compute. reflexivity.
Defined.

(** ** The end of a bridge *)

Lemma bridge_del_released (w : World) (b : Bridge) (w' : World) (b' : Bridge)
    (fate_ : fate) :
  bridge_del w b = (w', b', fate_) ->
  w_socks w' !! fd (srcwatcher b) = None /\ w_socks w' !! fd (destwatcher b) = None /\
  w_streams w' !! srcFile b = None /\ w_streams w' !! destFile b = None /\
  active (srcwatcher b') = false /\ active (destwatcher b') = false.
Proof.
  intros H. destruct (bridge_del_spec w b) as (w2 & b2 & E & -> & Hso & Hst & _).
  rewrite E in H. injection H as <- <- <-. rewrite Hso, Hst.
  repeat split.
  - destruct (decide (fd (destwatcher b) = fd (srcwatcher b))) as [->|Hne].
    + apply lookup_delete_eq.
    + rewrite lookup_delete_ne by exact Hne. apply lookup_delete_eq.
  - apply lookup_delete_eq.
  - destruct (decide (destFile b = srcFile b)) as [->|Hne].
    + apply lookup_delete_eq.
    + rewrite lookup_delete_ne by exact Hne. apply lookup_delete_eq.
  - apply lookup_delete_eq.
Qed.

(** The transfer steps leave the journal handles alone. *)
Lemma perform_operation_files (w : World) (b : Bridge) ok w' b' :
  perform_operation w b = Some (ok, w', b') ->
  srcFile b' = srcFile b /\ destFile b' = destFile b.
Proof.
  unfold perform_operation. intros H.
  destruct (read_source w b) as [[[ok1 c1] w1] b1] eqn:E1.
  apply read_source_bridge in E1.
  assert (W1 : srcFile b1 = srcFile b /\ destFile b1 = destFile b)
    by (destruct E1 as [-> | ->]; split; reflexivity).
  destruct ok1; simpl negb in H; cbv beta iota in H;
    [|injection H as <- <- <-; exact W1].
  destruct (bridge_source w1 b1 c1) as [[[ok2 w2] b2]|] eqn:E2; [|discriminate].
  apply bridge_source_bridge in E2 as (p2 & fl2 & ->).
  unfold mbind, option_bind in H. cbv beta iota in H.
  destruct ok2; simpl negb in H; cbv beta iota in H;
    [|injection H as <- <- <-; exact W1].
  destruct (read_destination w2 _) as [[[ok3 c3] w3] b3] eqn:E3.
  apply read_destination_bridge in E3.
  assert (W3 : srcFile b3 = srcFile b /\ destFile b3 = destFile b)
    by (destruct E3 as [-> | ->]; exact W1).
  destruct ok3; simpl negb in H; cbv beta iota in H;
    [|injection H as <- <- <-; exact W3].
  apply bridge_destination_bridge in H as (p4 & fl4 & ->). exact W3.
Qed.

(** X13: a bridge that [bridge_cb] frees holds nothing any more.  On
    every path on which [bridge_cb] ends with the bridge freed (the error
    flag, a failed connection, a failed transfer step, or both directions
    done), both descriptors of the bridge and both journal streams are
    closed and both watchers are stopped. *)
Theorem bridge_cb_freed_releases (w : World) (b : Bridge) (wh : which) (flags : Z)
    (w' : World) (b' : Bridge) :
  bridge_cb w b wh flags = Some (w', b', Freed) ->
  w_socks w' !! fd (srcwatcher b) = None /\ w_socks w' !! fd (destwatcher b) = None /\
  w_streams w' !! srcFile b = None /\ w_streams w' !! destFile b = None /\
  active (srcwatcher b') = false /\ active (destwatcher b') = false.
Proof.
  unfold bridge_cb. intros H.
  destruct (negb (Z.land flags EV_ERROR =? 0)).
  { apply (inj Some) in H. now apply bridge_del_released in H. }
  destruct (negb (connectedToDestination b)).
  { apply (inj Some) in H. unfold complete_connection in H.
    destruct (getsockopt_so_error w _) as [[rc ec] w0].
    destruct (negb (rc =? 0)); [now apply bridge_del_released in H|].
    destruct (ec =? 0); [discriminate | now apply bridge_del_released in H]. }
  destruct (perform_operation w b) as [[[ok w1] b1]|] eqn:E; [|discriminate].
  pose proof (perform_operation_watchers _ _ _ _ _ E) as (Hw1 & Hw2).
  pose proof (perform_operation_files _ _ _ _ _ E) as (Hf1 & Hf2).
  unfold mbind, option_bind in H. cbv beta iota in H.
  destruct ok; simpl negb in H; cbv beta iota in H; apply (inj Some) in H.
  - unfold recalibrate_watchers in H. cbv zeta in H.
    match type of H with (if ?c then _ else _) = _ => destruct c end; [|discriminate].
    apply bridge_del_released in H. cbn in H.
    rewrite !(proj1 (recalibrate_watcher_spec _ _ _)) in H.
    rewrite Hw1, Hw2, Hf1, Hf2 in H. exact H.
  - apply bridge_del_released in H. rewrite Hw1, Hw2, Hf1, Hf2 in H. exact H.
Qed.

Lemma bridge_cb_freed_releases_witness :
  exists w' b',
    bridge_cb world_broken_pipe bridge_conn SrcWatcher EV_READ = Some (w', b', Freed) /\
    (w_socks w' !! fd (srcwatcher bridge_conn) = None /\
     w_socks w' !! fd (destwatcher bridge_conn) = None /\
     w_streams w' !! srcFile bridge_conn = None /\
     w_streams w' !! destFile bridge_conn = None /\
     active (srcwatcher b') = false /\ active (destwatcher b') = false).
Proof.
  eexists _, _. split; [vm_compute; reflexivity|].
  eapply (bridge_cb_freed_releases world_broken_pipe bridge_conn SrcWatcher EV_READ).
  vm_compute. reflexivity.
Defined.

(** ** Listeners *)

Lemma set_listening_at (fd_ : Z) (reuse : bool) (local_ : sockaddr * Z)
    (backlog : option Z) (w : World) (m : gmap Z Socket) (s : Socket) :
  w_socks w = <[fd_ := s]> m ->
  w_socks (set_listening fd_ reuse local_ backlog w)
    = <[fd_ := MkSocket local_ (s_peer s) (s_rq s) (s_wq s) (s_cq s) (s_soerr s)
                        (s_sent s) (s_nonblock s) (s_cloexec s) reuse backlog]> m.
Proof.
  intros Hs. unfold set_listening. rewrite Hs, lookup_insert_eq. cbn.
  now rewrite insert_insert_eq.
Qed.

Lemma set_listening_frame (fd_ : Z) (reuse : bool) (local_ : sockaddr * Z)
    (backlog : option Z) (w : World) :
  w_streams (set_listening fd_ reuse local_ backlog w) = w_streams w /\
  w_stderr (set_listening fd_ reuse local_ backlog w) = w_stderr w /\
  w_stdout (set_listening fd_ reuse local_ backlog w) = w_stdout w.
Proof. unfold set_listening. destruct (w_socks w !! fd_); repeat split. Qed.

Lemma socket_stdout (w : World) (fd_ : Z) (w' : World) :
  socket w = (fd_, w') -> w_stdout w' = w_stdout w.
Proof.
  unfold socket, next_fault. cbv beta iota.
  destruct (match w_faults w with [] => None | r :: _ => r end);
    intros H; injection H as <- <-; reflexivity.
Qed.

(** The three calls that configure the listening socket: on failure the
    socket is as before. *)
Lemma setsockopt_reuseaddr_cases (w : World) (fd_ : Z) (m : gmap Z Socket) (s : Socket)
    (rc : Z) (w' : World) :
  w_socks w = <[fd_ := s]> m ->
  setsockopt_reuseaddr w fd_ = (rc, w') ->
  w_streams w' = w_streams w /\ w_stderr w' = w_stderr w /\ w_stdout w' = w_stdout w /\
  exists s', w_socks w' = <[fd_ := s']> m /\
    s_local s' = s_local s /\ s_backlog s' = s_backlog s /\
    s_nonblock s' = s_nonblock s /\ s_cloexec s' = s_cloexec s /\
    (rc = 0 /\ s_reuseaddr s' = true \/ rc = -1 /\ s_reuseaddr s' = s_reuseaddr s).
Proof.
  intros Hs. unfold setsockopt_reuseaddr, next_fault. cbv beta iota.
  destruct (match w_faults w with [] => None | r :: _ => r end).
  - intros H. injection H as <- <-. cbn. repeat split. exists s. auto 10.
  - cbn [w_socks set_faults]. rewrite Hs, lookup_insert_eq.
    intros H. injection H as <- <-.
    rewrite (set_listening_at fd_ _ _ _ _ m s) by exact Hs.
    match goal with |- context [set_listening ?a ?b ?c ?d ?e] =>
      destruct (set_listening_frame a b c d e) as (-> & -> & ->) end.
    repeat split. eexists. split; [reflexivity|]. cbn. auto 10.
Qed.

Lemma bind_cases (w : World) (fd_ : Z) (addr : sockaddr) (len : Z) (m : gmap Z Socket)
    (s : Socket) (rc : Z) (w' : World) :
  w_socks w = <[fd_ := s]> m ->
  bind w fd_ addr len = (rc, w') ->
  w_streams w' = w_streams w /\ w_stderr w' = w_stderr w /\ w_stdout w' = w_stdout w /\
  exists s', w_socks w' = <[fd_ := s']> m /\
    s_reuseaddr s' = s_reuseaddr s /\ s_backlog s' = s_backlog s /\
    s_nonblock s' = s_nonblock s /\ s_cloexec s' = s_cloexec s /\
    (rc = 0 /\ s_local s' = (addr, len) \/ rc = -1 /\ s_local s' = s_local s).
Proof.
  intros Hs. unfold bind, next_fault. cbv beta iota.
  destruct (match w_faults w with [] => None | r :: _ => r end).
  - intros H. injection H as <- <-. cbn. repeat split. exists s. auto 10.
  - cbn [w_socks set_faults]. rewrite Hs, lookup_insert_eq.
    intros H. injection H as <- <-.
    rewrite (set_listening_at fd_ _ _ _ _ m s) by exact Hs.
    match goal with |- context [set_listening ?a ?b ?c ?d ?e] =>
      destruct (set_listening_frame a b c d e) as (-> & -> & ->) end.
    repeat split. eexists. split; [reflexivity|]. cbn. auto 10.
Qed.

Lemma listen_cases (w : World) (fd_ : Z) (backlog : Z) (m : gmap Z Socket)
    (s : Socket) (rc : Z) (w' : World) :
  w_socks w = <[fd_ := s]> m ->
  listen w fd_ backlog = (rc, w') ->
  w_streams w' = w_streams w /\ w_stderr w' = w_stderr w /\ w_stdout w' = w_stdout w /\
  exists s', w_socks w' = <[fd_ := s']> m /\
    s_reuseaddr s' = s_reuseaddr s /\ s_local s' = s_local s /\
    s_nonblock s' = s_nonblock s /\ s_cloexec s' = s_cloexec s /\
    (rc = 0 /\ s_backlog s' = Some backlog \/ rc = -1 /\ s_backlog s' = s_backlog s).
Proof.
  intros Hs. unfold listen, next_fault. cbv beta iota.
  destruct (match w_faults w with [] => None | r :: _ => r end).
  - intros H. injection H as <- <-. cbn. repeat split. exists s. auto 10.
  - cbn [w_socks set_faults]. rewrite Hs, lookup_insert_eq.
    intros H. injection H as <- <-.
    rewrite (set_listening_at fd_ _ _ _ _ m s) by exact Hs.
    match goal with |- context [set_listening ?a ?b ?c ?d ?e] =>
      destruct (set_listening_frame a b c d e) as (-> & -> & ->) end.
    repeat split. eexists. split; [reflexivity|]. cbn. auto 10.
Qed.

Lemma close_fd_stdout (w : World) (fd_ : Z) : w_stdout (close_fd w fd_) = w_stdout w.
Proof.
  unfold close_fd. generalize (w_faults w) as faults.
  induction faults as [|[e|] faults IH]; simpl; try reflexivity.
  destruct (errno_eqb e EINTR); [exact IH | reflexivity].
Qed.

(** X14: what [start_listener] leaves behind.  From a state in which the
    next descriptor is free: when it fails (no memory, no socket, [bind]
    or [listen] failing) no descriptor is left open, nothing is printed
    on standard output and a diagnostic is written; when it succeeds,
    there is exactly one new socket, non-blocking and close-on-exec,
    bound to the address given and listening with backlog [BACKLOG], its
    watcher is started for read events, the listener is named by [satos]
    (or by the [strerror] text when that fails), and one line announces
    it on standard output.  A failing [setsockopt(SO_REUSEADDR)] does not
    stop the listener: it only leaves a diagnostic. *)
Theorem start_listener_outcomes (w : World) (addr : sockaddr) (len : Z)
    (r : option Listener) (w' : World) :
  fresh_world w ->
  start_listener w addr len = (r, w') ->
  w_streams w' = w_streams w /\
  match r with
  | None => w_socks w' = w_socks w /\ said w w' /\ w_stdout w' = w_stdout w
  | Some l =>
    watcher l = EvIo (w_nextfd w) EV_READ true /\
    address l = match satos addr len with inr s => s | inl e => strerror e end /\
    w_stdout w' = w_stdout w ++ ["Listener %d listening on %s"] /\
    exists s, w_socks w' = <[w_nextfd w := s]> (w_socks w) /\
      s_local s = (addr, len) /\ s_backlog s = Some BACKLOG /\
      s_nonblock s = true /\ s_cloexec s = true /\
      (s_reuseaddr s = true \/ said w w')
  end.
Proof.
  unfold start_listener, malloc, strdup, said. intros (Hfd0 & Hfd & _) H.
  assert (Hnone : w_socks w !! w_nextfd w = None) by (apply Hfd; lia).
  unfold next_fault at 1 in H. cbv beta iota in H.
  destruct (match w_faults w with [] => None | r :: _ => r end).
  { simpl negb in H. cbv beta iota in H. injection H as <- <-. cbn.
    rewrite length_app. cbn. repeat split. lia. }
  simpl negb in H. cbv beta iota in H.
  unfold next_fault at 1 in H. cbv beta iota in H. cbn [w_faults set_faults] in H.
  destruct (match tail (w_faults w) with [] => None | r :: _ => r end).
  { simpl negb in H. cbv beta iota in H. injection H as <- <-. cbn.
    rewrite length_app. cbn. repeat split. lia. }
  simpl negb in H. cbv beta iota in H.
  set (w0 := set_faults (tail (tail (w_faults w))) (set_faults (tail (w_faults w)) w)) in H.
  destruct (socket w0) as [fd_ w1] eqn:E1.
  pose proof (socket_stdout _ _ _ E1) as Fo1.
  apply socket_cases in E1 as (Fst1 & _ & _ & _ & _ & Fe1 & Hsock).
  destruct Hsock as [(-> & Fso1 & _) | (-> & _ & s1 & Fso1 & Hnb1 & Hce1 & _)].
  { change (-1 <? 0) with true in H. cbv beta iota in H. injection H as <- <-.
    cbn. rewrite Fst1, Fso1, Fe1, Fo1, length_app. cbn. repeat split. lia. }
  change (w_nextfd w0) with (w_nextfd w) in *. change (w_socks w0) with (w_socks w) in *.
  change (w_streams w0) with (w_streams w) in *. change (w_stderr w0) with (w_stderr w) in *.
  change (w_stdout w0) with (w_stdout w) in *.
  destruct (Z.ltb_spec (w_nextfd w) 0) as [?|_]; [lia|].
  destruct (setsockopt_reuseaddr w1 (w_nextfd w)) as [rc2 w2] eqn:E2.
  apply (setsockopt_reuseaddr_cases _ _ _ _ _ _ Fso1) in E2
    as (Fst2 & Fe2 & Fo2 & s2 & Fso2 & Hl2 & Hb2 & Hnb2 & Hce2 & Hre2).
  set (w2' := if negb (rc2 =? 0)
              then elog "Unable to make server socket %d for address %s reusable: %s" w2
              else w2) in H.
  assert (Fso2' : w_socks w2' = <[w_nextfd w := s2]> (w_socks w))
    by (subst w2'; destruct (negb (rc2 =? 0)); exact Fso2).
  assert (Fst2' : w_streams w2' = w_streams w)
    by (subst w2'; destruct (negb (rc2 =? 0)); cbn; congruence).
  assert (Fo2' : w_stdout w2' = w_stdout w)
    by (subst w2'; destruct (negb (rc2 =? 0)); cbn; congruence).
  assert (Fe2' : (length (w_stderr w) <= length (w_stderr w2'))%nat /\
                 (s_reuseaddr s2 = true \/
                  (length (w_stderr w) < length (w_stderr w2'))%nat)).
  { subst w2'. destruct Hre2 as [(-> & Hr) | (-> & _)]; cbn.
    - rewrite Fe2, Fe1. auto.
    - rewrite length_app, Fe2, Fe1. cbn. split; [lia | right; lia]. }
  clearbody w2'. destruct Fe2' as (Fe2a & Fe2b).
  destruct (bind w2' (w_nextfd w) addr len) as [rc3 w3] eqn:E3.
  apply (bind_cases _ _ _ _ _ _ _ _ Fso2') in E3
    as (Fst3 & Fe3 & Fo3 & s3 & Fso3 & Hre3 & Hb3 & Hnb3 & Hce3 & Hl3).
  destruct Hl3 as [(-> & Hl3) | (-> & _)];
    [change (negb (0 =? 0)) with false in H | change (negb (-1 =? 0)) with true in H];
    cbv beta iota in H.
  2:{ injection H as <- <-.
      match goal with |- context [close_fd (elog ?m ?x) ?g] =>
        destruct (close_fd_elog m x g) as (C1 & C2 & _ & _ & _ & _ & _ & C8) end.
      rewrite C1, C2, Fso3, delete_insert_id, Fst3, Fst2' by exact Hnone.
      rewrite Fe3 in C8. repeat split; [lia|].
      rewrite close_fd_stdout. cbn. congruence. }
  destruct (listen w3 (w_nextfd w) BACKLOG) as [rc4 w4] eqn:E4.
  apply (listen_cases _ _ _ _ _ _ _ Fso3) in E4
    as (Fst4 & Fe4 & Fo4 & s4 & Fso4 & Hre4 & Hl4 & Hnb4 & Hce4 & Hb4).
  destruct Hb4 as [(-> & Hb4) | (-> & _)];
    [change (negb (0 =? 0)) with false in H | change (negb (-1 =? 0)) with true in H];
    cbv beta iota in H.
  2:{ injection H as <- <-.
      match goal with |- context [close_fd (elog ?m ?x) ?g] =>
        destruct (close_fd_elog m x g) as (C1 & C2 & _ & _ & _ & _ & _ & C8) end.
      rewrite C1, C2, Fso4, delete_insert_id, Fst4, Fst3, Fst2' by exact Hnone.
      rewrite Fe4, Fe3 in C8. repeat split; [lia|].
      rewrite close_fd_stdout. cbn. congruence. }
  injection H as <- <-. cbn [watcher address w_streams w_stdout w_socks set_stdout].
  split; [congruence|]. split; [reflexivity|]. split; [reflexivity|].
  split; [congruence|].
  exists s4. split; [exact Fso4|].
  split; [congruence|]. split; [exact Hb4|].
  split; [congruence|]. split; [congruence|].
  destruct Fe2b as [Hr|Hlt]; [left; congruence | right].
  cbn. rewrite Fe4, Fe3. exact Hlt.
Qed.

Lemma start_listener_outcomes_witness :
  let w := set_faults [None; None; None; Some EINVAL] empty_world in
  exists l w',
    start_listener w (mk_in 127 0 0 1 8080) 16 = (Some l, w') /\
    address l = "127.0.0.1:8080" /\
    w_streams w' = w_streams w /\
    watcher l = EvIo (w_nextfd w) EV_READ true /\
    address l = match satos (mk_in 127 0 0 1 8080) 16 with
                | inr s => s
                | inl e => strerror e
                end /\
    w_stdout w' = w_stdout w ++ ["Listener %d listening on %s"] /\
    exists s, w_socks w' = <[w_nextfd w := s]> (w_socks w) /\
      s_local s = (mk_in 127 0 0 1 8080, 16) /\ s_backlog s = Some BACKLOG /\
      s_nonblock s = true /\ s_cloexec s = true /\
      (s_reuseaddr s = true \/ said w w').
Proof.
  cbv zeta. eexists _, _. split; [vm_compute; reflexivity|]. split; [reflexivity|].
  eapply (start_listener_outcomes (set_faults [None; None; None; Some EINVAL] empty_world)
            (mk_in 127 0 0 1 8080) 16 (Some _));
    [apply fresh_worldb_sound; vm_compute; reflexivity | vm_compute; reflexivity].
Defined.

(** ** Start-up *)

Lemma start_listeners_result (fuel : nat) (w : World) (airesult : list addrinfo)
    (w' : World) (visited : list addrinfo) (listeners : list Listener) :
  airesult <> [] ->
  start_listeners fuel w airesult airesult [] [] = Some (w', visited, listeners) ->
  exists cell l,
    airesult = [cell] /\
    start_listener w (ai_addr cell) (ai_addrlen cell) = (l, w') /\
    listeners = match l with Some l => [l] | None => [] end.
Proof.
  intros Hne H. destruct airesult as [|cell [|second rest]]; [contradiction| |].
  - destruct fuel as [|fuel]; [discriminate|].
    rewrite start_listeners_single in H.
    destruct (start_listener w (ai_addr cell) (ai_addrlen cell)) as [l w1] eqn:E.
    injection H as <- <- <-. exists cell, l. repeat split. exact E.
  - destruct fuel as [|fuel]; [discriminate|]. simpl in H.
    destruct (start_listener w (ai_addr cell) (ai_addrlen cell)) as [l w1].
    now rewrite start_listeners_stuck in H.
Qed.

(** X15: the ways out of [main].  Whenever [main] leaves before the
    event loop, the status is [EXIT_FAILURE], a diagnostic has been
    written, and no descriptor or stream has been opened and nothing was
    printed on standard output.  And [main] gets to [ev_run] only with
    four arguments, a destination that resolves to at least one address
    (the whole result list becomes [destaddr]) and a source that resolves
    to exactly one address, after exactly one call of [start_listener] for
    that address; the outcome of that call is not looked at, so the loop
    is entered with one listener, or with none when the call failed. *)
Theorem main_outcomes (fuel : nat) (w : World)
    (getaddrinfo : string -> string -> Z * list addrinfo) (argv : list string)
    (r : main_result) (w' : World) :
  main fuel w getaddrinfo argv = Some (r, w') ->
  match r with
  | Exit status =>
    status = EXIT_FAILURE /\ said w w' /\ w_socks w' = w_socks w /\
    w_streams w' = w_streams w /\ w_stdout w' = w_stdout w
  | EvRun destaddr listeners =>
    exists srcnode srcservice destnode destservice cell l w0,
      get_args argv = Some (srcnode, srcservice, destnode, destservice) /\
      getaddrinfo destnode destservice = (0, destaddr) /\ destaddr <> [] /\
      getaddrinfo srcnode srcservice = (0, [cell]) /\
      w_socks w0 = w_socks w /\ w_streams w0 = w_streams w /\
      w_stderr w0 = w_stderr w /\ w_stdout w0 = w_stdout w /\
      w_nextfd w0 = w_nextfd w /\
      start_listener w0 (ai_addr cell) (ai_addrlen cell) = (l, w') /\
      listeners = match l with Some l => [l] | None => [] end
  end.
Proof.
  unfold main, signal_ignore, ev_default_loop, print_usage, said. intros H.
  unfold next_fault at 1 in H. cbv beta iota in H.
  destruct (match w_faults w with [] => None | r :: _ => r end).
  { simpl negb in H. cbv beta iota in H. injection H as <- <-. cbn.
    rewrite length_app. cbn. repeat split. lia. }
  simpl negb in H. cbv beta iota in H.
  destruct (get_args argv) as [[[[srcnode srcservice] destnode] destservice]|] eqn:Hargs.
  2:{ injection H as <- <-. cbn. rewrite length_app. cbn. repeat split. lia. }
  unfold next_fault at 1 in H. cbv beta iota in H. cbn [w_faults set_faults] in H.
  destruct (match tail (w_faults w) with [] => None | r :: _ => r end).
  { simpl negb in H. cbv beta iota in H. injection H as <- <-. cbn.
    rewrite length_app. cbn. repeat split. lia. }
  simpl negb in H. cbv beta iota in H.
  set (w0 := set_faults (tail (tail (w_faults w))) (set_faults (tail (w_faults w)) w)) in H.
  destruct (getaddrinfo destnode destservice) as [rc1 destaddr] eqn:Hdest.
  destruct (Z.eqb_spec rc1 0) as [->|?]; simpl negb in H; cbv beta iota in H.
  2:{ injection H as <- <-. cbn. rewrite length_app. cbn. repeat split. lia. }
  destruct (length destaddr =? 0)%nat eqn:Hd.
  { injection H as <- <-. cbn. rewrite length_app. cbn. repeat split. lia. }
  destruct (getaddrinfo srcnode srcservice) as [rc2 airesult] eqn:Hsrc.
  destruct (Z.eqb_spec rc2 0) as [->|?]; simpl negb in H; cbv beta iota in H.
  2:{ injection H as <- <-. cbn. rewrite length_app. cbn. repeat split. lia. }
  destruct (length airesult =? 0)%nat eqn:Ha.
  { injection H as <- <-. cbn. rewrite length_app. cbn. repeat split. lia. }
  destruct (start_listeners fuel w0 airesult airesult [] []) as [[[w1 v] ls]|] eqn:E;
    [|discriminate].
  unfold mbind, option_bind in H. cbv beta iota in H. injection H as <- <-.
  apply start_listeners_result in E as (cell & l & -> & E & ->).
  2:{ intros ->. discriminate. }
  exists srcnode, srcservice, destnode, destservice, cell, l, w0.
  repeat split; try assumption. intros ->. discriminate.
Qed.

Lemma main_outcomes_witness :
  exists w',
    main 1 empty_world resolve_localhost ["connbridge"; "localhost"] = Some (Exit 1, w') /\
    (1 = EXIT_FAILURE /\ said empty_world w' /\ w_socks w' = w_socks empty_world /\
     w_streams w' = w_streams empty_world /\ w_stdout w' = w_stdout empty_world).
Proof.
  eexists. split; [vm_compute; reflexivity|].
  eapply (main_outcomes 1 empty_world resolve_localhost ["connbridge"; "localhost"]
            (Exit 1)).
  vm_compute. reflexivity.
Defined.

(** ** Arguments *)

Lemma no_usage_same (w w' : World) : w_stderr w' = w_stderr w -> no_usage w w'.
Proof. intros H. exists []. rewrite app_nil_r. split; [exact H | intros []]. Qed.

Lemma no_usage_trans (w1 w2 w3 : World) : no_usage w1 w2 -> no_usage w2 w3 -> no_usage w1 w3.
Proof.
  intros (l1 & H1 & N1) (l2 & H2 & N2). exists (l1 ++ l2).
  split; [rewrite H2, H1, app_assoc; reflexivity|].
  rewrite in_app_iff. tauto.
Qed.

Lemma no_usage_elog (msg : string) (w : World) : msg <> usage_line -> no_usage w (elog msg w).
Proof.
  intros H. exists [msg]. split; [reflexivity|]. intros [E|[]]. now apply H.
Qed.

Lemma close_fd_no_usage (w : World) (fd_ : Z) : no_usage w (close_fd w fd_).
Proof.
  unfold close_fd. generalize (w_faults w) as faults.
  induction faults as [|[e|] faults IH]; simpl;
    try (apply no_usage_same; reflexivity).
  destruct (errno_eqb e EINTR); [exact IH|].
  exists ["Unable to properly close fd %d: %s"]. split; [reflexivity|].
  intros [E|[]]. discriminate E.
Qed.

Lemma setsockopt_reuseaddr_stderr (w : World) (fd_ rc : Z) (w' : World) :
  setsockopt_reuseaddr w fd_ = (rc, w') -> w_stderr w' = w_stderr w.
Proof.
  unfold setsockopt_reuseaddr, next_fault. cbv beta iota.
  destruct (match w_faults w with [] => None | r :: _ => r end);
    [intros H; injection H as _ <-; reflexivity|].
  cbn [w_socks set_faults].
  destruct (w_socks w !! fd_); intros H; injection H as _ <-;
    [rewrite (proj1 (proj2 (set_listening_frame _ _ _ _ _))) | ]; reflexivity.
Qed.

Lemma bind_stderr (w : World) (fd_ : Z) (addr : sockaddr) (len rc : Z) (w' : World) :
  bind w fd_ addr len = (rc, w') -> w_stderr w' = w_stderr w.
Proof.
  unfold bind, next_fault. cbv beta iota.
  destruct (match w_faults w with [] => None | r :: _ => r end);
    [intros H; injection H as _ <-; reflexivity|].
  cbn [w_socks set_faults].
  destruct (w_socks w !! fd_); intros H; injection H as _ <-;
    [rewrite (proj1 (proj2 (set_listening_frame _ _ _ _ _))) | ]; reflexivity.
Qed.

Lemma listen_stderr (w : World) (fd_ backlog rc : Z) (w' : World) :
  listen w fd_ backlog = (rc, w') -> w_stderr w' = w_stderr w.
Proof.
  unfold listen, next_fault. cbv beta iota.
  destruct (match w_faults w with [] => None | r :: _ => r end);
    [intros H; injection H as _ <-; reflexivity|].
  cbn [w_socks set_faults].
  destruct (w_socks w !! fd_); intros H; injection H as _ <-;
    [rewrite (proj1 (proj2 (set_listening_frame _ _ _ _ _))) | ]; reflexivity.
Qed.

(** Whatever [start_listener] writes on standard error, it is not the
    usage line. *)
Lemma start_listener_no_usage (w : World) (addr : sockaddr) (len : Z)
    (r : option Listener) (w' : World) :
  start_listener w addr len = (r, w') -> no_usage w w'.
Proof.
  unfold start_listener, malloc, strdup. intros H.
  unfold next_fault at 1 in H. cbv beta iota in H.
  destruct (match w_faults w with [] => None | r :: _ => r end).
  { simpl negb in H. cbv beta iota in H. injection H as _ <-.
    eapply no_usage_trans; [|apply no_usage_elog; unfold usage_line; discriminate].
    apply no_usage_same. reflexivity. }
  simpl negb in H. cbv beta iota in H.
  unfold next_fault at 1 in H. cbv beta iota in H. cbn [w_faults set_faults] in H.
  destruct (match tail (w_faults w) with [] => None | r :: _ => r end).
  { simpl negb in H. cbv beta iota in H. injection H as _ <-.
    eapply no_usage_trans; [|apply no_usage_elog; unfold usage_line; discriminate].
    apply no_usage_same. reflexivity. }
  simpl negb in H. cbv beta iota in H.
  set (w0 := set_faults (tail (tail (w_faults w))) (set_faults (tail (w_faults w)) w)) in H.
  assert (N0 : no_usage w w0) by (apply no_usage_same; reflexivity).
  clearbody w0.
  destruct (socket w0) as [fd_ w1] eqn:E1.
  apply socket_cases in E1 as (_ & _ & _ & _ & _ & Fe1 & _).
  assert (N1 : no_usage w w1)
    by (eapply no_usage_trans; [exact N0 | apply no_usage_same; exact Fe1]).
  destruct (fd_ <? 0).
  { injection H as _ <-.
    eapply no_usage_trans; [exact N1 | apply no_usage_elog; unfold usage_line; discriminate]. }
  destruct (setsockopt_reuseaddr w1 fd_) as [rc2 w2] eqn:E2.
  apply setsockopt_reuseaddr_stderr in E2.
  set (w2' := if negb (rc2 =? 0)
              then elog "Unable to make server socket %d for address %s reusable: %s" w2
              else w2) in H.
  assert (N2 : no_usage w w2').
  { eapply no_usage_trans; [exact N1|].
    eapply no_usage_trans; [apply no_usage_same; exact E2|].
    subst w2'. destruct (negb (rc2 =? 0));
      [apply no_usage_elog; unfold usage_line; discriminate | apply no_usage_same; reflexivity]. }
  clearbody w2'.
  destruct (bind w2' fd_ addr len) as [rc3 w3] eqn:E3. apply bind_stderr in E3.
  assert (N3 : no_usage w w3)
    by (eapply no_usage_trans; [exact N2 | apply no_usage_same; exact E3]).
  destruct (negb (rc3 =? 0)).
  { injection H as _ <-.
    eapply no_usage_trans; [exact N3|].
    eapply no_usage_trans; [|apply close_fd_no_usage].
    apply no_usage_elog. unfold usage_line. discriminate. }
  destruct (listen w3 fd_ BACKLOG) as [rc4 w4] eqn:E4. apply listen_stderr in E4.
  assert (N4 : no_usage w w4)
    by (eapply no_usage_trans; [exact N3 | apply no_usage_same; exact E4]).
  destruct (negb (rc4 =? 0)).
  { injection H as _ <-.
    eapply no_usage_trans; [exact N4|].
    eapply no_usage_trans; [|apply close_fd_no_usage].
    apply no_usage_elog. unfold usage_line. discriminate. }
  injection H as _ <-.
  eapply no_usage_trans; [exact N4 | apply no_usage_same; reflexivity].
Qed.

(** C10: when [signal] has succeeded, [main] takes the usage path (the
    usage line on standard error and [EXIT_FAILURE], nothing else done)
    exactly when fewer than four positional arguments are given.  With
    four or more, whatever follows the fourth changes nothing in what
    [main] does; whatever [main] then writes on standard error, it is not
    the usage line; and the first four are used as the source node and
    service and the destination node and service: when the event loop is
    there, the destination resolves and the source resolves to one
    address, [main] starts the listener for that address and enters
    [ev_run]. *)
Theorem extra_arguments_ignored :
  (forall (fuel : nat) (w : World) (getaddrinfo : string -> string -> Z * list addrinfo)
          (argv : list string),
     (next_fault w).1 = None ->
     (main fuel w getaddrinfo argv =
        Some (Exit EXIT_FAILURE, print_usage (next_fault w).2 (nth 0 argv "(null)"))
      <-> Z.of_nat (length argv) - 1 < 4)) /\
  (forall fuel w getaddrinfo (progname srcnode srcservice destnode destservice : string)
          (extra : list string),
     main fuel w getaddrinfo
          (progname :: srcnode :: srcservice :: destnode :: destservice :: extra) =
     main fuel w getaddrinfo
          [progname; srcnode; srcservice; destnode; destservice]) /\
  (forall fuel w getaddrinfo (argv : list string) (r : main_result) (w' : World),
     4 <= Z.of_nat (length argv) - 1 ->
     main fuel w getaddrinfo argv = Some (r, w') ->
     no_usage w w') /\
  (forall fuel w getaddrinfo (progname srcnode srcservice destnode destservice : string)
          (extra : list string) (destaddr : list addrinfo) (cell : addrinfo),
     (next_fault w).1 = None ->
     (next_fault (next_fault w).2).1 = None ->
     getaddrinfo destnode destservice = (0, destaddr) -> destaddr <> [] ->
     getaddrinfo srcnode srcservice = (0, [cell]) ->
     main (S fuel) w getaddrinfo
          (progname :: srcnode :: srcservice :: destnode :: destservice :: extra) =
       let '(l, w') := start_listener (next_fault (next_fault w).2).2
                                      (ai_addr cell) (ai_addrlen cell) in
       Some (EvRun destaddr (match l with Some l => [l] | None => [] end), w')).
Proof.
  assert (Hfour : forall (a0 a1 a2 a3 a4 : string) (extra : list string),
            get_args (a0 :: a1 :: a2 :: a3 :: a4 :: extra) = Some (a1, a2, a3, a4)).
  { intros. unfold get_args.
    destruct (Z.leb_spec (Z.of_nat (length (a0 :: a1 :: a2 :: a3 :: a4 :: extra))) 4)
      as [H|H]; [|reflexivity].
    simpl length in H. lia. }
  assert (Hlog : forall (m : string) (w1 w0 : World),
            w_stderr w1 = w_stderr w0 ->
            m <> "Usage: %s srcaddr srcport destaddr destport" ->
            Some (Exit EXIT_FAILURE, elog m w1) <>
            Some (Exit EXIT_FAILURE,
                  elog "Usage: %s srcaddr srcport destaddr destport" w0)).
  { intros m w1 w0 He Hm H.
    apply (f_equal (fun o => match o with
                             | Some (_, w) => w_stderr w
                             | None => []
                             end)) in H.
    cbn in H. rewrite He in H. apply app_inv_head in H. congruence. }
  split; [|split; [|split]].
  - intros fuel w getaddrinfo argv Hsig.
    unfold main, signal_ignore, ev_default_loop, print_usage.
    destruct (next_fault w) as [r w0]. cbn [fst snd] in Hsig |- *. subst r.
    simpl negb. cbv beta iota. unfold get_args.
    destruct (Z.leb_spec (Z.of_nat (length argv)) 4) as [Hle|Hgt].
    + split; [intros _; lia | reflexivity].
    + split; [|lia]. intros H. exfalso. revert H.
      destruct (next_fault w0) as [r1 w1] eqn:E1.
      assert (He1 : w_stderr w1 = w_stderr w0)
        by (unfold next_fault in E1; injection E1 as _ <-; reflexivity).
      destruct r1; simpl negb; cbv beta iota; [now apply Hlog|].
      destruct (getaddrinfo (nth 3 argv "") (nth 4 argv "")) as [rc1 destaddr].
      destruct (negb (rc1 =? 0)); [now apply Hlog|].
      destruct (length destaddr =? 0)%nat; [now apply Hlog|].
      destruct (getaddrinfo (nth 1 argv "") (nth 2 argv "")) as [rc2 airesult].
      destruct (negb (rc2 =? 0)); [now apply Hlog|].
      destruct (length airesult =? 0)%nat; [now apply Hlog|].
      destruct (start_listeners fuel w1 airesult airesult [] []) as [[[w2 v] ls]|];
        cbn; discriminate.
  - intros. unfold main. rewrite !Hfour. reflexivity.
  - intros fuel w getaddrinfo argv r w' Hargc.
    unfold main, signal_ignore, ev_default_loop.
    destruct (next_fault w) as [r0 w0] eqn:E0.
    assert (N0 : no_usage w w0)
      by (unfold next_fault in E0; injection E0 as _ <-; apply no_usage_same; reflexivity).
    destruct r0; simpl negb; cbv beta iota.
    { intros H. injection H as _ <-.
      eapply no_usage_trans; [exact N0 | apply no_usage_elog; unfold usage_line; discriminate]. }
    unfold get_args.
    destruct (Z.leb_spec (Z.of_nat (length argv)) 4) as [Hle|_]; [lia|].
    destruct (next_fault w0) as [r1 w1] eqn:E1.
    assert (N1 : no_usage w w1).
    { eapply no_usage_trans; [exact N0|].
      unfold next_fault in E1. injection E1 as _ <-. apply no_usage_same. reflexivity. }
    destruct r1; simpl negb; cbv beta iota.
    { intros H. injection H as _ <-.
      eapply no_usage_trans; [exact N1 | apply no_usage_elog; unfold usage_line; discriminate]. }
    destruct (getaddrinfo (nth 3 argv "") (nth 4 argv "")) as [rc1 destaddr].
    destruct (negb (rc1 =? 0)).
    { intros H. injection H as _ <-.
      eapply no_usage_trans; [exact N1 | apply no_usage_elog; unfold usage_line; discriminate]. }
    destruct (length destaddr =? 0)%nat.
    { intros H. injection H as _ <-.
      eapply no_usage_trans; [exact N1 | apply no_usage_elog; unfold usage_line; discriminate]. }
    destruct (getaddrinfo (nth 1 argv "") (nth 2 argv "")) as [rc2 airesult].
    destruct (negb (rc2 =? 0)).
    { intros H. injection H as _ <-.
      eapply no_usage_trans; [exact N1 | apply no_usage_elog; unfold usage_line; discriminate]. }
    destruct (length airesult =? 0)%nat eqn:Hlen.
    { intros H. injection H as _ <-.
      eapply no_usage_trans; [exact N1 | apply no_usage_elog; unfold usage_line; discriminate]. }
    destruct (start_listeners fuel w1 airesult airesult [] []) as [[[w2 v] ls]|] eqn:Els;
      [|discriminate].
    cbn. intros H. injection H as _ <-.
    apply start_listeners_result in Els as (cell & l & _ & Hl & _).
    + eapply no_usage_trans; [exact N1 | exact (start_listener_no_usage _ _ _ _ _ Hl)].
    + intros ->. discriminate Hlen.
  - intros fuel w getaddrinfo progname srcnode srcservice destnode destservice extra
           destaddr cell Hsig Hloop Hdest Hne Hsrc.
    unfold main, signal_ignore, ev_default_loop. rewrite Hfour.
    destruct (next_fault w) as [r w0]. cbn [fst snd] in Hsig, Hloop |- *. subst r.
    destruct (next_fault w0) as [r1 w1]. cbn [fst snd] in Hloop |- *. subst r1.
    simpl negb. cbv beta iota. rewrite Hdest, Hsrc. change (negb (0 =? 0)) with false. cbv beta iota.
    destruct destaddr as [|d ds]; [contradiction|].
    change (length (d :: ds) =? 0)%nat with false.
    change (length [cell] =? 0)%nat with false. cbv beta iota.
    rewrite start_listeners_single.
    destruct (start_listener w1 (ai_addr cell) (ai_addrlen cell)) as [l w2].
    reflexivity.
Qed.

Lemma extra_arguments_ignored_witness :
  main 1 empty_world resolve_bridge
       ["connbridge"; "0.0.0.0"; "8080"; "10.0.0.7"; "80"; "--verbose"; "now"] =
    (let '(l, w') := start_listener (next_fault (next_fault empty_world).2).2
                                    (mk_in 0 0 0 0 8080) 16 in
     Some (EvRun [upstream] (match l with Some l => [l] | None => [] end), w')) /\
  main 1 empty_world resolve_bridge ["connbridge"; "0.0.0.0"; "8080"; "10.0.0.7"] =
    Some (Exit EXIT_FAILURE, print_usage (next_fault empty_world).2 "connbridge") /\
  (exists r w',
     main 1 empty_world resolve_bridge
          ["connbridge"; "0.0.0.0"; "8080"; "10.0.0.7"; "80"; "--verbose"; "now"]
       = Some (r, w') /\ no_usage empty_world w').
Proof.
  split; [|split].
  - apply (proj2 (proj2 (proj2 extra_arguments_ignored)) 0%nat empty_world resolve_bridge
             "connbridge" "0.0.0.0" "8080" "10.0.0.7" "80" ["--verbose"; "now"]
             [upstream] (cell_of (mk_in 0 0 0 0 8080) 16));
      try reflexivity. discriminate.
  - apply (proj1 extra_arguments_ignored 1%nat empty_world resolve_bridge
             ["connbridge"; "0.0.0.0"; "8080"; "10.0.0.7"] eq_refl).
    simpl. lia.
  - eexists _, _. split; [vm_compute; reflexivity|].
    eapply (proj1 (proj2 (proj2 extra_arguments_ignored)) 1%nat empty_world resolve_bridge
              ["connbridge"; "0.0.0.0"; "8080"; "10.0.0.7"; "80"; "--verbose"; "now"]).
    + simpl. lia.
    + vm_compute. reflexivity.
Defined.

(** ** Half-close, again and again *)

(** X16: the write half of the destination is shut down again in every
    later dispatch.  Once the source is at end-of-file and its journal is
    marked flushed, a dispatch of the connected bridge (without the error
    flag) reads nothing from the source (the input pending on the source
    socket is as before), replays nothing to the destination (the bytes
    the destination socket has taken are as before), leaves the source
    cursor where it is, writes to no file but the destination journal,
    and calls [shutdown( destination, SHUT_WR )] once more, before it
    turns to the destination side and whatever becomes of the bridge
    afterwards. *)
Theorem write_half_shutdown_repeated (nd : string) (w : World) (b : Bridge)
    (wh : which) (flags : Z) (w' : World) (b' : Bridge) (fate_ : fate) :
  Z.land flags EV_ERROR = 0 ->
  connectedToDestination b = true ->
  eofFromSource b = true -> sourceFlushed b = true ->
  stream_name w (destFile b) = Some nd ->
  fd (srcwatcher b) <> fd (destwatcher b) ->
  bridge_cb w b wh flags = Some (w', b', fate_) ->
  srcPos b' = srcPos b /\
  (exists later, w_shut w' = later ++ (fd (destwatcher b), SHUT_WR) :: w_shut w) /\
  (forall s s', w_socks w !! fd (srcwatcher b) = Some s ->
                w_socks w' !! fd (srcwatcher b) = Some s' -> s_rq s' = s_rq s) /\
  (forall s s', w_socks w !! fd (destwatcher b) = Some s ->
                w_socks w' !! fd (destwatcher b) = Some s' -> s_sent s' = s_sent s) /\
  (exists data, appended w w' nd data).
Proof.
  intros Hflags Hconn Heof Hfl Hd Hfds H. unfold bridge_cb in H.
  rewrite Hflags, Hconn in H. change (negb (0 =? 0)) with false in H.
  simpl negb in H. cbv beta iota in H.
  destruct (perform_operation w b) as [[[ok w4] b4]|] eqn:E; [|discriminate].
  unfold mbind, option_bind in H. cbv beta iota in H.
  pose proof (perform_operation_watchers _ _ _ _ _ E) as (Hw1 & Hw2).
  assert (Hop : srcPos b4 = srcPos b /\
                (exists later,
                   w_shut w4 = later ++ (fd (destwatcher b), SHUT_WR) :: w_shut w) /\
                (forall s, w_socks w !! fd (srcwatcher b) = Some s ->
                   exists s', w_socks w4 !! fd (srcwatcher b) = Some s' /\
                              s_rq s' = s_rq s) /\
                sent_on w4 (fd (destwatcher b)) = sent_on w (fd (destwatcher b)) /\
                exists data, appended w w4 nd data).
  { clear H Hw1 Hw2. unfold perform_operation, read_source in E. rewrite Heof in E.
    simpl negb in E. cbv beta iota in E.
    change (0 =? FILE_ERROR) with false in E. change (0 =? FILE_EOF) with false in E.
    cbv beta iota in E. simpl negb in E. cbv beta iota in E.
    unfold bridge_source in E. rewrite Hfl in E. simpl negb in E.
    change (false || (0 <? 0)%nat) with false in E. cbv beta iota in E.
    unfold mbind, option_bind in E. cbv beta iota in E.
    change (FILE_EOF =? FILE_ERROR) with false in E.
    change (FILE_EOF =? FILE_EOF) with true in E. cbv beta iota in E.
    change (eofFromSource (set_sourceFlushed true b)) with (eofFromSource b) in E.
    rewrite Heof in E.
    destruct (shutdown w (fd (destwatcher b)) SHUT_WR) as [rc2 w2] eqn:E2.
    pose proof (shutdown_logged_spec _ _ _
      "Unable to shutdown destination %d for writing: %s" _ _ E2)
      as (Hfs2 & Hst2 & Hso2 & Hsh2).
    cbv zeta in Hfs2, Hst2, Hso2, Hsh2. cbv beta iota in E.
    change (fd (destwatcher (set_sourceFlushed true b))) with (fd (destwatcher b)) in E.
    rewrite E2 in E. cbv beta iota in E. simpl negb in E. cbv beta iota in E.
    set (w2' := if negb (rc2 =? 0)
                then elog "Unable to shutdown destination %d for writing: %s" w2
                else w2) in *.
    clearbody w2'.
    destruct (read_destination w2' (set_sourceFlushed true b))
      as [[[ok3 c3] w3] b3] eqn:E3.
    assert (Hd2 : stream_name w2' (destFile (set_sourceFlushed true b)) = Some nd)
      by (cbn; rewrite (stream_name_streams _ _ Hst2); exact Hd).
    pose proof (read_destination_socks _ _ nd _ _ _ _ Hd2 E3) as (S3 & O3).
    cbn [destwatcher set_sourceFlushed] in O3.
    apply (read_destination_spec _ _ nd) in E3; [|exact Hd2].
    destruct E3 as (N3 & (d3 & _ & A3) & B3).
    assert (A3' : appended w w3 nd d3).
    { intros n. rewrite (A3 n), !(file_bytes_fs _ _ Hfs2). reflexivity. }
    assert (Hsrc3 : w_socks w3 !! fd (srcwatcher b) = w_socks w !! fd (srcwatcher b))
      by (rewrite O3, Hso2 by exact Hfds; reflexivity).
    assert (Hsent3 : sent_on w3 (fd (destwatcher b)) = sent_on w (fd (destwatcher b)))
      by (rewrite S3; apply sent_on_socks; now rewrite Hso2).
    assert (B3' : srcPos b3 = srcPos b /\ destFile b3 = destFile b /\
                  fd (srcwatcher b3) = fd (srcwatcher b) /\
                  exists l3, w_shut w3 = l3 ++ (fd (destwatcher b), SHUT_WR) :: w_shut w).
    { destruct B3 as [(-> & ->) | (-> & _ & ->)]; cbn; rewrite Hsh2;
        (split; [reflexivity|]); (split; [reflexivity|]); (split; [reflexivity|]).
      - exists []. reflexivity.
      - eexists [_]. reflexivity. }
    destruct B3' as (Hp3 & Hf3 & Hsw3 & l3 & Hsh3).
    destruct ok3; simpl negb in E; cbv beta iota in E.
    2:{ injection E as <- <- <-. split; [exact Hp3|]. split; [exists l3; exact Hsh3|].
        split; [intros s Hs; exists s; split; [now rewrite Hsrc3 | reflexivity]|].
        split; [exact Hsent3 | exists d3; exact A3']. }
    assert (Hd3 : stream_name w3 (destFile b3) = Some nd)
      by (rewrite Hf3, N3; exact Hd2).
    pose proof (bridge_destination_frame _ _ _ nd _ _ _ Hd3 E) as (O4 & Hown4).
    rewrite Hsw3 in O4, Hown4.
    apply (bridge_destination_spec _ _ _ nd) in E; [|exact Hd3].
    destruct E as (_ & FS4 & p4 & fl4 & -> & _ & _ & _ & Sh4). cbn.
    split; [exact Hp3|]. split.
    { destruct Sh4 as [-> | (-> & _)]; rewrite Hsh3.
      - exists l3. reflexivity.
      - eexists (_ :: l3). reflexivity. }
    split.
    { intros s Hs. rewrite <- Hsrc3 in Hs. exact (Hown4 s Hs). }
    split.
    { rewrite <- Hsent3. apply sent_on_socks. apply O4. congruence. }
    exists d3. intros n. rewrite (file_bytes_fs _ _ FS4). apply A3'. }
  destruct Hop as (Hp & (later & Hsh) & Hrq & Hsent & data & Happ).
  assert (Hep : epilogue w4 b4 w' b' fate_ /\
                (w_socks w' = w_socks w4 \/
                 w_socks w' !! fd (srcwatcher b) = None /\
                 w_socks w' !! fd (destwatcher b) = None)).
  { destruct ok; simpl negb in H; cbv beta iota in H; apply (inj Some) in H.
    - split; [now apply recalibrate_watchers_epilogue in H|].
      unfold recalibrate_watchers in H. cbv zeta in H.
      match type of H with (if ?c then _ else _) = _ => destruct c end.
      + right. apply bridge_del_released in H as (R1 & R2 & _). cbn in R1, R2.
        rewrite (proj1 (recalibrate_watcher_spec _ _ _)) in R1.
        rewrite (proj1 (recalibrate_watcher_spec _ _ _)) in R2.
        rewrite Hw1 in R1. rewrite Hw2 in R2. split; assumption.
      + left. injection H as <- _ _. reflexivity.
    - split; [now apply bridge_del_epilogue in H|].
      right. apply bridge_del_released in H as (R1 & R2 & _).
      rewrite Hw1 in R1. rewrite Hw2 in R2. split; assumption. }
  destruct Hep as (((_ & _ & Hsp & _) & Hsh' & Hfs' & _) & Hsocks).
  split; [congruence|]. split; [exists later; congruence|].
  split; [|split].
  - intros s s' Hs Hs'. destruct Hsocks as [Hso | (Hn & _)]; [|congruence].
    destruct (Hrq s Hs) as (s4 & Hs4 & Hrq4). rewrite Hso, Hs4 in Hs'. congruence.
  - intros s s' Hs Hs'. destruct Hsocks as [Hso | (_ & Hn)]; [|congruence].
    assert (Hx : sent_on w' (fd (destwatcher b)) = sent_on w (fd (destwatcher b)))
      by (rewrite <- Hsent; apply sent_on_socks; now rewrite Hso).
    unfold sent_on in Hx. rewrite Hs, Hs' in Hx. cbn in Hx. congruence.
  - exists data. intros n. rewrite (file_bytes_fs _ _ Hfs'). apply Happ.
Qed.

Lemma write_half_shutdown_repeated_witness :
  exists w' b' fate_,
    bridge_cb (world_bridged [RData (bytes_of [104; 105])] [] [] [])
      (set_eofFromSource true bridge_conn) DestWatcher EV_READ
      = Some (w', b', fate_) /\
    w_shut w' = [(5, SHUT_WR)] /\
    (s_rq <$> w_socks w' !! 4) = Some [RData (bytes_of [104; 105])] /\
    (srcPos b' = srcPos (set_eofFromSource true bridge_conn) /\
     exists later,
       w_shut w' = later ++ (fd (destwatcher (set_eofFromSource true bridge_conn)), SHUT_WR)
                              :: w_shut (world_bridged [RData (bytes_of [104; 105])]
                                           [] [] [])).
Proof.
  eexists _, _, _. split; [vm_compute; reflexivity|]. split; [reflexivity|].
  split; [reflexivity|].
  pose proof (write_half_shutdown_repeated "10.0.0.1:50000"
                (world_bridged [RData (bytes_of [104; 105])] [] [] [])
                (set_eofFromSource true bridge_conn) DestWatcher EV_READ) as H.
  edestruct H as (H1 & H2 & _); [reflexivity..| discriminate | vm_compute; reflexivity |].
  split; [exact H1 | exact H2].
Defined.
(** ** Where a new bridge starts *)

(** X17: a new bridge starts behind what the journals already hold.  For
    every bridge that [bridge_init] returns: the source journal is named
    by [satos] of the client address; the two streams of the bridge are
    open on the two journals; opening them has changed no file; and both
    cursors stand at the end of the journals as they were before the
    call, whatever an earlier connection has journalled under the same
    names, and also when both names are the same file.  When moreover
    the two journals are two files, the two descriptors differ and
    nothing has been sent on the two sockets yet, the bridge is in the
    dispatch boundary state in which each socket has been given the
    (empty) span of the other side's journal from these offsets on. *)
Theorem new_bridge_starts_at_journal_end (w : World) (destaddr : addrinfo)
    (srcfd srcaddrlen : Z) (srcaddr : sockaddr) (b : Bridge) (w' : World) :
  fresh_world w ->
  bridge_init w destaddr srcfd srcaddrlen srcaddr = (Some b, w') ->
  exists ns nd,
    satos srcaddr srcaddrlen = inr ns /\
    stream_name w' (srcFile b) = Some ns /\ stream_name w' (destFile b) = Some nd /\
    (forall n, file_bytes w' n = file_bytes w n) /\
    srcPos b = length (file_bytes w ns) /\ destPos b = length (file_bytes w nd) /\
    (ns <> nd -> fd (srcwatcher b) <> fd (destwatcher b) ->
     sent_on w' (fd (srcwatcher b)) = Some [] ->
     sent_on w' (fd (destwatcher b)) = Some [] ->
     relayed_inv ns nd (srcPos b) (destPos b) w' b).
Proof.
  intros Hfresh H.
  pose proof (bridge_init_frame _ _ _ _ _ _ _ Hfresh H) as (_ & _ & _ & Hfb & _).
  pose proof H as H'.
  apply bridge_init_spec in H'
    as (ns & nd & s & Hns & _ & _ & _ & _ & (Hs & Hd) & Hp1 & Hp2 & _ & Hf1 & Hf2 & Hf3
        & Hf4 & _).
  exists ns, nd. split; [exact Hns|]. split; [exact Hs|]. split; [exact Hd|].
  split; [exact Hfb|].
  split; [now rewrite <- Hfb|]. split; [now rewrite <- Hfb|].
  intros Hnames Hfds Hss Hsd.
  unfold relayed_inv. rewrite !Nat.sub_diag, !take_0.
  split; [|repeat split; try lia; assumption].
  unfold drained_inv, journals_at.
  split; [split; assumption|]. split; [exact Hnames|]. split; [exact Hfds|].
  split; [lia|]. split; [lia|]. split; intros _; assumption.
Qed.

Lemma new_bridge_starts_at_journal_end_witness :
  exists b w',
    bridge_init world_redial upstream 4 16 client = (Some b, w') /\
    srcPos b = 10%nat /\ destPos b = 2%nat /\
    exists ns nd,
      satos client 16 = inr ns /\
      stream_name w' (srcFile b) = Some ns /\ stream_name w' (destFile b) = Some nd /\
      (forall n, file_bytes w' n = file_bytes world_redial n) /\
      srcPos b = length (file_bytes world_redial ns) /\
      destPos b = length (file_bytes world_redial nd) /\
      (ns <> nd -> fd (srcwatcher b) <> fd (destwatcher b) ->
       sent_on w' (fd (srcwatcher b)) = Some [] ->
       sent_on w' (fd (destwatcher b)) = Some [] ->
       relayed_inv ns nd (srcPos b) (destPos b) w' b).
Proof.
  eexists _, _. split; [vm_compute; reflexivity|].
  split; [reflexivity|]. split; [reflexivity|].
  eapply (new_bridge_starts_at_journal_end world_redial upstream 4 16 client).
  - apply fresh_worldb_sound. vm_compute. reflexivity.
  - vm_compute. reflexivity.
Defined.
